(** * RTC basics: calendar validation, week-of-month and the DST flows

    A shallow embedding of [main.c] of the RTC basics example.  Unsigned
    32-bit values are integers in [0, 2^32) with the wrap-around written out.
    The pure helpers ([validate_date_time], [get_week_of_month]) come first,
    then the serial-line readers ([get_character], [fetch_time_data]),
    [construct_time_format], the two operator flows ([set_new_time],
    [set_dst_feature]) and the loop of [main] as state-passing code over the
    program's globals and the hardware it talks to.

    The driver library and the C library are outside main.c: the day-of-week
    routine, sscanf and the driver's leap-year test are parameters of the
    code that calls them, the clock driver answers commits from a script held
    in the state, and every commit is logged.
    The alarm interrupt ([rtc_isr]) only hands [dst_time] to the driver and
    is left out, as is the start-up code of [main] before its loop.

    After the claims of the specification come properties of the same code
    on every input: what the readers return, what
    [construct_time_format] computes, and what the flows and the main loop
    keep true. *)

From Stdlib Require Import ZArith List Lia Bool.
From Stdlib Require String Ascii.
Import ListNotations.
Open Scope Z_scope.

(** ** Machine integers *)

Definition wrap32 (x : Z) : Z := x mod 2 ^ 32.
Definition wrap8 (x : Z) : Z := x mod 2 ^ 8.
Definition uint32 (x : Z) : Prop := 0 <= x < 2 ^ 32.

(** ** Macros of main.c *)

Definition UART_TIMEOUT_MS : Z := 10.
Definition INPUT_TIMEOUT_MS : Z := 120000.
Definition STRING_BUFFER_SIZE : Z := 80.

Definition RTC_CMD_SET_DATE_TIME : Z := 49.    (* '1' *)
Definition RTC_CMD_CONFIG_DST : Z := 50.       (* '2' *)
Definition RTC_CMD_ENABLE_DST : Z := 49.       (* '1' *)
Definition RTC_CMD_DISABLE_DST : Z := 50.      (* '2' *)
Definition RTC_CMD_QUIT_CONFIG_DST : Z := 51.  (* '3' *)
Definition FIXED_DST_FORMAT : Z := 49.         (* '1' *)
Definition RELATIVE_DST_FORMAT : Z := 50.      (* '2' *)

Definition MIN_SPACE_KEY_COUNT_NEW_TIME : Z := 5.
Definition MIN_SPACE_KEY_COUNT_DST_TIME : Z := 3.

Definition MAX_SEC_OR_MIN : Z := 60.
Definition MAX_HOURS_24H : Z := 23.
Definition MONTHS_PER_YEAR : Z := 12.

Definition DST_DISABLED_FLAG : Z := 0.
Definition DST_VALID_START_TIME_FLAG : Z := 1.
Definition DST_VALID_END_TIME_FLAG : Z := 2.
Definition DST_ENABLED_FLAG : Z := 3.

Definition IS_SEC_VALID (sec : Z) : bool := sec <=? MAX_SEC_OR_MIN.
Definition IS_MIN_VALID (min : Z) : bool := min <=? MAX_SEC_OR_MIN.
Definition IS_HOUR_VALID (hour : Z) : bool := hour <=? MAX_HOURS_24H.
Definition IS_MONTH_VALID (month : Z) : bool :=
  (0 <? month) && (month <=? MONTHS_PER_YEAR).
Definition IS_YEAR_VALID (year : Z) : bool := 0 <? year.
Definition IS_LEAP_YEAR (year : Z) : bool :=
  ((0 =? year mod 4) && negb (0 =? year mod 100)) || (0 =? year mod 400).

(** ** validate_date_time *)

(** [days_in_month_table]: DAYS_IN_JANUARY .. DAYS_IN_DECEMBER. *)
Definition days_in_month_table : list Z :=
  [31; 28; 31; 30; 31; 30; 31; 31; 30; 31; 30; 31].

(** A run of code that indexes a fixed array: [reads] lists the indices it
    used, in order, and [result] is [None] when one of them fell outside the
    array (the C behaviour is undefined there). *)
Record traced (A : Type) : Type := Traced { reads : list Z; result : option A }.
Arguments Traced {A} _ _.
Arguments reads {A} _.
Arguments result {A} _.

Definition in_bounds (table : list Z) (i : Z) : bool :=
  (0 <=? i) && (i <? Z.of_nat (length table)).

(** [table[i]] *)
Definition table_read (table : list Z) (i : Z) : traced Z :=
  Traced [i] (if in_bounds table i then nth_error table (Z.to_nat i) else None).

Definition tbind {A B} (m : traced A) (k : A -> traced B) : traced B :=
  match result m with
  | Some a => Traced (reads m ++ reads (k a)) (result (k a))
  | None => Traced (reads m) None
  end.
Definition tret {A} (a : A) : traced A := Traced [] (Some a).

(** The body of [validate_date_time]; [&] on the 0/1 values of the macros is
    [&&] on booleans, and all five macros are evaluated. *)
Definition validate_date_time_run (sec min hour mday month year : Z) : traced bool :=
  let rslt := IS_SEC_VALID sec && IS_MIN_VALID min && IS_HOUR_VALID hour
              && IS_MONTH_VALID month && IS_YEAR_VALID year in
  if rslt then
    tbind (table_read days_in_month_table (wrap32 (month - 1)))
      (fun days_in_month =>
         let days_in_month :=
           if IS_LEAP_YEAR year && (month =? 2)
           then wrap8 (days_in_month + 1) else days_in_month in
         tret (rslt && ((0 <? mday) && (mday <=? days_in_month))))
  else tret rslt.

Definition validate_date_time (sec min hour mday month year : Z) : option bool :=
  result (validate_date_time_run sec min hour mday month year).

(** The number of days the validator allows in [month] of [year], for a month
    in 1..12: the table entry, plus one for February of a leap year. *)
Definition month_length (month year : Z) : Z :=
  nth (Z.to_nat (month - 1)) days_in_month_table 0
  + (if IS_LEAP_YEAR year && (month =? 2) then 1 else 0).

(** What the validator accepts: every field in its range and the day within
    the month. *)
Definition date_time_in_range (sec min hour mday month year : Z) : Prop :=
  sec <= 60 /\ min <= 60 /\ hour <= 23 /\ 1 <= month <= 12 /\ 0 < year
  /\ 1 <= mday <= month_length month year.

(** ** get_week_of_month *)

(** The [while (day > weekend_day)] loop; [fuel] bounds the iterations. *)
Fixpoint week_loop (fuel : nat) (day count weekend_day : Z) : option Z :=
  match fuel with
  | O => None
  | S fuel' =>
      if weekend_day <? day
      then week_loop fuel' day (wrap32 (count + 1)) (wrap32 (weekend_day + 7))
      else Some count
  end.

Section WeekOfMonth.
(** The driver's day-of-week routine; its code is not part of main.c. *)
Variable Cy_RTC_ConvertDayOfWeek : Z -> Z -> Z -> Z.

Definition get_week_of_month (fuel : nat) (day month year : Z) : option Z :=
  let count := 1 in
  let day_of_week := Cy_RTC_ConvertDayOfWeek 1 month year in
  let weekend_day := wrap32 (8 - day_of_week) in
  week_loop fuel day count weekend_day.
End WeekOfMonth.

(** Modelled from the spec: the day-of-week collaborator "implements the
    standard Gregorian day-of-week algorithm"; the routine itself
    (Cy_RTC_ConvertDayOfWeek) belongs to the driver library.  Index 1 is
    Sunday and 7 is Saturday, as [tm_wday = dayOfWeek - 1] in
    [construct_time_format] requires. *)
Definition gregorian_day_of_week (day month year : Z) : Z :=
  let t := nth (Z.to_nat (month - 1)) [0; 3; 2; 5; 0; 3; 5; 1; 4; 6; 2; 4] 0 in
  let y := if month <? 3 then year - 1 else year in
  (y + y / 4 - y / 100 + y / 400 + t + day) mod 7 + 1.

(** ** Driver types *)

Inductive cy_en_rtc_dst_format_t : Type := CY_RTC_DST_RELATIVE | CY_RTC_DST_FIXED.

(** cy_stc_rtc_dst_format_t: one rule point of the DST schedule. *)
Record cy_stc_rtc_dst_format_t : Type := mkDstFormat {
  dst_format : cy_en_rtc_dst_format_t;
  dst_hour : Z;
  dst_dayOfMonth : Z;
  dst_weekOfMonth : Z;
  dst_dayOfWeek : Z;
  dst_month : Z
}.

(** cy_stc_rtc_dst_t *)
Record cy_stc_rtc_dst_t : Type := mkDst {
  startDst : cy_stc_rtc_dst_format_t;
  stopDst : cy_stc_rtc_dst_format_t
}.

(** cy_stc_rtc_config_t, the fields main.c reads. *)
Record cy_stc_rtc_config_t : Type := mkRtcConfig {
  t_sec : Z; t_min : Z; t_hour : Z; t_date : Z; t_month : Z; t_year : Z;
  t_dayOfWeek : Z
}.

Inductive cy_en_scb_uart_status_t : Type := CY_SCB_UART_SUCCESS | CY_SCB_UART_BAD_PARAM.

Definition uart_ok (r : cy_en_scb_uart_status_t) : bool :=
  match r with CY_SCB_UART_SUCCESS => true | CY_SCB_UART_BAD_PARAM => false end.

(** Status of an RTC driver call: CY_RTC_SUCCESS (which is also
    CY_RSLT_SUCCESS) is 0, every other code is a rejection. *)
Definition CY_RTC_SUCCESS : Z := 0.
Definition CY_RSLT_SUCCESS : Z := 0.

Definition CY_SCB_UART_RX_NO_DATA : Z := 4294967295.

(** ** What the program prints and what it asks of the RTC driver *)

(** One constructor per printf text.  The six "Invalid values! Please enter
    the values in specified format" texts differ only in their spacing and
    share [MsgInvalidValues]. *)
Inductive message : Type :=
| MsgDstStatusActive | MsgDstStatusInactive | MsgDstStatusDisabled
| MsgAvailableDstCommands | MsgEnableDstOption | MsgDisableDstOption | MsgQuitDstOption
| MsgEnterDstFormat | MsgFixedFormatOption | MsgRelativeFormatOption
| MsgEnterDstStart | MsgEnterDstEnd
| MsgInvalidValues | MsgTimeout
| MsgDstTimeUpdated | MsgDstFeatureDisabled | MsgExitDstConfig
| MsgEnterTime | MsgRtcTimeUpdated
| MsgNewline | MsgCmdSetTime | MsgCmdConfigDst.

Inductive console_event : Type :=
| Print (m : message)
| Echo (ch : Z)                                     (* Cy_SCB_UART_Put *)
| ShowClock (now : cy_stc_rtc_config_t) (century : Z). (* strftime + printf *)

(** A commit handed to the clock driver. *)
Inductive rtc_call : Type :=
| SetDateAndTimeDirect (sec min hour date month year : Z)
| EnableDstTime (dst : cy_stc_rtc_dst_t) (now : cy_stc_rtc_config_t).

(** ** Program state *)

(** The globals of main.c ([century_data], [current_time], [dst_time], and the
    function-static [dst_data_flag]), the hardware as the program sees it, and
    a record of what the program did to the outside.

    - [uart_rx]: the values the coming calls of Cy_SCB_UART_Get return, one
      per call; an empty list is a quiet line (CY_SCB_UART_RX_NO_DATA).
    - [rtc_clock], [rtc_dst_active]: what Cy_RTC_GetDateAndTime and
      Cy_RTC_GetDstStatus report.
    - [rtc_replies]: the status codes of the coming commits
      (Cy_RTC_SetDateAndTimeDirect, Cy_RTC_EnableDstTime), one per call;
      CY_RTC_SUCCESS once the list is used up.
    - [console], [rtc_log]: everything sent to the UART and every commit
      made, oldest first. *)
Record state : Type := mkState {
  century_data : Z;
  current_time : cy_stc_rtc_config_t;
  dst_time : cy_stc_rtc_dst_t;
  dst_data_flag : Z;
  uart_rx : list Z;
  rtc_clock : cy_stc_rtc_config_t;
  rtc_dst_active : bool;
  rtc_replies : list Z;
  irq_enabled : bool;
  console : list console_event;
  rtc_log : list rtc_call
}.

Definition set_century_data (v : Z) (s : state) : state :=
  mkState v (current_time s) (dst_time s) (dst_data_flag s) (uart_rx s)
    (rtc_clock s) (rtc_dst_active s) (rtc_replies s) (irq_enabled s)
    (console s) (rtc_log s).
Definition set_current_time (v : cy_stc_rtc_config_t) (s : state) : state :=
  mkState (century_data s) v (dst_time s) (dst_data_flag s) (uart_rx s)
    (rtc_clock s) (rtc_dst_active s) (rtc_replies s) (irq_enabled s)
    (console s) (rtc_log s).
Definition set_dst_time (v : cy_stc_rtc_dst_t) (s : state) : state :=
  mkState (century_data s) (current_time s) v (dst_data_flag s) (uart_rx s)
    (rtc_clock s) (rtc_dst_active s) (rtc_replies s) (irq_enabled s)
    (console s) (rtc_log s).
Definition set_dst_data_flag (v : Z) (s : state) : state :=
  mkState (century_data s) (current_time s) (dst_time s) v (uart_rx s)
    (rtc_clock s) (rtc_dst_active s) (rtc_replies s) (irq_enabled s)
    (console s) (rtc_log s).
Definition set_uart_rx (v : list Z) (s : state) : state :=
  mkState (century_data s) (current_time s) (dst_time s) (dst_data_flag s) v
    (rtc_clock s) (rtc_dst_active s) (rtc_replies s) (irq_enabled s)
    (console s) (rtc_log s).
Definition set_rtc_replies (v : list Z) (s : state) : state :=
  mkState (century_data s) (current_time s) (dst_time s) (dst_data_flag s)
    (uart_rx s) (rtc_clock s) (rtc_dst_active s) v (irq_enabled s)
    (console s) (rtc_log s).
Definition set_irq_enabled (v : bool) (s : state) : state :=
  mkState (century_data s) (current_time s) (dst_time s) (dst_data_flag s)
    (uart_rx s) (rtc_clock s) (rtc_dst_active s) (rtc_replies s) v
    (console s) (rtc_log s).
Definition set_console (v : list console_event) (s : state) : state :=
  mkState (century_data s) (current_time s) (dst_time s) (dst_data_flag s)
    (uart_rx s) (rtc_clock s) (rtc_dst_active s) (rtc_replies s)
    (irq_enabled s) v (rtc_log s).
Definition set_rtc_log (v : list rtc_call) (s : state) : state :=
  mkState (century_data s) (current_time s) (dst_time s) (dst_data_flag s)
    (uart_rx s) (rtc_clock s) (rtc_dst_active s) (rtc_replies s)
    (irq_enabled s) (console s) v.

(** ** The monad of the flows *)

Inductive fault : Type :=
| Diverges          (* a loop that never ends *)
| OutOfBounds.      (* a read outside an array *)

(** How a piece of the program ends: it returns, or it reaches CY_ASSERT(0)
    in [handle_error] and execution is parked there for good, or it goes
    wrong. *)
Inductive outcome (A : Type) : Type :=
| Ret (a : A) (s : state)
| Parked (s : state)
| Stuck (f : fault).
Arguments Ret {A} _ _.
Arguments Parked {A} _.
Arguments Stuck {A} _.

Definition M (A : Type) : Type := state -> outcome A.

Definition ret {A} (a : A) : M A := fun s => Ret a s.
Definition bind {A B} (m : M A) (k : A -> M B) : M B :=
  fun s => match m s with
           | Ret a s' => k a s'
           | Parked s' => Parked s'
           | Stuck f => Stuck f
           end.
Definition stuck {A} (f : fault) : M A := fun _ => Stuck f.
(** A step that has no result goes wrong with fault [f]. *)
Definition lift {A} (f : fault) (o : option A) : M A :=
  match o with Some a => ret a | None => stuck f end.
Definition gets {A} (f : state -> A) : M A := fun s => Ret (f s) s.
Definition modify (f : state -> state) : M unit := fun s => Ret tt (f s).

Declare Scope flow_scope.
Delimit Scope flow_scope with flow.
Notation "x <- m ;; k" := (bind m (fun x => k))
  (at level 61, m at next level, right associativity) : flow_scope.
Notation "' p <- m ;; k" := (bind m (fun x => match x with p => k end))
  (at level 61, p pattern, m at next level, right associativity) : flow_scope.
Notation "m ;; k" := (bind m (fun _ => k))
  (at level 61, right associativity) : flow_scope.
Open Scope flow_scope.

(** The UART sends [out]. *)
Definition say (out : list console_event) (s : state) : state :=
  set_console (console s ++ out) s.

Definition printf (m : message) : M unit := modify (say [Print m]).

(** [handle_error]: [__disable_irq()], then CY_ASSERT(0).  The macro is the
    driver library's; a failed assertion is taken to park execution there,
    never to return. *)
Definition handle_error {A} : M A :=
  fun s => Parked (set_irq_enabled false s).

(** Cy_RTC_GetDateAndTime(&current_time) *)
Definition Cy_RTC_GetDateAndTime : M unit :=
  modify (fun s => set_current_time (rtc_clock s) s).

(** Cy_RTC_GetDstStatus(&dst_time, &current_time) *)
Definition Cy_RTC_GetDstStatus : M bool := gets rtc_dst_active.

(** The status the driver gives the next commit. *)
Definition next_rtc_reply (s : state) : Z := hd CY_RTC_SUCCESS (rtc_replies s).

(** A commit: the call is logged and the driver's next reply is the status. *)
Definition rtc_commit (c : rtc_call) : M Z :=
  fun s => Ret (next_rtc_reply s)
             (set_rtc_replies (tl (rtc_replies s))
                (set_rtc_log (rtc_log s ++ [c]) s)).

Definition Cy_RTC_EnableDstTime : M Z :=
  fun s => rtc_commit (EnableDstTime (dst_time s) (current_time s)) s.

Definition Cy_RTC_SetDateAndTimeDirect (sec min hour date month year : Z) : M Z :=
  rtc_commit (SetDateAndTimeDirect sec min hour date month year).

(** ** get_character *)

(** Cy_SCB_UART_Get: the next value of the receive line. *)
Definition Cy_SCB_UART_Get (rx : list Z) : Z * list Z :=
  match rx with
  | [] => (CY_SCB_UART_RX_NO_DATA, [])
  | v :: rx' => (v, rx')
  end.

(** The [while (read_value == CY_SCB_UART_RX_NO_DATA)] loop.  [value] is the
    caller's variable, written only on success. *)
Fixpoint get_character_loop (fuel : nat) (timeout timeoutTicks read_value value : Z)
    (rx : list Z) : option (cy_en_scb_uart_status_t * Z * list Z) :=
  match fuel with
  | O => None
  | S fuel' =>
      if read_value =? CY_SCB_UART_RX_NO_DATA then
        if negb (timeout =? 0) then
          if 0 <? timeoutTicks then
            (* Cy_SysLib_Delay(1); timeoutTicks--; *)
            let '(read_value', rx') := Cy_SCB_UART_Get rx in
            get_character_loop fuel' timeout (timeoutTicks - 1) read_value' value rx'
          else Some (CY_SCB_UART_BAD_PARAM, value, rx)
        else
          let '(read_value', rx') := Cy_SCB_UART_Get rx in
          get_character_loop fuel' timeout timeoutTicks read_value' value rx'
      else Some (CY_SCB_UART_SUCCESS, wrap8 read_value, rx)
  end.

(** [get_character(UART_HW, &value, timeout)] on the receive line [rx].  With
    a timeout the loop polls at most [timeout + 1] times; without one
    ([timeout = 0]) it ends only when data arrives, so [None] stands for
    waiting forever on a line that stays quiet. *)
Definition get_character_rx (timeout value : Z) (rx : list Z)
    : option (cy_en_scb_uart_status_t * Z * list Z) :=
  let '(read_value, rx') := Cy_SCB_UART_Get rx in
  get_character_loop (S (S (Z.to_nat timeout)) + length rx) timeout timeout
    read_value value rx'.

Definition get_character (timeout value : Z) : M (cy_en_scb_uart_status_t * Z) :=
  fun s => match get_character_rx timeout value (uart_rx s) with
           | Some (rslt, value', rx') => Ret (rslt, value') (set_uart_rx rx' s)
           | None => Stuck Diverges
           end.

(** ** fetch_time_data *)

(** [buffer[index] = ch] on a buffer of [STRING_BUFFER_SIZE] bytes; the loop
    keeps [index] below the size. *)
Fixpoint array_set (buffer : list Z) (index : nat) (ch : Z) : list Z :=
  match buffer, index with
  | [], _ => []
  | _ :: rest, O => ch :: rest
  | b :: rest, S i => b :: array_set rest i ch
  end.

(** [char buffer[STRING_BUFFER_SIZE] = {0}] *)
Definition zero_buffer : list Z := repeat 0 (Z.to_nat STRING_BUFFER_SIZE).

(** What [fetch_time_data] leaves behind: its return value, the buffer, the
    space count, the characters it echoed and the rest of the line. *)
Record fetched : Type := mkFetched {
  f_rslt : cy_en_scb_uart_status_t;
  f_buffer : list Z;
  f_space_count : Z;
  f_echo : list Z;
  f_rx : list Z
}.

(** The [while (index < STRING_BUFFER_SIZE)] loop.  Each pass that does not
    leave the loop takes UART_TIMEOUT_MS off [timeout_ms], and the loop is
    left once no more than that remains. *)
Fixpoint fetch_loop (fuel : nat) (timeout_ms index : Z)
    (rslt : cy_en_scb_uart_status_t) (ch : Z) (buffer : list Z)
    (space_count : Z) (echo rx : list Z) : option fetched :=
  match fuel with
  | O => None
  | S fuel' =>
      if index <? STRING_BUFFER_SIZE then
        if timeout_ms <=? UART_TIMEOUT_MS then
          Some (mkFetched CY_SCB_UART_BAD_PARAM buffer space_count echo rx)
        else
          match get_character_rx UART_TIMEOUT_MS ch rx with
          | None => None
          | Some (CY_SCB_UART_BAD_PARAM, ch', rx') =>
              fetch_loop fuel' (timeout_ms - UART_TIMEOUT_MS) index
                CY_SCB_UART_BAD_PARAM ch' buffer space_count echo rx'
          | Some (CY_SCB_UART_SUCCESS, ch', rx') =>
              if (ch' =? 10) || (ch' =? 13) then      (* '\n' or '\r' *)
                Some (mkFetched CY_SCB_UART_SUCCESS buffer space_count echo rx')
              else
                let space_count' :=
                  (* ' ' *)
                  if ch' =? 32 then wrap32 (space_count + 1) else space_count in
                fetch_loop fuel' (timeout_ms - UART_TIMEOUT_MS) (index + 1)
                  CY_SCB_UART_SUCCESS ch'
                  (array_set buffer (Z.to_nat index) ch') space_count'
                  (echo ++ [ch']) rx'
          end
      else Some (mkFetched rslt buffer space_count echo rx)
  end.

(** [fetch_time_data(buffer, timeout_ms, &space_count)] on the receive line.
    [rslt] and [ch] start out unset; both are written before they are read,
    as the first pass always runs. *)
Definition fetch_time_data_rx (buffer : list Z) (timeout_ms : Z) (rx : list Z)
    : option fetched :=
  fetch_loop (S (S (Z.to_nat (timeout_ms / UART_TIMEOUT_MS)))) timeout_ms 0
    CY_SCB_UART_BAD_PARAM 0 buffer 0 [] rx.

(** The echo loop [while (count == 0) count = Cy_SCB_UART_Put(...)] is taken
    to succeed: the transmit side accepts every character. *)
Definition fetch_time_data (buffer : list Z) (timeout_ms : Z)
    : M (cy_en_scb_uart_status_t * list Z * Z) :=
  fun s => match fetch_time_data_rx buffer timeout_ms (uart_rx s) with
           | Some f =>
               Ret (f_rslt f, f_buffer f, f_space_count f)
                 (say (map Echo (f_echo f) ++ [Print MsgNewline])
                    (set_uart_rx (f_rx f) s))
           | None => Stuck Diverges
           end.

(** ** sscanf *)

(** The C string held in a buffer: the characters before the first NUL, and
    [None] when the buffer holds none (reading it runs past its end). *)
Fixpoint c_string (buffer : list Z) : option (list Z) :=
  match buffer with
  | [] => None
  | c :: rest =>
      if c =? 0 then Some []
      else match c_string rest with
           | Some str => Some (c :: str)
           | None => None
           end
  end.

(** The four variables (hour, mday, month, year) after a scan that converted
    the values [new], in order: a variable the scan did not reach keeps its
    old value. *)
Definition store4 (new : list Z) (old : Z * Z * Z * Z) : Z * Z * Z * Z :=
  let '(hour, mday, month, year) := old in
  match new with
  | [] => old
  | [a] => (wrap32 a, mday, month, year)
  | [a; b] => (wrap32 a, wrap32 b, month, year)
  | [a; b; c] => (wrap32 a, wrap32 b, wrap32 c, year)
  | a :: b :: c :: d :: _ => (wrap32 a, wrap32 b, wrap32 c, wrap32 d)
  end.

(** The same for the six variables (hour, min, sec, mday, month, year). *)
Definition store6 (new : list Z) (old : Z * Z * Z * Z * Z * Z)
    : Z * Z * Z * Z * Z * Z :=
  let '(hour, min, sec, mday, month, year) := old in
  match new with
  | [] => old
  | [a] => (wrap32 a, min, sec, mday, month, year)
  | [a; b] => (wrap32 a, wrap32 b, sec, mday, month, year)
  | [a; b; c] => (wrap32 a, wrap32 b, wrap32 c, mday, month, year)
  | [a; b; c; d] => (wrap32 a, wrap32 b, wrap32 c, wrap32 d, month, year)
  | [a; b; c; d; e] => (wrap32 a, wrap32 b, wrap32 c, wrap32 d, wrap32 e, year)
  | a :: b :: c :: d :: e :: f :: _ =>
      (wrap32 a, wrap32 b, wrap32 c, wrap32 d, wrap32 e, wrap32 f)
  end.

(** A reference scanner for unsigned decimal fields: blanks are skipped, then
    a run of digits is one value; the scan stops at anything else.  It stands
    in for the C library's sscanf where a concrete run is evaluated. *)
Definition is_digit (c : Z) : bool := (48 <=? c) && (c <=? 57).
Definition is_blank (c : Z) : bool := (c =? 32) || ((9 <=? c) && (c <=? 13)).

Fixpoint scan_fields (acc : option Z) (str : list Z) : list Z :=
  match str with
  | [] => match acc with Some v => [v] | None => [] end
  | c :: rest =>
      if is_digit c then
        scan_fields (Some (match acc with Some v => 10 * v | None => 0 end + (c - 48))) rest
      else
        match acc with
        | Some v => v :: (if is_blank c then scan_fields None rest else [])
        | None => if is_blank c then scan_fields None rest else []
        end
  end.

Definition decimal_sscanf (n : nat) (str : list Z) : list Z :=
  firstn n (scan_fields None str).

(** ** construct_time_format *)

(** struct tm *)
Record tm : Type := mkTm {
  tm_sec : Z; tm_min : Z; tm_hour : Z; tm_mday : Z; tm_mon : Z; tm_year : Z;
  tm_wday : Z; tm_yday : Z; tm_isdst : Z
}.

Definition TM_YEAR_BASE : Z := 1900.

(** [CUMULATIVE_DAYS] *)
Definition CUMULATIVE_DAYS : list Z :=
  [0; 31; 59; 90; 120; 151; 181; 212; 243; 273; 304; 334].

(** A uint32 value stored in an [int] field: from 2^31 on it comes out
    negative. *)
Definition to_int (x : Z) : Z := if x <? 2 ^ 31 then x else x - 2 ^ 32.

Section ConstructTimeFormat.
(** Cy_RTC_IsLeapYear belongs to the driver library. *)
Variable Cy_RTC_IsLeapYear : Z -> bool.

(** The body of [construct_time_format] on the globals [current_time] and
    [century_data].  The arithmetic is unsigned 32-bit, each result is then
    stored in an [int]; [tm_mon], already an [int], indexes the table. *)
Definition construct_time_format_run (now : cy_stc_rtc_config_t) (century : Z)
    : traced tm :=
  let mon := to_int (wrap32 (t_month now - 1)) in
  tbind (table_read CUMULATIVE_DAYS mon)
    (fun days =>
       let leap_day :=
         if (3 <=? t_month now)
            && Cy_RTC_IsLeapYear (wrap32 (t_year now + century))
         then 1 else 0 in
       tret {| tm_sec := to_int (t_sec now);
               tm_min := to_int (t_min now);
               tm_hour := to_int (t_hour now);
               tm_mday := to_int (t_date now);
               tm_mon := mon;
               tm_year := to_int (wrap32 (wrap32 (t_year now + century) - TM_YEAR_BASE));
               tm_wday := to_int (wrap32 (t_dayOfWeek now - 1));
               tm_yday := to_int (wrap32 (wrap32 (days + wrap32 (t_date now - 1))
                                          + leap_day));
               tm_isdst := -1 |}).

(** [construct_time_format(&date_time)] *)
Definition construct_time_format : M tm :=
  fun s => lift OutOfBounds
             (result (construct_time_format_run (current_time s) (century_data s))) s.
End ConstructTimeFormat.

(** ** The flows *)

Definition canonical_null_rule : cy_stc_rtc_dst_format_t :=
  {| dst_format := CY_RTC_DST_FIXED; dst_hour := 0; dst_dayOfMonth := 1;
     dst_weekOfMonth := 1; dst_dayOfWeek := 1; dst_month := 1 |}.

Section Flows.
(** Library routines main.c calls and does not define: the driver's
    day-of-week routine, the C library's sscanf as the list of values
    it converts for [n] unsigned directives on a string, and the driver's
    leap-year test. *)
Variable Cy_RTC_ConvertDayOfWeek : Z -> Z -> Z -> Z.
Variable sscanf : nat -> list Z -> list Z.
Variable Cy_RTC_IsLeapYear : Z -> bool.

(** The values [sscanf(buffer, ...)] converts for [n] directives; [None]
    when the buffer holds no terminated string. *)
Definition scan (n : nat) (buffer : list Z) : option (list Z) :=
  match c_string buffer with
  | Some str => Some (firstn n (sscanf n str))
  | None => None
  end.

(** [sscanf(buffer, "%u %u %u %u", &hour, &mday, &month, &year)]: the four
    variables afterwards. *)
Definition sscanf4 (buffer : list Z) (vars : Z * Z * Z * Z)
    : option (Z * Z * Z * Z) :=
  match scan 4 buffer with
  | Some new => Some (store4 new vars)
  | None => None
  end.

(** [sscanf(buffer, "%u %u %u %u %u %u", &hour, &min, &sec, &mday, &month,
    &year)]: the six variables afterwards. *)
Definition sscanf6 (buffer : list Z) (vars : Z * Z * Z * Z * Z * Z)
    : option (Z * Z * Z * Z * Z * Z) :=
  match scan 6 buffer with
  | Some new => Some (store6 new vars)
  | None => None
  end.

(** The six assignments that fill [dst_time.startDst] or
    [dst_time.stopDst] from the scanned fields.  [get_week_of_month] runs
    only for the relative format; [mday] has passed validation there, and
    [mday + 1] passes of its loop are more than it can take. *)
Definition dst_rule_point (fmt hour mday month year : Z)
    : option cy_stc_rtc_dst_format_t :=
  if fmt =? FIXED_DST_FORMAT then
    Some {| dst_format := CY_RTC_DST_FIXED; dst_hour := hour;
           dst_dayOfMonth := mday; dst_weekOfMonth := 1;
           dst_dayOfWeek := 1; dst_month := month |}
  else
    match get_week_of_month Cy_RTC_ConvertDayOfWeek (S (Z.to_nat mday))
            mday month year with
    | Some week =>
        Some {| dst_format := CY_RTC_DST_RELATIVE; dst_hour := hour;
               dst_dayOfMonth := 1; dst_weekOfMonth := week;
               dst_dayOfWeek := wrap32 (Cy_RTC_ConvertDayOfWeek mday month year);
               dst_month := month |}
    | None => None
    end.

Definition is_dst_format (fmt : Z) : bool :=
  (fmt =? FIXED_DST_FORMAT) || (fmt =? RELATIVE_DST_FORMAT).

(** Lines 417-464: the start-time prompt.  Returns the local variables
    (hour, mday, month, year) as it leaves them. *)
Definition dst_start_step (timeout_ms fmt : Z) (vars : Z * Z * Z * Z)
    : M (Z * Z * Z * Z) :=
  printf MsgEnterDstStart;;
  '(rslt, dst_start_buffer, space_count) <- fetch_time_data zero_buffer timeout_ms;;
  if uart_ok rslt then
    if negb (space_count =? MIN_SPACE_KEY_COUNT_DST_TIME) then
      printf MsgInvalidValues;; ret vars
    else
      '(hour, mday, month, year) <- lift OutOfBounds (sscanf4 dst_start_buffer vars);;
      valid <- lift OutOfBounds (validate_date_time 0 0 hour mday month year);;
      if valid && is_dst_format fmt then
        point <- lift Diverges (dst_rule_point fmt hour mday month year);;
        modify (fun s => set_dst_time (mkDst point (stopDst (dst_time s))) s);;
        modify (set_dst_data_flag DST_VALID_START_TIME_FLAG);;
        ret (hour, mday, month, year)
      else
        printf MsgInvalidValues;; ret (hour, mday, month, year)
  else
    printf MsgTimeout;; ret vars.

(** Lines 466-519: the end-time prompt, entered only with the flag at
    DST_VALID_START_TIME_FLAG. *)
Definition dst_end_step (timeout_ms fmt : Z) (vars : Z * Z * Z * Z) : M unit :=
  flag <- gets dst_data_flag;;
  if DST_VALID_START_TIME_FLAG =? flag then
    printf MsgEnterDstEnd;;
    '(rslt, dst_end_buffer, space_count) <- fetch_time_data zero_buffer timeout_ms;;
    if uart_ok rslt then
      if negb (space_count =? MIN_SPACE_KEY_COUNT_DST_TIME) then
        printf MsgInvalidValues
      else
        '(hour, mday, month, year) <- lift OutOfBounds (sscanf4 dst_end_buffer vars);;
        valid <- lift OutOfBounds (validate_date_time 0 0 hour mday month year);;
        if valid && is_dst_format fmt then
          point <- lift Diverges (dst_rule_point fmt hour mday month year);;
          modify (fun s => set_dst_time (mkDst (startDst (dst_time s)) point) s);;
          modify (set_dst_data_flag DST_VALID_END_TIME_FLAG)
        else
          printf MsgInvalidValues
    else
      printf MsgTimeout
  else ret tt.

(** Lines 521-536: the commit of the schedule. *)
Definition dst_commit_step : M unit :=
  flag <- gets dst_data_flag;;
  if DST_VALID_END_TIME_FLAG =? flag then
    Cy_RTC_GetDateAndTime;;
    rslt <- Cy_RTC_EnableDstTime;;
    if CY_RSLT_SUCCESS =? rslt then
      modify (set_dst_data_flag DST_ENABLED_FLAG);;
      printf MsgDstTimeUpdated
    else handle_error
  else ret tt.

(** Lines 406-542: the RTC_CMD_ENABLE_DST branch. *)
Definition dst_enable (timeout_ms : Z) : M unit :=
  printf MsgEnterDstFormat;;
  printf MsgFixedFormatOption;;
  printf MsgRelativeFormatOption;;
  '(rslt, fmt) <- get_character timeout_ms 0;;
  if uart_ok rslt then
    vars <- dst_start_step timeout_ms fmt (0, 0, 0, 0);;
    dst_end_step timeout_ms fmt vars;;
    dst_commit_step
  else printf MsgTimeout.

(** Lines 543-567: the RTC_CMD_DISABLE_DST branch. *)
Definition dst_disable : M unit :=
  modify (fun s => set_dst_time (mkDst (startDst (dst_time s)) canonical_null_rule) s);;
  modify (fun s => set_dst_time (mkDst (stopDst (dst_time s)) (stopDst (dst_time s))) s);;
  Cy_RTC_GetDateAndTime;;
  rslt <- Cy_RTC_EnableDstTime;;
  if CY_RSLT_SUCCESS =? rslt then
    modify (set_dst_data_flag DST_DISABLED_FLAG);;
    printf MsgDstFeatureDisabled
  else handle_error.

(** Lines 377-399: the status report and the list of commands. *)
Definition dst_show_menu : M unit :=
  flag <- gets dst_data_flag;;
  (if DST_ENABLED_FLAG =? flag then
     Cy_RTC_GetDateAndTime;;
     active <- Cy_RTC_GetDstStatus;;
     if active then printf MsgDstStatusActive else printf MsgDstStatusInactive
   else printf MsgDstStatusDisabled);;
  printf MsgAvailableDstCommands;;
  printf MsgEnableDstOption;;
  printf MsgDisableDstOption;;
  printf MsgQuitDstOption.

(** [set_dst_feature(timeout_ms)].  [dst_cmd] starts out unset and is read
    only after [get_character] wrote it. *)
Definition set_dst_feature (timeout_ms : Z) : M unit :=
  dst_show_menu;;
  '(rslt, dst_cmd) <- get_character timeout_ms 0;;
  if uart_ok rslt then
    if RTC_CMD_ENABLE_DST =? dst_cmd then dst_enable timeout_ms
    else if RTC_CMD_DISABLE_DST =? dst_cmd then dst_disable
    else if RTC_CMD_QUIT_CONFIG_DST =? dst_cmd then printf MsgExitDstConfig
    else ret tt
  else printf MsgTimeout.

(** [set_new_time(timeout_ms)].  The six locals are not initialised in the
    source; [uninit] is whatever they hold on entry, in the order
    (hour, min, sec, mday, month, year). *)
Definition set_new_time (timeout_ms : Z) (uninit : Z * Z * Z * Z * Z * Z)
    : M unit :=
  printf MsgEnterTime;;
  '(rslt, buffer, space_count) <- fetch_time_data zero_buffer timeout_ms;;
  if uart_ok rslt then
    if negb (space_count =? MIN_SPACE_KEY_COUNT_NEW_TIME) then
      printf MsgInvalidValues
    else
      '(hour, min, sec, mday, month, year) <- lift OutOfBounds (sscanf6 buffer uninit);;
      valid <- lift OutOfBounds (validate_date_time sec min hour mday month year);;
      if valid then
        rslt <- Cy_RTC_SetDateAndTimeDirect sec min hour mday month (year mod 100);;
        modify (set_century_data ((year / 100) * 100));;
        if CY_RTC_SUCCESS =? rslt then printf MsgRtcTimeUpdated else ret tt
      else
        printf MsgInvalidValues
  else
    printf MsgTimeout.

(** *** Vocabulary of the statements *)

(** A line read at a DST time prompt is accepted: it came in before the
    timeout, holds exactly three spaces, and the variables after sscanf
    pass validation (sec and min are 0 in this flow). *)
Definition dst_input_accepted (f : fetched) (vars : Z * Z * Z * Z)
    (hour mday month year : Z) : Prop :=
  f_rslt f = CY_SCB_UART_SUCCESS
  /\ f_space_count f = MIN_SPACE_KEY_COUNT_DST_TIME
  /\ sscanf4 (f_buffer f) vars = Some (hour, mday, month, year)
  /\ validate_date_time 0 0 hour mday month year = Some true.

(** A line read at a DST time prompt is not accepted, in one of three
    ways; [vars'] is what the local variables hold afterwards. *)
Inductive dst_input_rejected (f : fetched) (vars : Z * Z * Z * Z)
    : Z * Z * Z * Z -> Prop :=
| input_timed_out :
    f_rslt f = CY_SCB_UART_BAD_PARAM ->
    dst_input_rejected f vars vars
| input_misseparated :
    f_rslt f = CY_SCB_UART_SUCCESS ->
    f_space_count f <> MIN_SPACE_KEY_COUNT_DST_TIME ->
    dst_input_rejected f vars vars
| input_invalid : forall hour mday month year,
    f_rslt f = CY_SCB_UART_SUCCESS ->
    f_space_count f = MIN_SPACE_KEY_COUNT_DST_TIME ->
    sscanf4 (f_buffer f) vars = Some (hour, mday, month, year) ->
    validate_date_time 0 0 hour mday month year = Some false ->
    dst_input_rejected f vars (hour, mday, month, year).

(** A line read at the set-time prompt came in before the timeout and is
    refused: its space count is not five, or the variables after sscanf
    fail validation. *)
Inductive time_input_refused (f : fetched) (uninit : Z * Z * Z * Z * Z * Z)
    : Prop :=
| time_misseparated :
    f_rslt f = CY_SCB_UART_SUCCESS ->
    f_space_count f <> MIN_SPACE_KEY_COUNT_NEW_TIME ->
    time_input_refused f uninit
| time_invalid : forall hour min sec mday month year,
    f_rslt f = CY_SCB_UART_SUCCESS ->
    f_space_count f = MIN_SPACE_KEY_COUNT_NEW_TIME ->
    sscanf6 (f_buffer f) uninit = Some (hour, min, sec, mday, month, year) ->
    validate_date_time sec min hour mday month year = Some false ->
    time_input_refused f uninit.

(** One pass of the [for (;;)] loop of [main].  [cmd] is main's local; it
    keeps its value from pass to pass.  The clock is read with interrupts
    masked (Cy_SysLib_EnterCriticalSection / ExitCriticalSection), then
    [construct_time_format] fills [date_time] from [current_time] and
    [century_data]; the pass goes wrong there when the month read from the
    clock indexes CUMULATIVE_DAYS outside the table.  strftime and printf
    put the text of [date_time] on the console: the event [ShowClock]
    records the two globals [date_time] was computed from. *)
Definition main_loop_body (uninit : Z * Z * Z * Z * Z * Z) (cmd : Z) : M Z :=
  savedIntrStatus <- gets irq_enabled;;
  modify (set_irq_enabled false);;
  Cy_RTC_GetDateAndTime;;
  modify (set_irq_enabled savedIntrStatus);;
  date_time <- construct_time_format Cy_RTC_IsLeapYear;;
  modify (fun s => say [ShowClock (current_time s) (century_data s)] s);;
  '(rslt, cmd') <- get_character UART_TIMEOUT_MS cmd;;
  (if uart_ok rslt then
     if RTC_CMD_SET_DATE_TIME =? cmd' then
       printf MsgCmdSetTime;; set_new_time INPUT_TIMEOUT_MS uninit
     else if RTC_CMD_CONFIG_DST =? cmd' then
       printf MsgCmdConfigDst;; set_dst_feature INPUT_TIMEOUT_MS
     else ret tt
   else ret tt);;
  ret cmd'.

(** [passes] passes of the loop. *)
Fixpoint main_loop (passes : nat) (uninit : Z * Z * Z * Z * Z * Z) (cmd : Z)
    : M unit :=
  match passes with
  | O => ret tt
  | S passes' =>
      cmd' <- main_loop_body uninit cmd;;
      main_loop passes' uninit cmd'
  end.

End Flows.

(** The schedule the disable action commits. *)
Definition null_schedule : cy_stc_rtc_dst_t :=
  mkDst canonical_null_rule canonical_null_rule.

(** The state after the clock was read and the schedule in [dst_time] was
    handed to Cy_RTC_EnableDstTime. *)
Definition dst_committed (s : state) : state :=
  set_rtc_replies (tl (rtc_replies s))
    (set_rtc_log (rtc_log s ++ [EnableDstTime (dst_time s) (rtc_clock s)])
       (set_current_time (rtc_clock s) s)).

(** How a commit of the schedule ends, [s] being the state after the call
    to Cy_RTC_EnableDstTime: on CY_RSLT_SUCCESS the flag is set to [flag] and
    [done] is printed, on any other status [handle_error] parks the program
    with interrupts off. *)
Definition dst_commit_outcome (flag : Z) (done : message) (s : state)
    : outcome unit :=
  if CY_RSLT_SUCCESS =? next_rtc_reply s
  then Ret tt (say [Print done] (set_dst_data_flag flag (dst_committed s)))
  else Parked (set_irq_enabled false (dst_committed s)).

(** The state with the DST menu on the console: the status line (after a
    fresh reading of the clock when DST is enabled) and the four command
    lines. *)
Definition dst_menu_shown (s : state) : state :=
  let enabled := DST_ENABLED_FLAG =? dst_data_flag s in
  say [Print (if enabled
              then if rtc_dst_active s then MsgDstStatusActive
                   else MsgDstStatusInactive
              else MsgDstStatusDisabled);
       Print MsgAvailableDstCommands; Print MsgEnableDstOption;
       Print MsgDisableDstOption; Print MsgQuitDstOption]
    (set_current_time (if enabled then rtc_clock s else current_time s) s).

(** The state with the format question on the console. *)
Definition dst_format_asked (s : state) : state :=
  say [Print MsgEnterDstFormat; Print MsgFixedFormatOption;
       Print MsgRelativeFormatOption] s.

(** The state in which the enable flow asks for the start time: the menu
    and the format question are on the console and the two answers are off
    the receive line, which is left at [rx]. *)
Definition dst_enable_begun (rx : list Z) (s : state) : state :=
  set_uart_rx rx (dst_format_asked (dst_menu_shown s)).

(** The state after a prompt [prompt] and the line [f] read at it. *)
Definition line_read (prompt : message) (f : fetched) (s : state) : state :=
  say (Print prompt :: map Echo (f_echo f) ++ [Print MsgNewline])
    (set_uart_rx (f_rx f) s).

(** What a prompt answers to a line it does not accept. *)
Definition rejection_message (f : fetched) : message :=
  if uart_ok (f_rslt f) then MsgInvalidValues else MsgTimeout.

(** ** Concrete runs *)

(** The program when it enters the loop of [main]: [century_data] is 2000,
    the statics [current_time] and [dst_time] are still zero-initialised
    (CY_RTC_DST_RELATIVE is the zero of its enumeration), the flag of
    [set_dst_feature] is at its initial zero, interrupts are on and nothing is
    printed or committed yet; [rx] is what the operator will type and
    [replies] how the driver will answer the commits.  The clock stands at
    09:15:30 on Saturday 14 June 2025. *)
Definition boot_state (rx replies : list Z) : state :=
  {| century_data := 2000;
     current_time := mkRtcConfig 0 0 0 0 0 0 0;
     dst_time := mkDst (mkDstFormat CY_RTC_DST_RELATIVE 0 0 0 0 0)
                       (mkDstFormat CY_RTC_DST_RELATIVE 0 0 0 0 0);
     dst_data_flag := DST_DISABLED_FLAG;
     uart_rx := rx;
     rtc_clock := mkRtcConfig 30 15 9 14 6 25 7;
     rtc_dst_active := false;
     rtc_replies := replies;
     irq_enabled := true;
     console := [];
     rtc_log := [] |}.

(** The same, with a clock whose fields all read zero: its month is not one
    of 1..12. *)
Definition boot_state_clock_at_zero (rx replies : list Z) : state :=
  {| century_data := 2000;
     current_time := mkRtcConfig 0 0 0 0 0 0 0;
     dst_time := mkDst (mkDstFormat CY_RTC_DST_RELATIVE 0 0 0 0 0)
                       (mkDstFormat CY_RTC_DST_RELATIVE 0 0 0 0 0);
     dst_data_flag := DST_DISABLED_FLAG;
     uart_rx := rx;
     rtc_clock := mkRtcConfig 0 0 0 0 0 0 0;
     rtc_dst_active := false;
     rtc_replies := replies;
     irq_enabled := true;
     console := [];
     rtc_log := [] |}.

(** A state an earlier enable flow left behind: its start rule (fixed
    format, 2 o'clock on 30 March) is in [dst_time], the end rule is still
    as it was at start-up, and the flag is at DST_VALID_START_TIME_FLAG. *)
Definition start_captured_state (rx replies : list Z) : state :=
  set_dst_data_flag DST_VALID_START_TIME_FLAG
    (set_dst_time
       (mkDst (mkDstFormat CY_RTC_DST_FIXED 2 30 1 1 3)
          (mkDstFormat CY_RTC_DST_RELATIVE 0 0 0 0 0))
       (boot_state rx replies)).

(** Some driver status other than CY_RTC_SUCCESS. *)
Definition rtc_rejection : Z := 1.

(** The line [fetch_time_data] reads from [rx] within INPUT_TIMEOUT_MS. *)
Definition fetched_line (rx : list Z) : fetched :=
  match fetch_time_data_rx zero_buffer INPUT_TIMEOUT_MS rx with
  | Some f => f
  | None => mkFetched CY_SCB_UART_BAD_PARAM zero_buffer 0 [] rx
  end.

Section TypedLines.
Import String.
Local Open Scope string_scope.

(** The bytes of a typed line. *)
Definition codes (s : string) : list Z :=
  List.map (fun c => Z.of_nat (Ascii.nat_of_ascii c)) (list_ascii_of_string s).

(** What an operator types to enable DST in the relative format from
    30 March 2025, 2 o'clock, to 26 October 2025, 3 o'clock: the two menu
    keys, then the two lines. *)
Definition typed_start_line : list Z := (codes "2 30 3 2025" ++ [13])%list.
Definition typed_end_line : list Z := (codes "3 26 10 2025" ++ [13])%list.
Definition typed_times : list Z := (typed_start_line ++ typed_end_line)%list.
Definition typed_enable_session : list Z :=
  RTC_CMD_ENABLE_DST :: RELATIVE_DST_FORMAT :: typed_times.

(** The same session abandoned after the start line. *)
Definition typed_abandoned_session : list Z :=
  RTC_CMD_ENABLE_DST :: RELATIVE_DST_FORMAT :: typed_start_line.

(** A later session: the start line has no spaces at all, the end line is
    fine. *)
Definition typed_bad_start : list Z :=
  (codes "oops" ++ [13] ++ typed_end_line)%list.
Definition typed_later_session : list Z :=
  RTC_CMD_ENABLE_DST :: RELATIVE_DST_FORMAT :: typed_bad_start.

(** Lines for the set-time prompt: 31 February, and a time with second 60
    in the year 2125. *)
Definition typed_february_31 : list Z := (codes "12 30 00 31 02 2025" ++ [13])%list.
Definition typed_second_60 : list Z := (codes "12 30 60 15 06 2125" ++ [13])%list.
End TypedLines.

(** ** Vocabulary of the further properties *)

(** *** The serial-line readers *)

(** A character [fetch_time_data] stores: a byte other than the two line
    ends. *)
Definition stored_char (c : Z) : Prop := 0 <= c < 256 /\ c <> 10 /\ c <> 13.

(** The number of spaces in a line. *)
Definition spaces (line : list Z) : Z := Z.of_nat (count_occ Z.eq_dec line 32).

(** The buffer of STRING_BUFFER_SIZE bytes that holds [line] from its start
    and zeros after it. *)
Definition buffer_holding (line : list Z) : list Z :=
  line ++ repeat 0 (Z.to_nat STRING_BUFFER_SIZE - length line).

(** What the loop of [fetch_time_data] keeps true of its variables. *)
Definition fetch_invariant (index : Z) (buffer : list Z) (space_count : Z)
    (echo : list Z) : Prop :=
  index = Z.of_nat (length echo)
  /\ (length echo <= Z.to_nat STRING_BUFFER_SIZE)%nat
  /\ buffer = buffer_holding echo
  /\ space_count = spaces echo
  /\ Forall stored_char echo.

(** *** The calendar *)

(** The days of the year before [month], by the month lengths the validator
    uses. *)
Definition days_before (month year : Z) : Z :=
  fold_right Z.add 0
    (map (fun m => month_length (Z.of_nat m) year) (seq 1 (Z.to_nat (month - 1)))).

(** *** The flows *)

(** What holds of the way a piece of the program ends: [Q] of the result and
    the state if it returns, [E] of the state if it is parked in
    [handle_error].  Nothing is said of a run that goes wrong. *)
Definition outcome_sat {A} (o : outcome A) (Q : A -> state -> Prop)
    (E : state -> Prop) : Prop :=
  match o with
  | Ret a s' => Q a s'
  | Parked s' => E s'
  | Stuck _ => True
  end.

(** The local variables of a flow hold unsigned 32-bit values. *)
Definition uint32_vars4 (vars : Z * Z * Z * Z) : Prop :=
  let '(hour, mday, month, year) := vars in
  uint32 hour /\ uint32 mday /\ uint32 month /\ uint32 year.

Definition uint32_vars6 (vars : Z * Z * Z * Z * Z * Z) : Prop :=
  let '(hour, min, sec, mday, month, year) := vars in
  uint32 hour /\ uint32 min /\ uint32 sec /\ uint32 mday /\ uint32 month
  /\ uint32 year.

(** What the flows have no statement to write: the readings of the clock
    hardware are as before, and the console only grows. *)
Definition hardware_kept (s s' : state) : Prop :=
  rtc_clock s' = rtc_clock s /\ rtc_dst_active s' = rtc_dst_active s
  /\ exists out, console s' = console s ++ out.

(** No commit was made. *)
Definition driver_untouched (s s' : state) : Prop :=
  rtc_log s' = rtc_log s /\ rtc_replies s' = rtc_replies s.

(** What a prompt of the DST flow leaves alone, whether it accepts its line
    or not. *)
Definition prompt_frame (s s' : state) : Prop :=
  century_data s' = century_data s /\ current_time s' = current_time s
  /\ irq_enabled s' = irq_enabled s /\ driver_untouched s s'
  /\ hardware_kept s s'.

(** A rule point with its hour, day of the month, week of the month and
    month within the calendar's ranges. *)
Definition rule_in_range (p : cy_stc_rtc_dst_format_t) : Prop :=
  0 <= dst_hour p <= 23 /\ 1 <= dst_dayOfMonth p <= 31
  /\ 1 <= dst_weekOfMonth p <= 6 /\ 1 <= dst_month p <= 12.

(** A commit whose fields are in range: a time of day and a date as
    [validate_date_time] accepts them with a two-digit year, or a schedule
    of two rule points in range. *)
Definition commit_in_range (c : rtc_call) : Prop :=
  match c with
  | SetDateAndTimeDirect sec min hour date month year =>
      0 <= sec <= 60 /\ 0 <= min <= 60 /\ 0 <= hour <= 23
      /\ 1 <= date <= 31 /\ 1 <= month <= 12 /\ 0 <= year <= 99
  | EnableDstTime dst _ =>
      rule_in_range (startDst dst) /\ rule_in_range (stopDst dst)
  end.

(** *** set_new_time *)

(** What every run of [set_new_time] leaves alone. *)
Definition time_flow_frame (s s' : state) : Prop :=
  dst_time s' = dst_time s /\ dst_data_flag s' = dst_data_flag s
  /\ current_time s' = current_time s /\ irq_enabled s' = irq_enabled s
  /\ hardware_kept s s'.

(** The run handed one time to the driver: fields that passed validation,
    the year cut to its last two digits, and the century kept in
    [century_data]. *)
Definition time_committed (uninit : Z * Z * Z * Z * Z * Z) (s s' : state) : Prop :=
  exists hour min sec mday month year,
    validate_date_time sec min hour mday month year = Some true
    /\ (uint32_vars6 uninit -> uint32_vars6 (hour, min, sec, mday, month, year))
    /\ rtc_log s'
       = rtc_log s ++ [SetDateAndTimeDirect sec min hour mday month (year mod 100)]
    /\ rtc_replies s' = tl (rtc_replies s)
    /\ century_data s' = year / 100 * 100.

(** *** set_dst_feature *)

(** What every run of [set_dst_feature] leaves alone; [current_time] is
    either as before or a fresh reading of the clock. *)
Definition dst_flow_frame (s s' : state) : Prop :=
  century_data s' = century_data s
  /\ (current_time s' = current_time s \/ current_time s' = rtc_clock s)
  /\ hardware_kept s s'.

(** The values [dst_data_flag] has between two runs of [set_dst_feature]. *)
Definition flag_at_rest (flag : Z) : Prop :=
  flag = DST_DISABLED_FLAG \/ flag = DST_VALID_START_TIME_FLAG
  \/ flag = DST_ENABLED_FLAG.

(** Where a schedule handed to the driver by a run of [set_dst_feature]
    from [s] comes from: it is the null schedule of the disable action, or
    its end rule was captured in this run and its start rule either in this
    run or in an earlier one that left the flag at
    DST_VALID_START_TIME_FLAG, or the run found the flag at
    DST_VALID_END_TIME_FLAG and committed [dst_time] as it was. *)
Definition schedule_source (s : state) (d : cy_stc_rtc_dst_t) : Prop :=
  d = null_schedule
  \/ (rule_in_range (stopDst d)
      /\ (rule_in_range (startDst d)
          \/ (dst_data_flag s = DST_VALID_START_TIME_FLAG
              /\ startDst d = startDst (dst_time s))))
  \/ (dst_data_flag s = DST_VALID_END_TIME_FLAG /\ d = dst_time s).

(** The driver was handed [dst_time] once, with a fresh reading of the
    clock. *)
Definition schedule_committed (s s' : state) : Prop :=
  rtc_log s' = rtc_log s ++ [EnableDstTime (dst_time s') (rtc_clock s)]
  /\ rtc_replies s' = tl (rtc_replies s)
  /\ schedule_source s (dst_time s').

(** The commit step ran: the clock was read and [dst_time], as it was,
    handed to the driver. *)
Definition commit_made (s s' : state) : Prop :=
  dst_data_flag s = DST_VALID_END_TIME_FLAG
  /\ current_time s' = rtc_clock s
  /\ rtc_log s' = rtc_log s ++ [EnableDstTime (dst_time s) (rtc_clock s)]
  /\ rtc_replies s' = tl (rtc_replies s).

(** [s0] is [s] further into a dialogue: more is on the console, keys are
    off the receive line and [current_time] may hold a fresh reading of the
    clock; everything else is as in [s]. *)
Definition dialogue_from (s s0 : state) : Prop :=
  century_data s0 = century_data s /\ dst_time s0 = dst_time s
  /\ dst_data_flag s0 = dst_data_flag s /\ irq_enabled s0 = irq_enabled s
  /\ driver_untouched s s0
  /\ (current_time s0 = current_time s \/ current_time s0 = rtc_clock s)
  /\ hardware_kept s s0.

(** The three ways a run of [set_dst_feature] returns: nothing was
    captured or committed; a start rule was captured and the flow stopped
    short of the commit; or a schedule was committed and the driver took
    it, which leaves DST enabled or, after the disable action, disabled. *)
Definition dst_flow_returned (s s' : state) : Prop :=
  (dst_time s' = dst_time s /\ dst_data_flag s' = dst_data_flag s
   /\ driver_untouched s s')
  \/ (dst_data_flag s' = DST_VALID_START_TIME_FLAG
      /\ rule_in_range (startDst (dst_time s'))
      /\ stopDst (dst_time s') = stopDst (dst_time s)
      /\ driver_untouched s s')
  \/ (schedule_committed s s'
      /\ next_rtc_reply s = CY_RSLT_SUCCESS
      /\ (dst_data_flag s' = DST_ENABLED_FLAG
          \/ (dst_data_flag s' = DST_DISABLED_FLAG /\ dst_time s' = null_schedule))).

(** The one way it does not return: the driver rejected the schedule and
    [handle_error] parked the program with interrupts off. *)
Definition dst_flow_parked (s s' : state) : Prop :=
  schedule_committed s s'
  /\ next_rtc_reply s <> CY_RSLT_SUCCESS
  /\ irq_enabled s' = false.

(** *** The main loop *)

(** What the main loop keeps true from pass to pass. *)
Definition loop_invariant (s : state) : Prop :=
  flag_at_rest (dst_data_flag s)
  /\ irq_enabled s = true
  /\ century_data s mod 100 = 0
  /\ (dst_data_flag s = DST_VALID_START_TIME_FLAG ->
      rule_in_range (startDst (dst_time s)))
  /\ Forall commit_in_range (rtc_log s).

(** *** Further concrete runs *)

(** Eighty characters without a line end: a time with five spaces, its
    year padded with zeros up to the size of the buffer. *)
Definition typed_full_line : list Z :=
  [49; 50; 32; 51; 48; 32; 48; 48; 32; 49; 53; 32; 48; 54; 32; 50; 48; 50; 53]
  ++ repeat 48 61.

(** An end line with three spaces of which sscanf converts the hour only:
    "3 x y z". *)
Definition typed_partial_end_line : list Z := [51; 32; 120; 32; 121; 32; 122; 13].

(** The session that enables DST in the fixed format with that end line. *)
Definition typed_partial_session : list Z :=
  RTC_CMD_ENABLE_DST :: FIXED_DST_FORMAT :: typed_start_line
  ++ typed_partial_end_line.

(** * Proofs *)

(** ** validate_date_time: the run in closed form *)

Lemma month_length_range month year :
  1 <= month <= 12 -> 28 <= month_length month year <= 31.
Proof.
  intros H. unfold month_length.
  assert (month = 1 \/ month = 2 \/ month = 3 \/ month = 4 \/ month = 5
          \/ month = 6 \/ month = 7 \/ month = 8 \/ month = 9 \/ month = 10
          \/ month = 11 \/ month = 12) as C by lia.
  generalize (IS_LEAP_YEAR year); intros b.
  repeat (destruct C as [-> | C]); try subst month; destruct b; vm_compute; intuition discriminate.
Qed.

Lemma table_read_month month :
  1 <= month <= 12 ->
  table_read days_in_month_table (wrap32 (month - 1))
  = Traced [month - 1] (Some (nth (Z.to_nat (month - 1)) days_in_month_table 0)).
Proof.
  intros H. unfold wrap32. rewrite Z.mod_small by lia.
  assert (month = 1 \/ month = 2 \/ month = 3 \/ month = 4 \/ month = 5
          \/ month = 6 \/ month = 7 \/ month = 8 \/ month = 9 \/ month = 10
          \/ month = 11 \/ month = 12) as C by lia.
  repeat (destruct C as [-> | C]); try subst month; reflexivity.
Qed.

Lemma range_checks_spec sec min hour month year :
  IS_SEC_VALID sec && IS_MIN_VALID min && IS_HOUR_VALID hour
  && IS_MONTH_VALID month && IS_YEAR_VALID year = true
  <-> sec <= 60 /\ min <= 60 /\ hour <= 23 /\ 1 <= month <= 12 /\ 0 < year.
Proof.
  unfold IS_SEC_VALID, IS_MIN_VALID, IS_HOUR_VALID, IS_MONTH_VALID,
    IS_YEAR_VALID, MAX_SEC_OR_MIN, MAX_HOURS_24H, MONTHS_PER_YEAR.
  rewrite !andb_true_iff, !Z.leb_le, !Z.ltb_lt. lia.
Qed.

(** The run of the validator, in closed form. *)
Lemma validate_date_time_run_eq sec min hour mday month year :
  validate_date_time_run sec min hour mday month year
  = if IS_SEC_VALID sec && IS_MIN_VALID min && IS_HOUR_VALID hour
       && IS_MONTH_VALID month && IS_YEAR_VALID year
    then Traced [month - 1]
           (Some ((0 <? mday) && (mday <=? month_length month year)))
    else Traced [] (Some false).
Proof.
  unfold validate_date_time_run.
  destruct (IS_SEC_VALID sec && IS_MIN_VALID min && IS_HOUR_VALID hour
            && IS_MONTH_VALID month && IS_YEAR_VALID year) eqn:E; [|reflexivity].
  apply range_checks_spec in E. destruct E as (_ & _ & _ & Hm & _).
  rewrite (table_read_month month Hm). unfold tbind, tret; cbn [result reads app].
  f_equal. f_equal. cbn [andb]. f_equal. f_equal.
  pose proof (month_length_range month year Hm) as R. unfold month_length in *.
  destruct (IS_LEAP_YEAR year && (month =? 2)).
  - unfold wrap8. rewrite Z.mod_small; [reflexivity|].
    change (2 ^ 8) with 256. lia.
  - lia.
Qed.

(** ** get_week_of_month: the loop *)

Lemma wrap32_small x : 0 <= x < 2 ^ 32 -> wrap32 x = x.
Proof. intros H. unfold wrap32. apply Z.mod_small. exact H. Qed.

Lemma wrap32_range x : 0 <= wrap32 x < 2 ^ 32.
Proof. unfold wrap32. apply Z.mod_pos_bound. reflexivity. Qed.

(** The loop ends within [day - weekend_day] passes, whatever it starts
    from, as long as [weekend_day + 7] cannot wrap below [day]. *)
Lemma week_loop_terminates fuel : forall day count weekend_day,
  0 <= weekend_day -> day <= 2 ^ 32 - 8 ->
  (Z.to_nat (day - weekend_day) < fuel)%nat ->
  exists week, week_loop fuel day count weekend_day = Some week.
Proof.
  induction fuel as [|fuel IH]; intros day count w Hw Hday Hfuel; [lia|].
  cbn [week_loop]. destruct (w <? day) eqn:E.
  - apply Z.ltb_lt in E. rewrite (wrap32_small (w + 7)) by lia.
    apply IH; lia.
  - eexists; reflexivity.
Qed.

(** The value the loop returns, when nothing wraps. *)
Lemma week_loop_closed_form fuel : forall day count weekend_day,
  0 <= weekend_day -> 0 <= count -> day <= 2 ^ 32 - 8 ->
  count + (day - weekend_day + 6) / 7 < 2 ^ 32 ->
  (Z.to_nat (day - weekend_day) < fuel)%nat ->
  week_loop fuel day count weekend_day
  = Some (if weekend_day <? day then count + (day - weekend_day + 6) / 7 else count).
Proof.
  induction fuel as [|fuel IH]; intros day count w Hw Hc Hday Hsum Hfuel; [lia|].
  cbn [week_loop]. destruct (w <? day) eqn:E; [|reflexivity].
  apply Z.ltb_lt in E.
  assert (1 <= (day - w + 6) / 7) by (apply Z.div_le_lower_bound; lia).
  assert ((day - (w + 7) + 6) / 7 = (day - w + 6) / 7 - 1) as Hdiv.
  { replace (day - (w + 7) + 6) with (day - w + 6 + (-1) * 7) by ring.
    rewrite Z.div_add by lia. ring. }
  rewrite (wrap32_small (w + 7)), (wrap32_small (count + 1)) by lia.
  rewrite IH by lia. f_equal.
  destruct (w + 7 <? day) eqn:E'.
  - lia.
  - apply Z.ltb_ge in E'.
    assert ((day - w + 6) / 7 < 2) by (apply Z.div_lt_upper_bound; lia). lia.
Qed.

Section WeekOfMonthProofs.
Variable Cy_RTC_ConvertDayOfWeek : Z -> Z -> Z -> Z.

(** Whatever the day-of-week routine returns, [day + 1] passes are enough
    for a day that passed validation. *)
Lemma get_week_of_month_terminates day month year :
  0 <= day <= 2 ^ 32 - 8 ->
  exists week,
    get_week_of_month Cy_RTC_ConvertDayOfWeek (S (Z.to_nat day)) day month year
    = Some week.
Proof.
  intros H. unfold get_week_of_month.
  pose proof (wrap32_range (8 - Cy_RTC_ConvertDayOfWeek 1 month year)).
  apply week_loop_terminates; lia.
Qed.

(** With a weekday index in 1..7 for day 1 and a day in 1..31 the result is
    [1 + (day + weekday - 2) / 7], for any fuel that covers [day]. *)
Lemma get_week_of_month_closed_form fuel day month year :
  1 <= Cy_RTC_ConvertDayOfWeek 1 month year <= 7 ->
  1 <= day <= 31 ->
  (Z.to_nat day < fuel)%nat ->
  get_week_of_month Cy_RTC_ConvertDayOfWeek fuel day month year
  = Some (1 + (day + Cy_RTC_ConvertDayOfWeek 1 month year - 2) / 7).
Proof.
  intros Hw Hd Hfuel. unfold get_week_of_month.
  set (w := Cy_RTC_ConvertDayOfWeek 1 month year) in *.
  rewrite (wrap32_small (8 - w)) by lia.
  assert ((day - (8 - w) + 6) / 7 = (day + w - 2) / 7) as Hdiv
    by (f_equal; ring).
  assert (0 <= (day + w - 2) / 7 <= 5).
  { split; [apply Z.div_pos; lia|].
    apply Z.lt_succ_r, Z.div_lt_upper_bound; lia. }
  rewrite week_loop_closed_form by lia.
  rewrite Hdiv. destruct (8 - w <? day) eqn:E; [reflexivity|].
  apply Z.ltb_ge in E. rewrite Z.div_small by lia. reflexivity.
Qed.

(** X7. With a weekday index in 1..7 for the first of the month and a day in
    1..31, get_week_of_month returns a week in 1..6: week 1 exactly up to day
    8 - weekday, at most 5 exactly up to day 36 - weekday, never decreasing
    with the day, and one more seven days later. *)
Lemma get_week_of_month_shape fuel day month year :
  let weekday := Cy_RTC_ConvertDayOfWeek 1 month year in
  1 <= weekday <= 7 -> 1 <= day <= 31 -> (31 < fuel)%nat ->
  exists week,
    get_week_of_month Cy_RTC_ConvertDayOfWeek fuel day month year = Some week
    /\ 1 <= week <= 6
    /\ (week = 1 <-> day <= 8 - weekday)
    /\ (week <= 5 <-> day <= 36 - weekday)
    /\ (forall day', day <= day' <= 31 ->
          exists week',
            get_week_of_month Cy_RTC_ConvertDayOfWeek fuel day' month year
            = Some week' /\ week <= week')
    /\ (day + 7 <= 31 ->
          get_week_of_month Cy_RTC_ConvertDayOfWeek fuel (day + 7) month year
          = Some (week + 1)).
Proof.
  intros weekday Hw Hd Hfuel. subst weekday.
  set (w := Cy_RTC_ConvertDayOfWeek 1 month year) in *.
  exists (1 + (day + w - 2) / 7).
  split; [apply get_week_of_month_closed_form; lia|].
  assert (0 <= (day + w - 2) / 7 <= 5) as R.
  { split; [apply Z.div_pos; lia|].
    apply Z.lt_succ_r, Z.div_lt_upper_bound; lia. }
  split; [lia|]. split; [|split; [|split]].
  - split; intros H.
    + assert ((day + w - 2) / 7 < 1) as H1 by lia.
      destruct (Z_le_gt_dec day (8 - w)) as [L|G]; [exact L|].
      exfalso. assert (1 <= (day + w - 2) / 7) by (apply Z.div_le_lower_bound; lia).
      lia.
    + rewrite Z.div_small by lia. reflexivity.
  - split; intros H.
    + destruct (Z_le_gt_dec day (36 - w)) as [L|G]; [exact L|].
      exfalso. assert (5 <= (day + w - 2) / 7) by (apply Z.div_le_lower_bound; lia).
      lia.
    + assert ((day + w - 2) / 7 < 5) by (apply Z.div_lt_upper_bound; lia). lia.
  - intros day' Hd'. exists (1 + (day' + w - 2) / 7). split.
    + apply get_week_of_month_closed_form; fold w; lia.
    + apply Z.add_le_mono_l, Z.div_le_mono; lia.
  - intros H7. rewrite get_week_of_month_closed_form; fold w; try lia.
    f_equal. replace (day + 7 + w - 2) with (day + w - 2 + 1 * 7) by ring.
    rewrite Z.div_add by lia. ring.
Qed.
End WeekOfMonthProofs.

(** ** validate_date_time: the claims *)

Lemma validate_date_time_spec sec min hour mday month year :
  (validate_date_time sec min hour mday month year = Some true
   <-> date_time_in_range sec min hour mday month year)
  /\ (validate_date_time sec min hour mday month year = Some false
      <-> ~ date_time_in_range sec min hour mday month year).
Proof.
  unfold validate_date_time, date_time_in_range.
  rewrite validate_date_time_run_eq.
  pose proof (range_checks_spec sec min hour month year) as R.
  destruct (IS_SEC_VALID sec && IS_MIN_VALID min && IS_HOUR_VALID hour
            && IS_MONTH_VALID month && IS_YEAR_VALID year) eqn:E;
    cbn [result].
  - assert (sec <= 60 /\ min <= 60 /\ hour <= 23 /\ 1 <= month <= 12 /\ 0 < year)
      as Hr by (apply R; reflexivity).
    destruct ((0 <? mday) && (mday <=? month_length month year)) eqn:D.
    + apply andb_true_iff in D. destruct D as [D1 D2].
      apply Z.ltb_lt in D1. apply Z.leb_le in D2.
      repeat split; intros; try discriminate; try tauto; try lia.
    + apply andb_false_iff in D.
      assert (~ 1 <= mday <= month_length month year) as N.
      { destruct D as [D|D]; [apply Z.ltb_ge in D | apply Z.leb_gt in D]; lia. }
      repeat split; intros; try discriminate; tauto.
  - assert (~ (sec <= 60 /\ min <= 60 /\ hour <= 23 /\ 1 <= month <= 12 /\ 0 < year))
      as N by (intros H; apply R in H; discriminate).
    repeat split; intros; try discriminate; tauto.
Qed.

(** C1. For every input tuple, [validate_date_time] returns true if and only
    if sec <= 60, min <= 60, hour <= 23, month is in 1..12, year > 0 and mday
    is in 1..N, N being the month's table entry plus one for February of a
    leap year; it returns false otherwise, so any field out of its range
    makes it false.  The bound 60 is inclusive: sec = 60 and min = 60 are
    accepted, 61 is not. *)
Theorem validate_date_time_iff_in_range sec min hour mday month year :
  (validate_date_time sec min hour mday month year = Some true
   <-> sec <= 60 /\ min <= 60 /\ hour <= 23 /\ 1 <= month <= 12 /\ 0 < year
       /\ 1 <= mday <= month_length month year)
  /\ (validate_date_time sec min hour mday month year = Some false
      <-> ~ (sec <= 60 /\ min <= 60 /\ hour <= 23 /\ 1 <= month <= 12 /\ 0 < year
             /\ 1 <= mday <= month_length month year))
  /\ validate_date_time 60 60 0 1 1 1 = Some true
  /\ validate_date_time 61 0 0 1 1 1 = Some false
  /\ validate_date_time 0 61 0 1 1 1 = Some false.
Proof.
  split; [|split]; [apply validate_date_time_spec .. |].
  repeat split; reflexivity.
Qed.

(** C7. The leap-year predicate holds for 2000 and 2024 and fails for 1900
    and 2023; with the other fields in range the validator accepts 29
    February 2024 and rejects 29 February 2023. *)
Theorem leap_year_february_29 sec min hour :
  sec <= 60 -> min <= 60 -> hour <= 23 ->
  IS_LEAP_YEAR 2000 = true /\ IS_LEAP_YEAR 2024 = true
  /\ IS_LEAP_YEAR 1900 = false /\ IS_LEAP_YEAR 2023 = false
  /\ validate_date_time sec min hour 29 2 2024 = Some true
  /\ validate_date_time sec min hour 29 2 2023 = Some false.
Proof.
  intros Hs Hm Hh. repeat split; try reflexivity.
  - apply validate_date_time_spec. repeat split; try lia.
    vm_compute; discriminate.
  - apply validate_date_time_spec. intros (_ & _ & _ & _ & _ & _ & H).
    revert H. vm_compute. intros H; apply H; reflexivity.
Qed.

Lemma leap_year_february_29_witness :
  IS_LEAP_YEAR 2000 = true /\ IS_LEAP_YEAR 2024 = true
  /\ IS_LEAP_YEAR 1900 = false /\ IS_LEAP_YEAR 2023 = false
  /\ validate_date_time 59 59 23 29 2 2024 = Some true
  /\ validate_date_time 59 59 23 29 2 2023 = Some false.
Proof. apply (leap_year_february_29 59 59 23); lia. Defined.

(** C9. For every input the month-length table is read only when month is
    in 1..12, at index month - 1, which lies inside its 12 entries: no run
    of the validator reads outside the table. *)
Theorem validate_date_time_table_read_in_bounds sec min hour mday month year :
  Forall (fun i => 1 <= month <= 12 /\ i = month - 1
                   /\ in_bounds days_in_month_table i = true)
    (reads (validate_date_time_run sec min hour mday month year))
  /\ (reads (validate_date_time_run sec min hour mday month year) = []
      <-> ~ (sec <= 60 /\ min <= 60 /\ hour <= 23 /\ 1 <= month <= 12 /\ 0 < year))
  /\ result (validate_date_time_run sec min hour mday month year) <> None.
Proof.
  rewrite validate_date_time_run_eq.
  pose proof (range_checks_spec sec min hour month year) as R.
  destruct (IS_SEC_VALID sec && IS_MIN_VALID min && IS_HOUR_VALID hour
            && IS_MONTH_VALID month && IS_YEAR_VALID year) eqn:E;
    cbn [reads result].
  - assert (sec <= 60 /\ min <= 60 /\ hour <= 23 /\ 1 <= month <= 12 /\ 0 < year)
      as Hr by (apply R; reflexivity).
    split; [|split].
    + constructor; [|constructor]. split; [tauto|]. split; [reflexivity|].
      unfold in_bounds. apply andb_true_iff.
      rewrite Z.leb_le, Z.ltb_lt. cbn [length days_in_month_table]. lia.
    + split; [discriminate|]. intros N. tauto.
    + discriminate.
  - split; [constructor|]. split; [|discriminate].
    split; [|reflexivity]. intros _ H. apply R in H. discriminate.
Qed.

(** ** The readers always return *)

Lemma get_character_loop_terminates fuel : forall timeout timeoutTicks read_value value rx,
  timeout <> 0 -> (Z.to_nat timeoutTicks < fuel)%nat ->
  exists r, get_character_loop fuel timeout timeoutTicks read_value value rx = Some r.
Proof.
  induction fuel as [|fuel IH]; intros timeout ticks rv value rx Ht Hfuel; [lia|].
  cbn [get_character_loop].
  destruct (rv =? CY_SCB_UART_RX_NO_DATA); [|eexists; reflexivity].
  assert ((timeout =? 0) = false) as E by (apply Z.eqb_neq; exact Ht).
  rewrite E. cbn [negb].
  destruct (0 <? ticks) eqn:Hticks; [|eexists; reflexivity].
  apply Z.ltb_lt in Hticks.
  destruct (Cy_SCB_UART_Get rx) as [rv' rx'].
  apply IH; [exact Ht | lia].
Qed.

(** With a timeout, [get_character] returns on every receive line. *)
Lemma get_character_rx_terminates timeout value rx :
  timeout <> 0 -> exists r, get_character_rx timeout value rx = Some r.
Proof.
  intros Ht. unfold get_character_rx.
  destruct (Cy_SCB_UART_Get rx) as [rv rx'].
  apply get_character_loop_terminates; [exact Ht | lia].
Qed.

Lemma fetch_loop_terminates fuel : forall timeout_ms index rslt ch buffer space_count echo rx,
  (Z.to_nat (timeout_ms / UART_TIMEOUT_MS) < fuel)%nat ->
  exists f, fetch_loop fuel timeout_ms index rslt ch buffer space_count echo rx = Some f.
Proof.
  induction fuel as [|fuel IH];
    intros timeout_ms index rslt ch buffer space_count echo rx Hfuel; [lia|].
  cbn [fetch_loop].
  destruct (index <? STRING_BUFFER_SIZE); [|eexists; reflexivity].
  destruct (timeout_ms <=? UART_TIMEOUT_MS) eqn:Ht; [eexists; reflexivity|].
  apply Z.leb_gt in Ht. unfold UART_TIMEOUT_MS in *.
  assert (Z.to_nat ((timeout_ms - 10) / 10) < fuel)%nat as Hnext.
  { replace (timeout_ms - 10) with (timeout_ms + (-1) * 10) by ring.
    rewrite Z.div_add by lia.
    assert (1 <= timeout_ms / 10) by (apply Z.div_le_lower_bound; lia). lia. }
  destruct (get_character_rx_terminates 10 ch rx) as [[[r ch'] rx'] ->];
    [discriminate|].
  destruct r.
  - destruct ((ch' =? 10) || (ch' =? 13)); [eexists; reflexivity|].
    apply IH. exact Hnext.
  - apply IH. exact Hnext.
Qed.

(** [fetch_time_data] returns on every receive line, for every budget. *)
Lemma fetch_time_data_rx_terminates buffer timeout_ms rx :
  exists f, fetch_time_data_rx buffer timeout_ms rx = Some f.
Proof. unfold fetch_time_data_rx. apply fetch_loop_terminates. lia. Qed.

(** ** The flows: running them block by block *)

Lemma bind_run {A B} (m : M A) (k : A -> M B) s a s' :
  m s = Ret a s' -> bind m k s = k a s'.
Proof. intros H. unfold bind. rewrite H. reflexivity. Qed.

(** Unfolds the state builders, so that a field of a built state computes. *)
Ltac fields :=
  cbv beta iota zeta delta
    [say line_read dst_menu_shown dst_format_asked dst_enable_begun
     dst_committed
     set_century_data set_current_time set_dst_time set_dst_data_flag
     set_uart_rx set_rtc_replies set_irq_enabled set_console set_rtc_log
     century_data current_time dst_time dst_data_flag uart_rx rtc_clock
     rtc_dst_active rtc_replies irq_enabled console rtc_log next_rtc_reply].

(** Two states built from the same one are equal when their fields are. *)
Ltac same_state :=
  match goal with
  | s : state |- _ => destruct s; fields; rewrite <- ?app_assoc; reflexivity
  end.

(** One step of a flow whose first action returns at once. *)
Ltac step :=
  erewrite bind_run by reflexivity; cbv beta iota;
  cbn [andb negb uart_ok lift].

(** Splits a conjunction of closed equations and evaluates each one. *)
Ltac evaluate :=
  repeat match goal with |- _ /\ _ => split end; vm_compute; reflexivity.

(** [e] is in a list put together from conses and appends. *)
Ltac in_list :=
  repeat (rewrite <- ?app_assoc; cbn [app]);
  solve [repeat first [apply in_eq | apply in_cons | (apply in_or_app; right)]].

Lemma get_character_run timeout value s rslt value' rx' :
  get_character_rx timeout value (uart_rx s) = Some (rslt, value', rx') ->
  get_character timeout value s = Ret (rslt, value') (set_uart_rx rx' s).
Proof. intros H. unfold get_character. rewrite H. reflexivity. Qed.

Lemma fetch_time_data_run buffer timeout_ms s f :
  fetch_time_data_rx buffer timeout_ms (uart_rx s) = Some f ->
  fetch_time_data buffer timeout_ms s
  = Ret (f_rslt f, f_buffer f, f_space_count f)
      (say (map Echo (f_echo f) ++ [Print MsgNewline]) (set_uart_rx (f_rx f) s)).
Proof. intros H. unfold fetch_time_data. rewrite H. reflexivity. Qed.

(** A prompt followed by [fetch_time_data]. *)
Lemma prompt_and_fetch_run {B} prompt timeout_ms s f
    (k : cy_en_scb_uart_status_t * list Z * Z -> M B) :
  fetch_time_data_rx zero_buffer timeout_ms (uart_rx s) = Some f ->
  bind (printf prompt) (fun _ => bind (fetch_time_data zero_buffer timeout_ms) k) s
  = k (f_rslt f, f_buffer f, f_space_count f) (line_read prompt f s).
Proof.
  intros H. rewrite (bind_run _ _ s tt (say [Print prompt] s)) by reflexivity.
  rewrite (bind_run _ _ _ _ _ (fetch_time_data_run _ _ (say [Print prompt] s) f H)).
  f_equal. same_state.
Qed.

Lemma dst_show_menu_run s : dst_show_menu s = Ret tt (dst_menu_shown s).
Proof.
  cbv beta iota delta [dst_show_menu bind gets printf modify
    Cy_RTC_GetDateAndTime Cy_RTC_GetDstStatus].
  unfold dst_menu_shown.
  destruct (DST_ENABLED_FLAG =? dst_data_flag s).
  - cbn [rtc_dst_active set_current_time].
    destruct (rtc_dst_active s); f_equal; same_state.
  - f_equal; same_state.
Qed.

Section FlowProofs.
Variable Cy_RTC_ConvertDayOfWeek : Z -> Z -> Z -> Z.
Variable sscanf : nat -> list Z -> list Z.

(** The menu: once a command byte has arrived, the flow goes on from the
    state with the menu on the console. *)
Lemma set_dst_feature_command timeout_ms s dst_cmd rx1 :
  get_character_rx timeout_ms 0 (uart_rx s)
  = Some (CY_SCB_UART_SUCCESS, dst_cmd, rx1) ->
  set_dst_feature Cy_RTC_ConvertDayOfWeek sscanf timeout_ms s
  = (if RTC_CMD_ENABLE_DST =? dst_cmd
     then dst_enable Cy_RTC_ConvertDayOfWeek sscanf timeout_ms
     else if RTC_CMD_DISABLE_DST =? dst_cmd then dst_disable
     else if RTC_CMD_QUIT_CONFIG_DST =? dst_cmd then printf MsgExitDstConfig
     else ret tt) (set_uart_rx rx1 (dst_menu_shown s)).
Proof.
  intros H. unfold set_dst_feature.
  rewrite (bind_run _ _ _ _ _ (dst_show_menu_run s)).
  rewrite (bind_run _ _ _ _ _
             (get_character_run _ _ (dst_menu_shown s) _ _ _ H)).
  reflexivity.
Qed.

(** The format question: once the format byte has arrived, the three
    steps of the enable flow run from the state with the question on the
    console. *)
Lemma dst_enable_format timeout_ms s fmt rx2 :
  get_character_rx timeout_ms 0 (uart_rx s)
  = Some (CY_SCB_UART_SUCCESS, fmt, rx2) ->
  dst_enable Cy_RTC_ConvertDayOfWeek sscanf timeout_ms s
  = bind (dst_start_step Cy_RTC_ConvertDayOfWeek sscanf timeout_ms fmt (0, 0, 0, 0))
      (fun vars =>
         bind (dst_end_step Cy_RTC_ConvertDayOfWeek sscanf timeout_ms fmt vars)
           (fun _ => dst_commit_step))
      (set_uart_rx rx2 (dst_format_asked s)).
Proof.
  intros H. unfold dst_enable.
  do 3 (rewrite (bind_run _ _ _ tt _) by reflexivity).
  erewrite bind_run by (apply get_character_run; exact H).
  cbn [uart_ok]. f_equal. same_state.
Qed.

(** A day that passed validation gives a rule point for either format. *)
Lemma dst_rule_point_total fmt hour mday month year :
  validate_date_time 0 0 hour mday month year = Some true ->
  exists point,
    dst_rule_point Cy_RTC_ConvertDayOfWeek fmt hour mday month year = Some point.
Proof.
  intros V. apply validate_date_time_spec in V.
  destruct V as (_ & _ & _ & Hm & _ & Hd).
  pose proof (month_length_range month year Hm).
  unfold dst_rule_point. destruct (fmt =? FIXED_DST_FORMAT).
  - eexists; reflexivity.
  - destruct (get_week_of_month_terminates Cy_RTC_ConvertDayOfWeek mday month year)
      as [week ->]; [lia|]. eexists; reflexivity.
Qed.

Lemma is_dst_format_true fmt :
  fmt = FIXED_DST_FORMAT \/ fmt = RELATIVE_DST_FORMAT -> is_dst_format fmt = true.
Proof. intros [-> | ->]; reflexivity. Qed.

(** The start step on an accepted line. *)
Lemma dst_start_step_accepted timeout_ms fmt vars s f hour mday month year point :
  fetch_time_data_rx zero_buffer timeout_ms (uart_rx s) = Some f ->
  dst_input_accepted sscanf f vars hour mday month year ->
  is_dst_format fmt = true ->
  dst_rule_point Cy_RTC_ConvertDayOfWeek fmt hour mday month year = Some point ->
  dst_start_step Cy_RTC_ConvertDayOfWeek sscanf timeout_ms fmt vars s
  = Ret (hour, mday, month, year)
      (set_dst_data_flag DST_VALID_START_TIME_FLAG
         (set_dst_time (mkDst point (stopDst (dst_time s)))
            (line_read MsgEnterDstStart f s))).
Proof.
  intros Hf (Hr & Hsp & Hscan & Hval) Hfmt Hp. unfold dst_start_step.
  rewrite (prompt_and_fetch_run _ _ _ _ _ Hf).
  rewrite Hr, Hsp, Hscan. cbn [uart_ok negb lift Z.eqb MIN_SPACE_KEY_COUNT_DST_TIME Pos.eqb].
  step. rewrite Hval. step. rewrite Hfmt, Hp. cbn [lift]. repeat step.
  reflexivity.
Qed.

(** The start step on a line that is not accepted: nothing but the console
    and the receive line changes. *)
Lemma dst_start_step_rejected timeout_ms fmt vars vars' s f :
  fetch_time_data_rx zero_buffer timeout_ms (uart_rx s) = Some f ->
  dst_input_rejected sscanf f vars vars' ->
  dst_start_step Cy_RTC_ConvertDayOfWeek sscanf timeout_ms fmt vars s
  = Ret vars' (say [Print (rejection_message f)] (line_read MsgEnterDstStart f s)).
Proof.
  intros Hf Hrej. unfold dst_start_step, rejection_message.
  rewrite (prompt_and_fetch_run _ _ _ _ _ Hf).
  destruct Hrej as [Hr | Hr Hsp | hour mday month year Hr Hsp Hscan Hval];
    rewrite Hr; cbn [uart_ok].
  - erewrite bind_run by reflexivity. reflexivity.
  - apply Z.eqb_neq in Hsp. rewrite Hsp. cbn [negb].
    erewrite bind_run by reflexivity. reflexivity.
  - rewrite Hsp, Hscan.
    cbn [negb lift Z.eqb MIN_SPACE_KEY_COUNT_DST_TIME Pos.eqb].
    step. rewrite Hval. repeat step. reflexivity.
Qed.

(** The end step is skipped unless the flag says a start time is in. *)
Lemma dst_end_step_skipped timeout_ms fmt vars s :
  dst_data_flag s <> DST_VALID_START_TIME_FLAG ->
  dst_end_step Cy_RTC_ConvertDayOfWeek sscanf timeout_ms fmt vars s = Ret tt s.
Proof.
  intros H. unfold dst_end_step. erewrite bind_run by reflexivity.
  assert ((DST_VALID_START_TIME_FLAG =? dst_data_flag s) = false) as E
    by (apply Z.eqb_neq; congruence).
  rewrite E.
  reflexivity.
Qed.

(** The end step on an accepted line. *)
Lemma dst_end_step_accepted timeout_ms fmt vars s f hour mday month year point :
  dst_data_flag s = DST_VALID_START_TIME_FLAG ->
  fetch_time_data_rx zero_buffer timeout_ms (uart_rx s) = Some f ->
  dst_input_accepted sscanf f vars hour mday month year ->
  is_dst_format fmt = true ->
  dst_rule_point Cy_RTC_ConvertDayOfWeek fmt hour mday month year = Some point ->
  dst_end_step Cy_RTC_ConvertDayOfWeek sscanf timeout_ms fmt vars s
  = Ret tt
      (set_dst_data_flag DST_VALID_END_TIME_FLAG
         (set_dst_time (mkDst (startDst (dst_time s)) point)
            (line_read MsgEnterDstEnd f s))).
Proof.
  intros Hflag Hf (Hr & Hsp & Hscan & Hval) Hfmt Hp. unfold dst_end_step.
  erewrite bind_run by reflexivity. rewrite Hflag. cbn [Z.eqb DST_VALID_START_TIME_FLAG Pos.eqb].
  rewrite (prompt_and_fetch_run _ _ _ _ _ Hf).
  rewrite Hr, Hsp, Hscan. cbn [uart_ok negb lift Z.eqb MIN_SPACE_KEY_COUNT_DST_TIME Pos.eqb].
  step. rewrite Hval. step. rewrite Hfmt, Hp. cbn [lift]. repeat step.
  reflexivity.
Qed.

(** The end step on a line that is not accepted. *)
Lemma dst_end_step_rejected timeout_ms fmt vars vars' s f :
  dst_data_flag s = DST_VALID_START_TIME_FLAG ->
  fetch_time_data_rx zero_buffer timeout_ms (uart_rx s) = Some f ->
  dst_input_rejected sscanf f vars vars' ->
  dst_end_step Cy_RTC_ConvertDayOfWeek sscanf timeout_ms fmt vars s
  = Ret tt (say [Print (rejection_message f)] (line_read MsgEnterDstEnd f s)).
Proof.
  intros Hflag Hf Hrej. unfold dst_end_step, rejection_message.
  erewrite bind_run by reflexivity. rewrite Hflag. cbn [Z.eqb DST_VALID_START_TIME_FLAG Pos.eqb].
  rewrite (prompt_and_fetch_run _ _ _ _ _ Hf).
  destruct Hrej as [Hr | Hr Hsp | hour mday month year Hr Hsp Hscan Hval];
    rewrite Hr; cbn [uart_ok].
  - reflexivity.
  - apply Z.eqb_neq in Hsp. rewrite Hsp. reflexivity.
  - rewrite Hsp, Hscan.
    cbn [negb lift Z.eqb MIN_SPACE_KEY_COUNT_DST_TIME Pos.eqb].
    step. rewrite Hval. repeat step. reflexivity.
Qed.

(** The commit step: skipped unless the flag says an end time is in;
    otherwise the schedule goes to the driver, and the driver's answer
    decides between DST_ENABLED_FLAG and [handle_error]. *)
Lemma dst_commit_step_skipped s :
  dst_data_flag s <> DST_VALID_END_TIME_FLAG -> dst_commit_step s = Ret tt s.
Proof.
  intros H. unfold dst_commit_step. erewrite bind_run by reflexivity.
  assert ((DST_VALID_END_TIME_FLAG =? dst_data_flag s) = false) as E
    by (apply Z.eqb_neq; congruence).
  rewrite E.
  reflexivity.
Qed.

Lemma dst_commit_step_run s :
  dst_data_flag s = DST_VALID_END_TIME_FLAG ->
  dst_commit_step s = dst_commit_outcome DST_ENABLED_FLAG MsgDstTimeUpdated s.
Proof.
  intros H. unfold dst_commit_step, dst_commit_outcome. step.
  rewrite H. cbn [Z.eqb DST_VALID_END_TIME_FLAG Pos.eqb].
  do 2 step.
  change (next_rtc_reply (set_current_time (rtc_clock s) s))
    with (next_rtc_reply s).
  destruct (CY_RSLT_SUCCESS =? next_rtc_reply s).
  - step. reflexivity.
  - reflexivity.
Qed.


(** The enable command and a format byte: the three steps of the enable
    flow run from [dst_enable_begun]. *)
Lemma set_dst_feature_enable timeout_ms s fmt rx1 rx2 :
  get_character_rx timeout_ms 0 (uart_rx s)
  = Some (CY_SCB_UART_SUCCESS, RTC_CMD_ENABLE_DST, rx1) ->
  get_character_rx timeout_ms 0 rx1 = Some (CY_SCB_UART_SUCCESS, fmt, rx2) ->
  set_dst_feature Cy_RTC_ConvertDayOfWeek sscanf timeout_ms s
  = bind (dst_start_step Cy_RTC_ConvertDayOfWeek sscanf timeout_ms fmt (0, 0, 0, 0))
      (fun vars =>
         bind (dst_end_step Cy_RTC_ConvertDayOfWeek sscanf timeout_ms fmt vars)
           (fun _ => dst_commit_step))
      (dst_enable_begun rx2 s).
Proof.
  intros H1 H2. rewrite (set_dst_feature_command timeout_ms s _ _ H1).
  change (RTC_CMD_ENABLE_DST =? RTC_CMD_ENABLE_DST) with true. cbv iota.
  rewrite (dst_enable_format timeout_ms (set_uart_rx rx1 (dst_menu_shown s)) fmt rx2 H2).
  reflexivity.
Qed.


(** An enable flow with an accepted start line and an accepted end line,
    up to the answer of the driver. *)
Lemma enable_flow_accepted timeout_ms s fmt rx1 rx2 f1 f2
    h1 d1 m1 y1 h2 d2 m2 y2 start stop :
  get_character_rx timeout_ms 0 (uart_rx s)
  = Some (CY_SCB_UART_SUCCESS, RTC_CMD_ENABLE_DST, rx1) ->
  get_character_rx timeout_ms 0 rx1 = Some (CY_SCB_UART_SUCCESS, fmt, rx2) ->
  is_dst_format fmt = true ->
  fetch_time_data_rx zero_buffer timeout_ms rx2 = Some f1 ->
  dst_input_accepted sscanf f1 (0, 0, 0, 0) h1 d1 m1 y1 ->
  fetch_time_data_rx zero_buffer timeout_ms (f_rx f1) = Some f2 ->
  dst_input_accepted sscanf f2 (h1, d1, m1, y1) h2 d2 m2 y2 ->
  dst_rule_point Cy_RTC_ConvertDayOfWeek fmt h1 d1 m1 y1 = Some start ->
  dst_rule_point Cy_RTC_ConvertDayOfWeek fmt h2 d2 m2 y2 = Some stop ->
  set_dst_feature Cy_RTC_ConvertDayOfWeek sscanf timeout_ms s
  = dst_commit_outcome DST_ENABLED_FLAG MsgDstTimeUpdated
      (set_dst_data_flag DST_VALID_END_TIME_FLAG
         (set_dst_time (mkDst start stop)
            (line_read MsgEnterDstEnd f2
               (line_read MsgEnterDstStart f1 (dst_enable_begun rx2 s))))).
Proof.
  intros H1 H2 Hfmt Hf1 A1 Hf2 A2 Hstart Hstop.
  rewrite (set_dst_feature_enable timeout_ms s fmt rx1 rx2 H1 H2).
  rewrite (bind_run _ _ _ _ _
             (dst_start_step_accepted timeout_ms fmt _ (dst_enable_begun rx2 s)
                f1 h1 d1 m1 y1 start Hf1 A1 Hfmt Hstart)).
  erewrite bind_run
    by (eapply dst_end_step_accepted;
        [reflexivity | exact Hf2 | exact A2 | exact Hfmt | exact Hstop]).
  rewrite dst_commit_step_run by reflexivity.
  f_equal.
Qed.

(** An enable flow with an accepted start line and an end line that is
    not accepted. *)
Lemma enable_flow_end_rejected timeout_ms s fmt rx1 rx2 f1 f2
    h1 d1 m1 y1 vars2 start :
  get_character_rx timeout_ms 0 (uart_rx s)
  = Some (CY_SCB_UART_SUCCESS, RTC_CMD_ENABLE_DST, rx1) ->
  get_character_rx timeout_ms 0 rx1 = Some (CY_SCB_UART_SUCCESS, fmt, rx2) ->
  is_dst_format fmt = true ->
  fetch_time_data_rx zero_buffer timeout_ms rx2 = Some f1 ->
  dst_input_accepted sscanf f1 (0, 0, 0, 0) h1 d1 m1 y1 ->
  fetch_time_data_rx zero_buffer timeout_ms (f_rx f1) = Some f2 ->
  dst_input_rejected sscanf f2 (h1, d1, m1, y1) vars2 ->
  dst_rule_point Cy_RTC_ConvertDayOfWeek fmt h1 d1 m1 y1 = Some start ->
  set_dst_feature Cy_RTC_ConvertDayOfWeek sscanf timeout_ms s
  = Ret tt
      (say [Print (rejection_message f2)]
         (line_read MsgEnterDstEnd f2
            (set_dst_data_flag DST_VALID_START_TIME_FLAG
               (set_dst_time (mkDst start (stopDst (dst_time s)))
                  (line_read MsgEnterDstStart f1 (dst_enable_begun rx2 s)))))).
Proof.
  intros H1 H2 Hfmt Hf1 A1 Hf2 R2 Hstart.
  rewrite (set_dst_feature_enable timeout_ms s fmt rx1 rx2 H1 H2).
  rewrite (bind_run _ _ _ _ _
             (dst_start_step_accepted timeout_ms fmt _ (dst_enable_begun rx2 s)
                f1 h1 d1 m1 y1 start Hf1 A1 Hfmt Hstart)).
  erewrite bind_run
    by (eapply dst_end_step_rejected; [reflexivity | exact Hf2 | exact R2]).
  rewrite dst_commit_step_skipped by discriminate.
  f_equal.
Qed.

(** An enable flow entered with the flag at DST_VALID_START_TIME_FLAG,
    whose start line is not accepted and whose end line is. *)
Lemma enable_flow_stale_start timeout_ms s fmt rx1 rx2 f1 f2 vars1
    h2 d2 m2 y2 stop :
  dst_data_flag s = DST_VALID_START_TIME_FLAG ->
  get_character_rx timeout_ms 0 (uart_rx s)
  = Some (CY_SCB_UART_SUCCESS, RTC_CMD_ENABLE_DST, rx1) ->
  get_character_rx timeout_ms 0 rx1 = Some (CY_SCB_UART_SUCCESS, fmt, rx2) ->
  is_dst_format fmt = true ->
  fetch_time_data_rx zero_buffer timeout_ms rx2 = Some f1 ->
  dst_input_rejected sscanf f1 (0, 0, 0, 0) vars1 ->
  fetch_time_data_rx zero_buffer timeout_ms (f_rx f1) = Some f2 ->
  dst_input_accepted sscanf f2 vars1 h2 d2 m2 y2 ->
  dst_rule_point Cy_RTC_ConvertDayOfWeek fmt h2 d2 m2 y2 = Some stop ->
  set_dst_feature Cy_RTC_ConvertDayOfWeek sscanf timeout_ms s
  = dst_commit_outcome DST_ENABLED_FLAG MsgDstTimeUpdated
      (set_dst_data_flag DST_VALID_END_TIME_FLAG
         (set_dst_time (mkDst (startDst (dst_time s)) stop)
            (line_read MsgEnterDstEnd f2
               (say [Print (rejection_message f1)]
                  (line_read MsgEnterDstStart f1 (dst_enable_begun rx2 s)))))).
Proof.
  intros Hflag H1 H2 Hfmt Hf1 R1 Hf2 A2 Hstop.
  rewrite (set_dst_feature_enable timeout_ms s fmt rx1 rx2 H1 H2).
  rewrite (bind_run _ _ _ _ _
             (dst_start_step_rejected timeout_ms fmt _ _ (dst_enable_begun rx2 s)
                f1 Hf1 R1)).
  erewrite bind_run
    by (eapply dst_end_step_accepted;
        [exact Hflag | exact Hf2 | exact A2 | exact Hfmt | exact Hstop]).
  rewrite dst_commit_step_run by reflexivity.
  f_equal.
Qed.

(** *** The claims about [set_dst_feature] *)


(** C2. From DST_DISABLED_FLAG, an enable flow that reads a valid format
    selector, an accepted start line and an accepted end line (three
    spaces each, fields passing validation) hands the schedule built from
    the two lines to the driver.  When the driver accepts it the flag is
    DST_ENABLED_FLAG; when it rejects it the flow ends in [handle_error],
    interrupts off and execution parked. *)
Theorem enable_flow_commits_and_activates timeout_ms s fmt rx1 rx2 f1 f2
    h1 d1 m1 y1 h2 d2 m2 y2 :
  dst_data_flag s = DST_DISABLED_FLAG ->
  get_character_rx timeout_ms 0 (uart_rx s)
  = Some (CY_SCB_UART_SUCCESS, RTC_CMD_ENABLE_DST, rx1) ->
  get_character_rx timeout_ms 0 rx1 = Some (CY_SCB_UART_SUCCESS, fmt, rx2) ->
  fmt = FIXED_DST_FORMAT \/ fmt = RELATIVE_DST_FORMAT ->
  fetch_time_data_rx zero_buffer timeout_ms rx2 = Some f1 ->
  dst_input_accepted sscanf f1 (0, 0, 0, 0) h1 d1 m1 y1 ->
  fetch_time_data_rx zero_buffer timeout_ms (f_rx f1) = Some f2 ->
  dst_input_accepted sscanf f2 (h1, d1, m1, y1) h2 d2 m2 y2 ->
  exists start stop s',
    dst_rule_point Cy_RTC_ConvertDayOfWeek fmt h1 d1 m1 y1 = Some start
    /\ dst_rule_point Cy_RTC_ConvertDayOfWeek fmt h2 d2 m2 y2 = Some stop
    /\ dst_time s' = mkDst start stop
    /\ rtc_log s' = rtc_log s ++ [EnableDstTime (mkDst start stop) (rtc_clock s)]
    /\ (next_rtc_reply s = CY_RSLT_SUCCESS ->
        set_dst_feature Cy_RTC_ConvertDayOfWeek sscanf timeout_ms s = Ret tt s'
        /\ dst_data_flag s' = DST_ENABLED_FLAG)
    /\ (next_rtc_reply s <> CY_RSLT_SUCCESS ->
        set_dst_feature Cy_RTC_ConvertDayOfWeek sscanf timeout_ms s = Parked s'
        /\ irq_enabled s' = false).
Proof.
  intros Hflag H1 H2 Hfmt Hf1 A1 Hf2 A2.
  destruct (dst_rule_point_total fmt h1 d1 m1 y1) as [start Hstart];
    [apply A1|].
  destruct (dst_rule_point_total fmt h2 d2 m2 y2) as [stop Hstop];
    [apply A2|].
  apply is_dst_format_true in Hfmt.
  rewrite (enable_flow_accepted timeout_ms s fmt rx1 rx2 f1 f2
             h1 d1 m1 y1 h2 d2 m2 y2 start stop H1 H2 Hfmt Hf1 A1 Hf2 A2
             Hstart Hstop).
  unfold dst_commit_outcome.
  match goal with
  | |- context [CY_RSLT_SUCCESS =? next_rtc_reply ?s'] =>
      replace (next_rtc_reply s') with (next_rtc_reply s) by reflexivity
  end.
  exists start, stop.
  destruct (CY_RSLT_SUCCESS =? next_rtc_reply s) eqn:E.
  - apply Z.eqb_eq in E. eexists.
    split; [exact Hstart|]. split; [exact Hstop|]. split; [|split; [|split]].
    3: { intros _. split; reflexivity. }
    + reflexivity.
    + reflexivity.
    + intros N. congruence.
  - apply Z.eqb_neq in E. eexists.
    split; [exact Hstart|]. split; [exact Hstop|]. split; [|split; [|split]].
    4: { intros _. split; reflexivity. }
    + reflexivity.
    + reflexivity.
    + intros N. congruence.
Qed.

(** C5. In an enable flow that has captured a valid start rule, a timeout
    at the end-time prompt leaves the flag at DST_VALID_START_TIME_FLAG:
    the end rule point keeps its old value, nothing is handed to the
    driver, and the flag is not put back to what it was before the flow. *)
Theorem end_prompt_timeout_leaves_start_captured timeout_ms s fmt rx1 rx2
    f1 f2 h1 d1 m1 y1 :
  get_character_rx timeout_ms 0 (uart_rx s)
  = Some (CY_SCB_UART_SUCCESS, RTC_CMD_ENABLE_DST, rx1) ->
  get_character_rx timeout_ms 0 rx1 = Some (CY_SCB_UART_SUCCESS, fmt, rx2) ->
  fmt = FIXED_DST_FORMAT \/ fmt = RELATIVE_DST_FORMAT ->
  fetch_time_data_rx zero_buffer timeout_ms rx2 = Some f1 ->
  dst_input_accepted sscanf f1 (0, 0, 0, 0) h1 d1 m1 y1 ->
  fetch_time_data_rx zero_buffer timeout_ms (f_rx f1) = Some f2 ->
  f_rslt f2 = CY_SCB_UART_BAD_PARAM ->
  exists start s',
    set_dst_feature Cy_RTC_ConvertDayOfWeek sscanf timeout_ms s = Ret tt s'
    /\ dst_rule_point Cy_RTC_ConvertDayOfWeek fmt h1 d1 m1 y1 = Some start
    /\ dst_data_flag s' = DST_VALID_START_TIME_FLAG
    /\ startDst (dst_time s') = start
    /\ stopDst (dst_time s') = stopDst (dst_time s)
    /\ rtc_log s' = rtc_log s
    /\ rtc_replies s' = rtc_replies s
    /\ (exists out, console s' = console s ++ out
                    /\ last out (Print MsgNewline) = Print MsgTimeout
                    /\ In (Print MsgEnterDstEnd) out)
    /\ (dst_data_flag s <> DST_VALID_START_TIME_FLAG ->
        dst_data_flag s' <> dst_data_flag s).
Proof.
  intros H1 H2 Hfmt Hf1 A1 Hf2 Htimeout.
  destruct (dst_rule_point_total fmt h1 d1 m1 y1) as [start Hstart];
    [apply A1|].
  apply is_dst_format_true in Hfmt.
  rewrite (enable_flow_end_rejected timeout_ms s fmt rx1 rx2 f1 f2
             h1 d1 m1 y1 (h1, d1, m1, y1) start H1 H2 Hfmt Hf1 A1 Hf2
             (input_timed_out sscanf f2 _ Htimeout) Hstart).
  unfold rejection_message. rewrite Htimeout. cbn [uart_ok].
  exists start. eexists. split; [reflexivity|]. split; [exact Hstart|].
  split; [reflexivity|]. split; [reflexivity|]. split; [reflexivity|].
  split; [reflexivity|]. split; [reflexivity|]. split.
  - destruct s; fields. rewrite <- !app_assoc. eexists. split; [|split].
    + reflexivity.
    + rewrite !app_assoc. apply last_last.
    + in_list.
  - intros N E. apply N. rewrite <- E. reflexivity.
Qed.

(** C10. The flag outlives the flow that set it.  Entered with the flag at
    DST_VALID_START_TIME_FLAG, an enable flow whose own start line times
    out, is mis-separated or fails validation still asks for the end time,
    and an accepted end line is committed together with the start rule
    the earlier flow left in [dst_time], whatever format this flow
    selected. *)
Theorem stale_start_rule_is_committed timeout_ms s fmt rx1 rx2 f1 f2 vars1
    h2 d2 m2 y2 :
  dst_data_flag s = DST_VALID_START_TIME_FLAG ->
  get_character_rx timeout_ms 0 (uart_rx s)
  = Some (CY_SCB_UART_SUCCESS, RTC_CMD_ENABLE_DST, rx1) ->
  get_character_rx timeout_ms 0 rx1 = Some (CY_SCB_UART_SUCCESS, fmt, rx2) ->
  fmt = FIXED_DST_FORMAT \/ fmt = RELATIVE_DST_FORMAT ->
  fetch_time_data_rx zero_buffer timeout_ms rx2 = Some f1 ->
  dst_input_rejected sscanf f1 (0, 0, 0, 0) vars1 ->
  fetch_time_data_rx zero_buffer timeout_ms (f_rx f1) = Some f2 ->
  dst_input_accepted sscanf f2 vars1 h2 d2 m2 y2 ->
  exists stop s',
    dst_rule_point Cy_RTC_ConvertDayOfWeek fmt h2 d2 m2 y2 = Some stop
    /\ dst_time s' = mkDst (startDst (dst_time s)) stop
    /\ rtc_log s'
       = rtc_log s ++ [EnableDstTime (mkDst (startDst (dst_time s)) stop)
                         (rtc_clock s)]
    /\ (exists out, console s' = console s ++ out
                    /\ In (Print (rejection_message f1)) out
                    /\ In (Print MsgEnterDstEnd) out)
    /\ (next_rtc_reply s = CY_RSLT_SUCCESS ->
        set_dst_feature Cy_RTC_ConvertDayOfWeek sscanf timeout_ms s = Ret tt s'
        /\ dst_data_flag s' = DST_ENABLED_FLAG)
    /\ (next_rtc_reply s <> CY_RSLT_SUCCESS ->
        set_dst_feature Cy_RTC_ConvertDayOfWeek sscanf timeout_ms s = Parked s'
        /\ irq_enabled s' = false).
Proof.
  intros Hflag H1 H2 Hfmt Hf1 R1 Hf2 A2.
  destruct (dst_rule_point_total fmt h2 d2 m2 y2) as [stop Hstop];
    [apply A2|].
  apply is_dst_format_true in Hfmt.
  rewrite (enable_flow_stale_start timeout_ms s fmt rx1 rx2 f1 f2 vars1
             h2 d2 m2 y2 stop Hflag H1 H2 Hfmt Hf1 R1 Hf2 A2 Hstop).
  unfold dst_commit_outcome.
  match goal with
  | |- context [CY_RSLT_SUCCESS =? next_rtc_reply ?s'] =>
      replace (next_rtc_reply s') with (next_rtc_reply s) by reflexivity
  end.
  exists stop.
  destruct (CY_RSLT_SUCCESS =? next_rtc_reply s) eqn:E.
  - apply Z.eqb_eq in E. eexists.
    split; [exact Hstop|]. split; [|split; [|split; [|split]]].
    4: { intros _. split; reflexivity. }
    + reflexivity.
    + reflexivity.
    + destruct s; fields. rewrite <- !app_assoc. eexists. split; [|split].
      * reflexivity.
      * in_list.
      * in_list.
    + intros N. congruence.
  - apply Z.eqb_neq in E. eexists.
    split; [exact Hstop|]. split; [|split; [|split; [|split]]].
    5: { intros _. split; reflexivity. }
    + reflexivity.
    + reflexivity.
    + destruct s; fields. rewrite <- !app_assoc. eexists. split; [|split].
      * reflexivity.
      * in_list.
      * in_list.
    + intros N. congruence.
Qed.

(** *** [set_new_time] *)

(** The set-time flow on a line whose fields pass validation: the time is
    handed to the driver and [century_data] is overwritten, whatever the
    driver answers; the answer only decides whether "RTC time updated" is
    printed. *)
Lemma set_new_time_accepted timeout_ms uninit s f hour min sec mday month year :
  fetch_time_data_rx zero_buffer timeout_ms (uart_rx s) = Some f ->
  f_rslt f = CY_SCB_UART_SUCCESS ->
  f_space_count f = MIN_SPACE_KEY_COUNT_NEW_TIME ->
  sscanf6 sscanf (f_buffer f) uninit = Some (hour, min, sec, mday, month, year) ->
  validate_date_time sec min hour mday month year = Some true ->
  set_new_time sscanf timeout_ms uninit s
  = Ret tt
      ((if CY_RTC_SUCCESS =? next_rtc_reply s
        then say [Print MsgRtcTimeUpdated] else fun s' => s')
         (set_century_data (year / 100 * 100)
            (set_rtc_replies (tl (rtc_replies s))
               (set_rtc_log
                  (rtc_log s ++ [SetDateAndTimeDirect sec min hour mday month
                                   (year mod 100)])
                  (line_read MsgEnterTime f s))))).
Proof.
  intros Hf Hr Hsp Hscan Hval. unfold set_new_time.
  rewrite (prompt_and_fetch_run _ _ _ _ _ Hf).
  rewrite Hr, Hsp, Hscan.
  cbn [uart_ok negb lift Z.eqb MIN_SPACE_KEY_COUNT_NEW_TIME Pos.eqb].
  step. rewrite Hval. do 3 step.
  change (next_rtc_reply (line_read MsgEnterTime f s)) with (next_rtc_reply s).
  destruct (CY_RTC_SUCCESS =? next_rtc_reply s); reflexivity.
Qed.

(** C8. In the set-time flow, a line that came in before the timeout with
    a space count other than five, or whose fields fail validation, gets
    the "Invalid values" message and nothing else: no call to the driver,
    [century_data] and the other globals as before. *)
Theorem set_new_time_refused_changes_nothing timeout_ms uninit s f :
  fetch_time_data_rx zero_buffer timeout_ms (uart_rx s) = Some f ->
  time_input_refused sscanf f uninit ->
  exists s',
    set_new_time sscanf timeout_ms uninit s = Ret tt s'
    /\ console s'
       = console s ++ Print MsgEnterTime :: map Echo (f_echo f)
                   ++ [Print MsgNewline; Print MsgInvalidValues]
    /\ rtc_log s' = rtc_log s
    /\ rtc_replies s' = rtc_replies s
    /\ century_data s' = century_data s
    /\ current_time s' = current_time s
    /\ dst_time s' = dst_time s
    /\ dst_data_flag s' = dst_data_flag s
    /\ irq_enabled s' = irq_enabled s.
Proof.
  intros Hf Href.
  exists (say [Print MsgInvalidValues] (line_read MsgEnterTime f s)).
  split.
  - unfold set_new_time. rewrite (prompt_and_fetch_run _ _ _ _ _ Hf).
    destruct Href as [Hr Hsp | hour min sec mday month year Hr Hsp Hscan Hval];
      rewrite Hr; cbn [uart_ok].
    + apply Z.eqb_neq in Hsp. rewrite Hsp. reflexivity.
    + rewrite Hsp, Hscan.
      cbn [negb lift Z.eqb MIN_SPACE_KEY_COUNT_NEW_TIME Pos.eqb].
      step. rewrite Hval. step. reflexivity.
  - repeat split. destruct s; fields.
    repeat (rewrite <- ?app_assoc; cbn [app]). reflexivity.
Qed.

(** [set_new_time] has no path into [handle_error]. *)
Lemma set_new_time_never_parks timeout_ms uninit s s' :
  set_new_time sscanf timeout_ms uninit s <> Parked s'.
Proof.
  unfold set_new_time. step. unfold bind at 1, fetch_time_data.
  destruct (fetch_time_data_rx zero_buffer timeout_ms
              (uart_rx (say [Print MsgEnterTime] s))) as [f|]; [|discriminate].
  destruct (f_rslt f); cbn [uart_ok]; [|discriminate].
  destruct (negb (f_space_count f =? MIN_SPACE_KEY_COUNT_NEW_TIME));
    [discriminate|].
  destruct (sscanf6 sscanf (f_buffer f) uninit)
    as [[[[[[hour min] sec] mday] month] year]|]; cbn [lift]; [|discriminate].
  step.
  destruct (validate_date_time sec min hour mday month year) as [[|]|];
    cbn [lift]; [| |discriminate].
  - do 3 step.
    match goal with
    | |- context [if ?c then _ else _] => destruct c; discriminate
    end.
  - step. discriminate.
Qed.

End FlowProofs.

(** *** The main loop *)

Section MainLoopProofs.
Variable Cy_RTC_ConvertDayOfWeek : Z -> Z -> Z -> Z.
Variable sscanf : nat -> list Z -> list Z.
Variable Cy_RTC_IsLeapYear : Z -> bool.

(** Once a pass of the loop is parked in [handle_error], so is the loop:
    nothing after it runs. *)
Lemma main_loop_parked passes uninit cmd s s' :
  main_loop_body Cy_RTC_ConvertDayOfWeek sscanf Cy_RTC_IsLeapYear uninit cmd s
  = Parked s' ->
  main_loop Cy_RTC_ConvertDayOfWeek sscanf Cy_RTC_IsLeapYear (S passes) uninit cmd s
  = Parked s'.
Proof. intros H. cbn [main_loop]. unfold bind. rewrite H. reflexivity. Qed.

(** A pass that reads CUMULATIVE_DAYS outside the table ends the loop the
    same way. *)
Lemma main_loop_stuck passes uninit cmd s f :
  main_loop_body Cy_RTC_ConvertDayOfWeek sscanf Cy_RTC_IsLeapYear uninit cmd s
  = Stuck f ->
  main_loop Cy_RTC_ConvertDayOfWeek sscanf Cy_RTC_IsLeapYear (S passes) uninit cmd s
  = Stuck f.
Proof. intros H. cbn [main_loop]. unfold bind. rewrite H. reflexivity. Qed.
End MainLoopProofs.

(** ** The claims on typed sessions *)

(** C6. The week-of-month routine leaves its documented range 1..5 on a
    valid date: 1 March 2025 is a Saturday (weekday index 7), 30 March 2025
    passes validation, and [get_week_of_month] returns 6 for it, so that a
    relative rule point built from that date carries [weekOfMonth = 6].
    The first day of January 2024 is in week 1. *)
Theorem get_week_of_month_returns_six :
  gregorian_day_of_week 1 3 2025 = 7
  /\ validate_date_time 0 0 2 30 3 2025 = Some true
  /\ get_week_of_month gregorian_day_of_week (S (Z.to_nat 30)) 30 3 2025 = Some 6
  /\ get_week_of_month gregorian_day_of_week (S (Z.to_nat 1)) 1 1 2024 = Some 1
  /\ dst_rule_point gregorian_day_of_week RELATIVE_DST_FORMAT 2 30 3 2025
     = Some (mkDstFormat CY_RTC_DST_RELATIVE 2 1 6 1 3).
Proof. evaluate. Qed.

(** C3. A rejected commit is not fatal in the set-time flow.  The operator
    types a line that passes validation; the driver rejects
    Cy_RTC_SetDateAndTimeDirect; [set_new_time] returns as if nothing had
    happened, with interrupts still on and [century_data] already moved to
    2100.  Run from the main loop, the same session ends with the loop
    showing the clock again. *)
Theorem set_time_commit_rejection_is_not_fatal :
  exists s1 s2,
    set_new_time decimal_sscanf INPUT_TIMEOUT_MS (0, 0, 0, 0, 0, 0)
      (boot_state typed_second_60 [rtc_rejection]) = Ret tt s1
    /\ rtc_log s1 = [SetDateAndTimeDirect 60 30 12 15 6 25]
    /\ rtc_replies s1 = []
    /\ irq_enabled s1 = true
    /\ century_data s1 = 2100
    /\ last (console s1) (Print MsgTimeout) = Print MsgNewline
    /\ main_loop gregorian_day_of_week decimal_sscanf IS_LEAP_YEAR 2
         (0, 0, 0, 0, 0, 0) 0
         (boot_state (RTC_CMD_SET_DATE_TIME :: typed_second_60) [rtc_rejection])
       = Ret tt s2
    /\ rtc_log s2 = [SetDateAndTimeDirect 60 30 12 15 6 25]
    /\ irq_enabled s2 = true
    /\ last (console s2) (Print MsgTimeout)
       = ShowClock (mkRtcConfig 30 15 9 14 6 25 7) 2100.
Proof.
  eexists. eexists. evaluate.
Qed.

Lemma enable_flow_commits_and_activates_witness :
  exists s',
    set_dst_feature gregorian_day_of_week decimal_sscanf INPUT_TIMEOUT_MS
      (boot_state typed_enable_session []) = Ret tt s'
    /\ dst_data_flag s' = DST_ENABLED_FLAG
    /\ dst_time s' = mkDst (mkDstFormat CY_RTC_DST_RELATIVE 2 1 6 1 3)
                       (mkDstFormat CY_RTC_DST_RELATIVE 3 1 5 1 10)
    /\ rtc_log s' = [EnableDstTime (dst_time s') (mkRtcConfig 30 15 9 14 6 25 7)].
Proof.
  destruct (enable_flow_commits_and_activates gregorian_day_of_week decimal_sscanf
              INPUT_TIMEOUT_MS (boot_state typed_enable_session [])
              RELATIVE_DST_FORMAT (RELATIVE_DST_FORMAT :: typed_times) typed_times
              (fetched_line typed_times) (fetched_line typed_end_line)
              2 30 3 2025 3 26 10 2025)
    as (start & stop & s' & Hstart & Hstop & Hdst & Hlog & Hok & _).
  - reflexivity.
  - vm_compute; reflexivity.
  - vm_compute; reflexivity.
  - right; reflexivity.
  - vm_compute; reflexivity.
  - unfold dst_input_accepted; evaluate.
  - vm_compute; reflexivity.
  - unfold dst_input_accepted; evaluate.
  - destruct (Hok eq_refl) as [Hrun Hflag].
    vm_compute in Hstart. injection Hstart as <-.
    vm_compute in Hstop. injection Hstop as <-.
    exists s'. split; [exact Hrun|]. split; [exact Hflag|].
    split; [exact Hdst|]. rewrite Hlog, Hdst. reflexivity.
Defined.


Lemma end_prompt_timeout_leaves_start_captured_witness :
  exists s',
    set_dst_feature gregorian_day_of_week decimal_sscanf INPUT_TIMEOUT_MS
      (boot_state typed_abandoned_session []) = Ret tt s'
    /\ dst_data_flag (boot_state typed_abandoned_session []) = DST_DISABLED_FLAG
    /\ dst_data_flag s' = DST_VALID_START_TIME_FLAG
    /\ startDst (dst_time s') = mkDstFormat CY_RTC_DST_RELATIVE 2 1 6 1 3
    /\ stopDst (dst_time s') = mkDstFormat CY_RTC_DST_RELATIVE 0 0 0 0 0
    /\ rtc_log s' = [].
Proof.
  destruct (end_prompt_timeout_leaves_start_captured gregorian_day_of_week
              decimal_sscanf INPUT_TIMEOUT_MS (boot_state typed_abandoned_session [])
              RELATIVE_DST_FORMAT (RELATIVE_DST_FORMAT :: typed_start_line)
              typed_start_line (fetched_line typed_start_line) (fetched_line [])
              2 30 3 2025)
    as (start & s' & Hrun & Hstart & Hflag & Hs & Hstop & Hlog & _).
  - vm_compute; reflexivity.
  - vm_compute; reflexivity.
  - right; reflexivity.
  - vm_compute; reflexivity.
  - unfold dst_input_accepted; evaluate.
  - vm_compute; reflexivity.
  - vm_compute; reflexivity.
  - vm_compute in Hstart. injection Hstart as <-.
    exists s'. split; [exact Hrun|]. split; [reflexivity|]. split; [exact Hflag|].
    split; [exact Hs|]. split; [exact Hstop|]. exact Hlog.
Defined.

Lemma stale_start_rule_is_committed_witness :
  exists s',
    set_dst_feature gregorian_day_of_week decimal_sscanf INPUT_TIMEOUT_MS
      (start_captured_state typed_later_session []) = Ret tt s'
    /\ dst_data_flag s' = DST_ENABLED_FLAG
    /\ rtc_log s'
       = [EnableDstTime
            (mkDst (mkDstFormat CY_RTC_DST_FIXED 2 30 1 1 3)
               (mkDstFormat CY_RTC_DST_RELATIVE 3 1 5 1 10))
            (mkRtcConfig 30 15 9 14 6 25 7)].
Proof.
  destruct (stale_start_rule_is_committed gregorian_day_of_week decimal_sscanf
              INPUT_TIMEOUT_MS (start_captured_state typed_later_session [])
              RELATIVE_DST_FORMAT (RELATIVE_DST_FORMAT :: typed_bad_start)
              typed_bad_start (fetched_line typed_bad_start)
              (fetched_line typed_end_line) (0, 0, 0, 0) 3 26 10 2025)
    as (stop & s' & Hstop & _ & Hlog & _ & Hok & _).
  - reflexivity.
  - vm_compute; reflexivity.
  - vm_compute; reflexivity.
  - right; reflexivity.
  - vm_compute; reflexivity.
  - apply input_misseparated; vm_compute; [reflexivity | discriminate].
  - vm_compute; reflexivity.
  - unfold dst_input_accepted; evaluate.
  - destruct (Hok eq_refl) as [Hrun Hflag].
    vm_compute in Hstop. injection Hstop as <-.
    exists s'. split; [exact Hrun|]. split; [exact Hflag|]. exact Hlog.
Defined.

Lemma set_new_time_refused_changes_nothing_witness :
  exists s',
    set_new_time decimal_sscanf INPUT_TIMEOUT_MS (0, 0, 0, 0, 0, 0)
      (boot_state typed_february_31 []) = Ret tt s'
    /\ last (console s') (Print MsgNewline) = Print MsgInvalidValues
    /\ rtc_log s' = []
    /\ century_data s' = 2000.
Proof.
  destruct (set_new_time_refused_changes_nothing decimal_sscanf INPUT_TIMEOUT_MS
              (0, 0, 0, 0, 0, 0) (boot_state typed_february_31 [])
              (fetched_line typed_february_31))
    as (s' & Hrun & Hcon & Hlog & _ & Hcentury & _).
  - vm_compute; reflexivity.
  - apply (time_invalid decimal_sscanf _ _ 12 30 0 31 2 2025);
      vm_compute; reflexivity.
  - exists s'. split; [exact Hrun|]. split; [|split; [exact Hlog | exact Hcentury]].
    rewrite Hcon. vm_compute. reflexivity.
Defined.


(** ** get_character: what it returns *)

Lemma get_character_loop_data fuel timeout ticks v value rx :
  v <> CY_SCB_UART_RX_NO_DATA ->
  get_character_loop (S fuel) timeout ticks v value rx
  = Some (CY_SCB_UART_SUCCESS, wrap8 v, rx).
Proof.
  intros Hv. cbn [get_character_loop].
  apply Z.eqb_neq in Hv. rewrite Hv. reflexivity.
Qed.

(** [idle] polls that find nothing, then a value: the loop returns it, as
    long as the polls fit the tick budget (or there is none). *)
Lemma get_character_loop_idle_then_data idle : forall fuel timeout ticks v value rest,
  v <> CY_SCB_UART_RX_NO_DATA ->
  timeout = 0 \/ Z.of_nat idle < ticks ->
  (S idle < fuel)%nat ->
  get_character_loop fuel timeout ticks CY_SCB_UART_RX_NO_DATA value
    (repeat CY_SCB_UART_RX_NO_DATA idle ++ v :: rest)
  = Some (CY_SCB_UART_SUCCESS, wrap8 v, rest).
Proof.
  induction idle as [|idle IH]; intros fuel timeout ticks v value rest Hv Ht Hfuel;
    (destruct fuel as [|fuel]; [lia|]); cbn [get_character_loop repeat app Cy_SCB_UART_Get];
    rewrite Z.eqb_refl.
  - destruct fuel as [|fuel]; [lia|].
    destruct (negb (timeout =? 0)) eqn:E.
    + assert (0 < ticks) as Hp by (destruct Ht as [->|]; [discriminate | lia]).
      apply Z.ltb_lt in Hp. rewrite Hp. apply get_character_loop_data. exact Hv.
    + apply get_character_loop_data. exact Hv.
  - destruct (negb (timeout =? 0)) eqn:E.
    + assert (0 < ticks) as Hp by (destruct Ht as [->|]; [discriminate | lia]).
      apply Z.ltb_lt in Hp. rewrite Hp. apply IH; [exact Hv | | lia].
      destruct Ht as [->|]; [discriminate | right; lia].
    + apply IH; [exact Hv | | lia].
      left. apply negb_false_iff, Z.eqb_eq in E. exact E.
Qed.

(** [ticks] polls that find nothing use up the tick budget. *)
Lemma get_character_loop_idle_out idle : forall fuel timeout ticks value rest,
  timeout <> 0 ->
  ticks = Z.of_nat idle ->
  (idle < fuel)%nat ->
  get_character_loop fuel timeout ticks CY_SCB_UART_RX_NO_DATA value
    (repeat CY_SCB_UART_RX_NO_DATA idle ++ rest)
  = Some (CY_SCB_UART_BAD_PARAM, value, rest).
Proof.
  induction idle as [|idle IH]; intros fuel timeout ticks value rest Ht -> Hfuel;
    (destruct fuel as [|fuel]; [lia|]); cbn [get_character_loop];
    rewrite Z.eqb_refl; apply Z.eqb_neq in Ht; rewrite Ht; cbn [negb].
  - reflexivity.
  - replace (0 <? Z.of_nat (S idle)) with true by (symmetry; apply Z.ltb_lt; lia).
    cbn [repeat app Cy_SCB_UART_Get].
    apply IH; [apply Z.eqb_neq; exact Ht | lia | lia].
Qed.

(** On a line that stays quiet the tick budget runs out. *)
Lemma get_character_loop_quiet fuel : forall timeout ticks value,
  timeout <> 0 ->
  (Z.to_nat ticks < fuel)%nat ->
  get_character_loop fuel timeout ticks CY_SCB_UART_RX_NO_DATA value []
  = Some (CY_SCB_UART_BAD_PARAM, value, []).
Proof.
  induction fuel as [|fuel IH]; intros timeout ticks value Ht Hfuel; [lia|].
  cbn [get_character_loop]. rewrite Z.eqb_refl.
  pose proof Ht as Ht'. apply Z.eqb_neq in Ht'. rewrite Ht'. cbn [negb].
  destruct (0 <? ticks) eqn:E; [|reflexivity].
  apply Z.ltb_lt in E. cbn [Cy_SCB_UART_Get]. apply IH; [exact Ht | lia].
Qed.

Lemma get_character_rx_quiet timeout value :
  timeout <> 0 ->
  get_character_rx timeout value [] = Some (CY_SCB_UART_BAD_PARAM, value, []).
Proof.
  intros Ht. unfold get_character_rx. cbn [Cy_SCB_UART_Get].
  apply get_character_loop_quiet; [exact Ht | cbn [length]; lia].
Qed.

Lemma get_character_rx_data timeout value v rest :
  v <> CY_SCB_UART_RX_NO_DATA ->
  get_character_rx timeout value (v :: rest)
  = Some (CY_SCB_UART_SUCCESS, wrap8 v, rest).
Proof.
  intros Hv. unfold get_character_rx. cbn [Cy_SCB_UART_Get].
  apply get_character_loop_data. exact Hv.
Qed.

(** X1. get_character returns the first value the UART delivers: when data
    arrives after some empty polls, with no timeout set (timeout = 0) or with
    no more empty polls than the timeout, it returns CY_SCB_UART_SUCCESS with
    the value cut to its low byte (a byte comes back unchanged), and the
    values after it stay on the line. *)
Theorem get_character_returns_first_data timeout value idle v rest :
  v <> CY_SCB_UART_RX_NO_DATA ->
  timeout = 0 \/ Z.of_nat idle <= timeout ->
  get_character_rx timeout value
    (repeat CY_SCB_UART_RX_NO_DATA idle ++ v :: rest)
  = Some (CY_SCB_UART_SUCCESS, wrap8 v, rest)
  /\ 0 <= wrap8 v < 256
  /\ (0 <= v < 256 -> wrap8 v = v).
Proof.
  intros Hv Ht. split; [|split].
  - destruct idle as [|idle].
    + apply get_character_rx_data. exact Hv.
    + unfold get_character_rx. cbn [repeat app Cy_SCB_UART_Get].
      apply get_character_loop_idle_then_data; [exact Hv | lia |].
      cbn [length]. rewrite length_app, repeat_length. cbn [length]. lia.
  - unfold wrap8. apply Z.mod_pos_bound. reflexivity.
  - intros Hb. unfold wrap8. apply Z.mod_small. exact Hb.
Qed.

Lemma get_character_returns_first_data_witness :
  get_character_rx 10 0
    (repeat CY_SCB_UART_RX_NO_DATA 10 ++ 49 :: [50; 51])
  = Some (CY_SCB_UART_SUCCESS, wrap8 49, [50; 51])
  /\ 0 <= wrap8 49 < 256
  /\ (0 <= 49 < 256 -> wrap8 49 = 49).
Proof.
  apply (get_character_returns_first_data 10 0 10 49 [50; 51]).
  - discriminate.
  - right. simpl. lia.
Defined.

(** X2. With a timeout above zero, get_character gives up after timeout + 1
    empty polls: it returns CY_SCB_UART_BAD_PARAM, leaves the caller's
    variable as it was and has taken exactly those polls off the line,
    whatever follows them; the same on a line that stays quiet. *)
Theorem get_character_times_out timeout value rest :
  0 < timeout ->
  get_character_rx timeout value
    (repeat CY_SCB_UART_RX_NO_DATA (S (Z.to_nat timeout)) ++ rest)
  = Some (CY_SCB_UART_BAD_PARAM, value, rest)
  /\ get_character_rx timeout value [] = Some (CY_SCB_UART_BAD_PARAM, value, []).
Proof.
  intros Ht. split.
  - unfold get_character_rx. cbn [repeat app Cy_SCB_UART_Get].
    apply get_character_loop_idle_out; [lia | lia |].
    cbn [length]. rewrite length_app, repeat_length. lia.
  - apply get_character_rx_quiet. lia.
Qed.

Lemma get_character_times_out_witness :
  get_character_rx 10 65
    (repeat CY_SCB_UART_RX_NO_DATA (S (Z.to_nat 10)) ++ [49])
  = Some (CY_SCB_UART_BAD_PARAM, 65, [49])
  /\ get_character_rx 10 65 [] = Some (CY_SCB_UART_BAD_PARAM, 65, []).
Proof. apply (get_character_times_out 10 65 [49]). lia. Defined.

(** ** fetch_time_data: what it reads and what it leaves in the buffer *)

Lemma get_character_loop_byte fuel : forall timeout ticks rv value rx ch rx',
  get_character_loop fuel timeout ticks rv value rx
  = Some (CY_SCB_UART_SUCCESS, ch, rx') ->
  0 <= ch < 256.
Proof.
  induction fuel as [|fuel IH]; intros timeout ticks rv value rx ch rx' H;
    [discriminate|].
  cbn [get_character_loop] in H.
  destruct (rv =? CY_SCB_UART_RX_NO_DATA).
  - destruct (negb (timeout =? 0)).
    + destruct (0 <? ticks); [|discriminate].
      destruct (Cy_SCB_UART_Get rx) as [rv1 rx1]. eapply IH; exact H.
    + destruct (Cy_SCB_UART_Get rx) as [rv1 rx1]. eapply IH; exact H.
  - injection H as <- _. unfold wrap8. apply Z.mod_pos_bound. reflexivity.
Qed.

Lemma get_character_rx_byte timeout value rx ch rx' :
  get_character_rx timeout value rx = Some (CY_SCB_UART_SUCCESS, ch, rx') ->
  0 <= ch < 256.
Proof.
  unfold get_character_rx. destruct (Cy_SCB_UART_Get rx) as [rv rx1].
  apply get_character_loop_byte.
Qed.

Lemma array_set_middle ch x : forall front back,
  array_set (front ++ x :: back) (length front) ch = front ++ ch :: back.
Proof.
  induction front as [|a front IH]; intros back; [reflexivity|].
  cbn [app length array_set]. rewrite IH. reflexivity.
Qed.

Lemma buffer_holding_store echo ch :
  (length echo < Z.to_nat STRING_BUFFER_SIZE)%nat ->
  array_set (buffer_holding echo) (length echo) ch = buffer_holding (echo ++ [ch]).
Proof.
  intros H. unfold buffer_holding. rewrite length_app. cbn [length].
  replace (Z.to_nat STRING_BUFFER_SIZE - length echo)%nat
    with (S (Z.to_nat STRING_BUFFER_SIZE - (length echo + 1)))%nat by lia.
  cbn [repeat]. rewrite array_set_middle, <- app_assoc. reflexivity.
Qed.

Lemma buffer_holding_length echo :
  (length echo <= Z.to_nat STRING_BUFFER_SIZE)%nat ->
  length (buffer_holding echo) = Z.to_nat STRING_BUFFER_SIZE.
Proof.
  intros H. unfold buffer_holding. rewrite length_app, repeat_length. lia.
Qed.

Lemma buffer_holding_full line :
  length line = Z.to_nat STRING_BUFFER_SIZE -> buffer_holding line = line.
Proof.
  intros H. unfold buffer_holding. rewrite H, Nat.sub_diag. apply app_nil_r.
Qed.

Lemma spaces_range line : 0 <= spaces line <= Z.of_nat (length line).
Proof.
  unfold spaces. pose proof (count_occ_bound Z.eq_dec 32 line). lia.
Qed.

Lemma spaces_snoc echo ch :
  spaces (echo ++ [ch]) = if ch =? 32 then spaces echo + 1 else spaces echo.
Proof.
  unfold spaces. rewrite count_occ_app. cbn [count_occ].
  destruct (Z.eq_dec ch 32) as [->|N].
  - rewrite Z.eqb_refl. lia.
  - apply Z.eqb_neq in N. rewrite N. lia.
Qed.

(** The count of the loop is the number of spaces stored so far; it cannot
    wrap, the buffer being the size it is. *)
Lemma space_count_step echo ch :
  (length echo < Z.to_nat STRING_BUFFER_SIZE)%nat ->
  (if ch =? 32 then wrap32 (spaces echo + 1) else spaces echo)
  = spaces (echo ++ [ch]).
Proof.
  intros H. rewrite spaces_snoc. pose proof (spaces_range echo) as R.
  destruct (ch =? 32); [|reflexivity].
  apply wrap32_small. change (Z.to_nat STRING_BUFFER_SIZE) with 80%nat in H. lia.
Qed.

Lemma fetch_invariant_start : fetch_invariant 0 zero_buffer 0 [].
Proof. unfold fetch_invariant. repeat split; [cbn; lia | constructor]. Qed.

Lemma fetch_invariant_step index buffer space_count echo ch :
  fetch_invariant index buffer space_count echo ->
  (index <? STRING_BUFFER_SIZE) = true ->
  0 <= ch < 256 -> (ch =? 10) || (ch =? 13) = false ->
  fetch_invariant (index + 1) (array_set buffer (Z.to_nat index) ch)
    (if ch =? 32 then wrap32 (space_count + 1) else space_count) (echo ++ [ch]).
Proof.
  intros (-> & Hlen & -> & -> & Hall) Hidx Hch Hend.
  apply Z.ltb_lt in Hidx. apply orb_false_iff in Hend. destruct Hend as [H10 H13].
  apply Z.eqb_neq in H10, H13.
  assert (length echo < Z.to_nat STRING_BUFFER_SIZE)%nat as Hlt
    by (change (Z.to_nat STRING_BUFFER_SIZE) with 80%nat;
        unfold STRING_BUFFER_SIZE in Hidx; lia).
  unfold fetch_invariant. rewrite Nat2Z.id, buffer_holding_store by exact Hlt.
  rewrite space_count_step by exact Hlt. rewrite length_app. cbn [length].
  repeat split; try lia.
  apply Forall_app. split; [exact Hall|]. constructor; [|constructor].
  unfold stored_char. tauto.
Qed.

Lemma fetch_loop_invariant fuel :
  forall timeout_ms index rslt ch buffer space_count echo rx f,
  fetch_invariant index buffer space_count echo ->
  fetch_loop fuel timeout_ms index rslt ch buffer space_count echo rx = Some f ->
  fetch_invariant (Z.of_nat (length (f_echo f))) (f_buffer f) (f_space_count f)
    (f_echo f).
Proof.
  induction fuel as [|fuel IH];
    intros timeout_ms index rslt ch buffer space_count echo rx f Hinv H;
    [discriminate|].
  assert (forall r,
            Some (mkFetched r buffer space_count echo rx) = Some f ->
            fetch_invariant (Z.of_nat (length (f_echo f))) (f_buffer f)
              (f_space_count f) (f_echo f)) as Hdone.
  { intros r E. injection E as <-. cbn [f_echo f_buffer f_space_count].
    destruct Hinv as (_ & H1 & H2 & H3 & H4). unfold fetch_invariant. tauto. }
  cbn [fetch_loop] in H.
  destruct (index <? STRING_BUFFER_SIZE) eqn:Hidx; [|eapply Hdone; exact H].
  destruct (timeout_ms <=? UART_TIMEOUT_MS); [eapply Hdone; exact H|].
  destruct (get_character_rx UART_TIMEOUT_MS ch rx) as [[[r ch'] rx']|] eqn:G;
    [|discriminate].
  destruct r.
  - destruct ((ch' =? 10) || (ch' =? 13)) eqn:Hend.
    + injection H as <-. cbn [f_echo f_buffer f_space_count].
      destruct Hinv as (_ & H1 & H2 & H3 & H4). unfold fetch_invariant. tauto.
    + eapply IH; [|exact H].
      apply fetch_invariant_step; try assumption.
      eapply get_character_rx_byte; exact G.
  - eapply IH; [exact Hinv | exact H].
Qed.

(** *** The C string in the buffer *)

Lemma c_string_terminated : forall line tail,
  Forall (fun c => c <> 0) line -> c_string (line ++ 0 :: tail) = Some line.
Proof.
  induction line as [|c line IH]; intros tail H; [reflexivity|].
  inversion H as [|? ? Hc Hl]; subst. cbn [app c_string].
  apply Z.eqb_neq in Hc. rewrite Hc, IH by exact Hl. reflexivity.
Qed.

Lemma c_string_some_terminator : forall line tail,
  c_string (line ++ 0 :: tail) <> None.
Proof.
  induction line as [|c line IH]; intros tail; [discriminate|].
  cbn [app c_string]. destruct (c =? 0); [discriminate|].
  specialize (IH tail). destruct (c_string (line ++ 0 :: tail)); [discriminate|].
  contradiction.
Qed.

Lemma c_string_unterminated : forall line,
  Forall (fun c => c <> 0) line -> c_string line = None.
Proof.
  induction line as [|c line IH]; intros H; [reflexivity|].
  inversion H as [|? ? Hc Hl]; subst. cbn [c_string].
  apply Z.eqb_neq in Hc. rewrite Hc, IH by exact Hl. reflexivity.
Qed.

Lemma buffer_holding_terminated line :
  (length line < Z.to_nat STRING_BUFFER_SIZE)%nat ->
  exists tail, buffer_holding line = line ++ 0 :: tail.
Proof.
  intros H. unfold buffer_holding.
  replace (Z.to_nat STRING_BUFFER_SIZE - length line)%nat
    with (S (Z.to_nat STRING_BUFFER_SIZE - (length line + 1)))%nat by lia.
  eexists. reflexivity.
Qed.

(** X3. Whatever arrives and whatever the budget, fetch_time_data returns,
    with at most STRING_BUFFER_SIZE (80) characters echoed; the 80-byte buffer
    holds exactly those characters, in order, with zeros after them; each is a
    byte and none is a line end; the space count is the number of spaces among
    them (0..80); and short of a full buffer the buffer holds a terminated
    string. *)
Theorem fetch_time_data_buffer_invariant timeout_ms rx :
  exists f,
    fetch_time_data_rx zero_buffer timeout_ms rx = Some f
    /\ (length (f_echo f) <= 80)%nat
    /\ length (f_buffer f) = 80%nat
    /\ f_buffer f = f_echo f ++ repeat 0 (80 - length (f_echo f))
    /\ Forall (fun c => 0 <= c < 256 /\ c <> 10 /\ c <> 13) (f_echo f)
    /\ f_space_count f = Z.of_nat (count_occ Z.eq_dec (f_echo f) 32)
    /\ 0 <= f_space_count f <= 80
    /\ ((length (f_echo f) < 80)%nat -> c_string (f_buffer f) <> None).
Proof.
  destruct (fetch_time_data_rx_terminates zero_buffer timeout_ms rx) as [f Hf].
  exists f. split; [exact Hf|].
  destruct (fetch_loop_invariant _ _ _ _ _ _ _ _ _ _ fetch_invariant_start Hf)
    as (_ & Hlen & Hbuf & Hsp & Hall).
  change (Z.to_nat STRING_BUFFER_SIZE) with 80%nat in Hlen.
  split; [exact Hlen|]. split; [rewrite Hbuf; apply buffer_holding_length; exact Hlen|].
  split; [exact Hbuf|]. split; [exact Hall|]. split; [exact Hsp|].
  split.
  - rewrite Hsp. pose proof (spaces_range (f_echo f)). lia.
  - intros Hshort. rewrite Hbuf.
    destruct (buffer_holding_terminated (f_echo f) Hshort) as [tail ->].
    apply c_string_some_terminator.
Qed.

(** *** A line typed without pauses *)

Lemma stored_char_data c : stored_char c -> c <> CY_SCB_UART_RX_NO_DATA.
Proof. unfold stored_char, CY_SCB_UART_RX_NO_DATA. lia. Qed.

Lemma stored_char_not_line_end c :
  stored_char c -> (c =? 10) || (c =? 13) = false.
Proof.
  intros (_ & H10 & H13). apply Z.eqb_neq in H10, H13. rewrite H10, H13.
  reflexivity.
Qed.

Lemma last_cons_default (a d : Z) : forall l, last (a :: l) d = last l a.
Proof.
  intros l. revert a d. induction l as [|b l IH]; intros a d; [reflexivity|].
  change (last (a :: b :: l) d) with (last (b :: l) d).
  rewrite (IH b d), (IH b a). reflexivity.
Qed.

(** The passes of the loop over the characters [c :: line], which fit the
    buffer and the budget: they are stored and echoed one by one. *)
Lemma fetch_loop_typed line : forall c fuel timeout_ms rslt ch echo rest,
  Forall stored_char (c :: line) ->
  (length echo + S (length line) <= Z.to_nat STRING_BUFFER_SIZE)%nat ->
  UART_TIMEOUT_MS * Z.of_nat (S (length line)) < timeout_ms ->
  fetch_loop (S (length line) + fuel) timeout_ms (Z.of_nat (length echo)) rslt ch
    (buffer_holding echo) (spaces echo) echo ((c :: line) ++ rest)
  = fetch_loop fuel (timeout_ms - UART_TIMEOUT_MS * Z.of_nat (S (length line)))
      (Z.of_nat (length (echo ++ c :: line))) CY_SCB_UART_SUCCESS
      (last line c) (buffer_holding (echo ++ c :: line))
      (spaces (echo ++ c :: line)) (echo ++ c :: line) rest.
Proof.
  induction line as [|c' line IH];
    intros c fuel timeout_ms rslt ch echo rest Hall Hfit Hbudget;
    inversion Hall as [|? ? Hc Hline]; subst.
  - cbn [length Nat.add fetch_loop app] in *.
    replace (Z.of_nat (length echo) <? STRING_BUFFER_SIZE) with true
      by (symmetry; apply Z.ltb_lt; unfold STRING_BUFFER_SIZE in *; lia).
    replace (timeout_ms <=? UART_TIMEOUT_MS) with false
      by (symmetry; apply Z.leb_gt; unfold UART_TIMEOUT_MS in *; lia).
    rewrite get_character_rx_data by (apply stored_char_data; exact Hc).
    assert (wrap8 c = c) as -> by (apply Z.mod_small; apply Hc).
    rewrite stored_char_not_line_end by exact Hc.
    rewrite Nat2Z.id, buffer_holding_store, space_count_step by lia.
    rewrite length_app. cbn [length last].
    replace (Z.of_nat (length echo) + 1) with (Z.of_nat (length echo + 1)) by lia.
    replace (UART_TIMEOUT_MS * Z.of_nat 1) with UART_TIMEOUT_MS by (unfold UART_TIMEOUT_MS; lia).
    reflexivity.
  - cbn [length] in Hfit, Hbudget.
    change (S (length (c' :: line)) + fuel)%nat
      with (S (S (length line) + fuel))%nat.
    cbn [fetch_loop app].
    replace (Z.of_nat (length echo) <? STRING_BUFFER_SIZE) with true
      by (symmetry; apply Z.ltb_lt; unfold STRING_BUFFER_SIZE in *; lia).
    replace (timeout_ms <=? UART_TIMEOUT_MS) with false
      by (symmetry; apply Z.leb_gt; unfold UART_TIMEOUT_MS in *; lia).
    rewrite get_character_rx_data by (apply stored_char_data; exact Hc).
    assert (wrap8 c = c) as -> by (apply Z.mod_small; apply Hc).
    rewrite stored_char_not_line_end by exact Hc.
    rewrite Nat2Z.id, buffer_holding_store, space_count_step by lia.
    replace (Z.of_nat (length echo) + 1) with (Z.of_nat (length (echo ++ [c])))
      by (rewrite length_app; cbn [length]; lia).
    change (c' :: line ++ rest) with ((c' :: line) ++ rest).
    rewrite IH.
    + replace ((echo ++ [c]) ++ c' :: line) with (echo ++ c :: c' :: line)
        by (rewrite <- app_assoc; reflexivity).
      replace (timeout_ms - UART_TIMEOUT_MS
               - UART_TIMEOUT_MS * Z.of_nat (S (length line)))
        with (timeout_ms - UART_TIMEOUT_MS * Z.of_nat (S (length (c' :: line))))
        by (cbn [length]; unfold UART_TIMEOUT_MS; lia).
      rewrite (last_cons_default c' c). reflexivity.
    + exact Hline.
    + rewrite length_app. cbn [length]. lia.
    + unfold UART_TIMEOUT_MS in *. lia.
Qed.

(** The same from the start of [fetch_time_data]. *)
Lemma fetch_time_data_rx_typed c line timeout_ms rest fuel :
  Forall stored_char (c :: line) ->
  (S (length line) <= Z.to_nat STRING_BUFFER_SIZE)%nat ->
  UART_TIMEOUT_MS * Z.of_nat (S (length line)) < timeout_ms ->
  (S (length line) + fuel)%nat = S (S (Z.to_nat (timeout_ms / UART_TIMEOUT_MS))) ->
  fetch_time_data_rx zero_buffer timeout_ms ((c :: line) ++ rest)
  = fetch_loop fuel (timeout_ms - UART_TIMEOUT_MS * Z.of_nat (S (length line)))
      (Z.of_nat (S (length line))) CY_SCB_UART_SUCCESS
      (last line c) (buffer_holding (c :: line))
      (spaces (c :: line)) (c :: line) rest.
Proof.
  intros Hall Hfit Hbudget Hfuel. unfold fetch_time_data_rx. rewrite <- Hfuel.
  exact (fetch_loop_typed line c fuel timeout_ms CY_SCB_UART_BAD_PARAM 0 [] rest
           Hall Hfit Hbudget).
Qed.

(** The passes left after [n] characters. *)
Lemma fetch_fuel_left n timeout_ms :
  UART_TIMEOUT_MS * Z.of_nat n < timeout_ms ->
  exists fuel,
    (n + S (S fuel))%nat = S (S (Z.to_nat (timeout_ms / UART_TIMEOUT_MS))).
Proof.
  intros H. unfold UART_TIMEOUT_MS in *.
  assert (Z.of_nat n <= timeout_ms / 10) by (apply Z.div_le_lower_bound; lia).
  exists (Z.to_nat (timeout_ms / 10) - n)%nat. lia.
Qed.

(** X4. A line of fewer than 80 bytes, none of them a line end, typed without
    pauses and ended by CR or LF within the budget (timeout_ms above 10 *
    (length + 1)) is read whole: fetch_time_data returns success, echoes
    exactly the line, leaves what follows the line end on the UART, counts the
    line's spaces, and the buffer holds the line followed by zeros, which for
    a line without NUL bytes is the line as a C string. *)
Theorem fetch_time_data_reads_typed_line line e rest timeout_ms :
  Forall (fun c => 0 <= c < 256 /\ c <> 10 /\ c <> 13) line ->
  (length line < 80)%nat ->
  e = 10 \/ e = 13 ->
  10 * (Z.of_nat (length line) + 1) < timeout_ms ->
  fetch_time_data_rx zero_buffer timeout_ms (line ++ e :: rest)
  = Some (mkFetched CY_SCB_UART_SUCCESS (line ++ repeat 0 (80 - length line))
            (Z.of_nat (count_occ Z.eq_dec line 32)) line rest)
  /\ (Forall (fun c => c <> 0) line ->
      c_string (line ++ repeat 0 (80 - length line)) = Some line).
Proof.
  intros Hall Hlen He Hbudget.
  assert (get_character_rx UART_TIMEOUT_MS 0 (e :: rest)
          = Some (CY_SCB_UART_SUCCESS, e, rest)) as Hget.
  { destruct He as [-> | ->]; reflexivity. }
  assert ((e =? 10) || (e =? 13) = true) as Hend
    by (destruct He as [-> | ->]; reflexivity).
  split.
  - destruct line as [|c line].
    + unfold fetch_time_data_rx. cbn [fetch_loop app].
      replace (timeout_ms <=? UART_TIMEOUT_MS) with false
        by (symmetry; apply Z.leb_gt; unfold UART_TIMEOUT_MS; cbn [length] in *; lia).
      change (0 <? STRING_BUFFER_SIZE) with true. cbv iota.
      rewrite Hget, Hend. reflexivity.
    + cbn [length] in Hlen, Hbudget.
      destruct (fetch_fuel_left (S (length line)) timeout_ms) as [fuel Hfuel];
        [unfold UART_TIMEOUT_MS; lia|].
      rewrite (fetch_time_data_rx_typed c line timeout_ms (e :: rest) (S (S fuel)));
        [| exact Hall | cbn; lia | unfold UART_TIMEOUT_MS; lia | exact Hfuel].
      cbn [fetch_loop].
      replace (Z.of_nat (S (length line)) <? STRING_BUFFER_SIZE) with true
        by (symmetry; apply Z.ltb_lt; unfold STRING_BUFFER_SIZE; lia).
      replace (timeout_ms - UART_TIMEOUT_MS * Z.of_nat (S (length line))
               <=? UART_TIMEOUT_MS) with false
        by (symmetry; apply Z.leb_gt; unfold UART_TIMEOUT_MS; lia).
      assert (get_character_rx UART_TIMEOUT_MS (last line c) (e :: rest)
              = Some (CY_SCB_UART_SUCCESS, e, rest)) as ->
        by (destruct He as [-> | ->]; reflexivity).
      rewrite Hend. reflexivity.
  - intros Hnul.
    replace (80 - length line)%nat with (S (80 - (length line + 1)))%nat by lia.
    cbn [repeat]. apply c_string_terminated. exact Hnul.
Qed.

Lemma fetch_time_data_reads_typed_line_witness :
  fetch_time_data_rx zero_buffer INPUT_TIMEOUT_MS ([50; 32; 51] ++ 13 :: [49])
  = Some (mkFetched CY_SCB_UART_SUCCESS ([50; 32; 51] ++ repeat 0 (80 - 3))
            (Z.of_nat (count_occ Z.eq_dec [50; 32; 51] 32)) [50; 32; 51] [49])
  /\ (Forall (fun c => c <> 0) [50; 32; 51] ->
      c_string ([50; 32; 51] ++ repeat 0 (80 - 3)) = Some [50; 32; 51]).
Proof.
  apply (fetch_time_data_reads_typed_line [50; 32; 51] 13 [49] INPUT_TIMEOUT_MS).
  - repeat constructor; lia.
  - simpl; lia.
  - right; reflexivity.
  - vm_compute; reflexivity.
Defined.

(** On a line that has gone quiet the loop uses up its budget. *)
Lemma fetch_loop_quiet fuel : forall timeout_ms index rslt ch buffer space_count echo,
  index < STRING_BUFFER_SIZE ->
  (Z.to_nat (timeout_ms / UART_TIMEOUT_MS) < fuel)%nat ->
  fetch_loop fuel timeout_ms index rslt ch buffer space_count echo []
  = Some (mkFetched CY_SCB_UART_BAD_PARAM buffer space_count echo []).
Proof.
  induction fuel as [|fuel IH];
    intros timeout_ms index rslt ch buffer space_count echo Hidx Hfuel; [lia|].
  cbn [fetch_loop]. apply Z.ltb_lt in Hidx. rewrite Hidx.
  destruct (timeout_ms <=? UART_TIMEOUT_MS) eqn:Ht; [reflexivity|].
  apply Z.leb_gt in Ht. unfold UART_TIMEOUT_MS in *.
  rewrite get_character_rx_quiet by discriminate.
  apply IH; [apply Z.ltb_lt; exact Hidx|].
  replace (timeout_ms - 10) with (timeout_ms + (-1) * 10) by ring.
  rewrite Z.div_add by lia.
  assert (1 <= timeout_ms / 10) by (apply Z.div_le_lower_bound; lia). lia.
Qed.

(** X5. A line that is never ended (fewer than 80 bytes, no line end, then
    silence) makes fetch_time_data return CY_SCB_UART_BAD_PARAM once its
    budget is used up, although the characters typed were echoed, stored in
    the buffer and counted. *)
Theorem fetch_time_data_times_out_on_unfinished_line line timeout_ms :
  Forall (fun c => 0 <= c < 256 /\ c <> 10 /\ c <> 13) line ->
  (length line < 80)%nat ->
  10 * Z.of_nat (length line) < timeout_ms ->
  fetch_time_data_rx zero_buffer timeout_ms line
  = Some (mkFetched CY_SCB_UART_BAD_PARAM (line ++ repeat 0 (80 - length line))
            (Z.of_nat (count_occ Z.eq_dec line 32)) line []).
Proof.
  intros Hall Hlen Hbudget. destruct line as [|c line].
  - unfold fetch_time_data_rx. apply fetch_loop_quiet; [reflexivity | lia].
  - cbn [length] in Hlen, Hbudget.
    destruct (fetch_fuel_left (S (length line)) timeout_ms) as [fuel Hfuel];
      [unfold UART_TIMEOUT_MS; lia|].
    rewrite <- (app_nil_r (c :: line)) at 1.
    rewrite (fetch_time_data_rx_typed c line timeout_ms [] (S (S fuel)));
      [| exact Hall | cbn; lia | unfold UART_TIMEOUT_MS; lia | exact Hfuel].
    apply fetch_loop_quiet; [unfold STRING_BUFFER_SIZE; lia|].
    unfold UART_TIMEOUT_MS in *.
    replace (timeout_ms - 10 * Z.of_nat (S (length line)))
      with (timeout_ms + (- Z.of_nat (S (length line))) * 10) by ring.
    rewrite Z.div_add by lia.
    assert (Z.of_nat (S (length line)) <= timeout_ms / 10)
      by (apply Z.div_le_lower_bound; lia).
    lia.
Qed.

Lemma fetch_time_data_times_out_on_unfinished_line_witness :
  fetch_time_data_rx zero_buffer INPUT_TIMEOUT_MS [50; 32; 51]
  = Some (mkFetched CY_SCB_UART_BAD_PARAM ([50; 32; 51] ++ repeat 0 (80 - 3))
            (Z.of_nat (count_occ Z.eq_dec [50; 32; 51] 32)) [50; 32; 51] []).
Proof.
  apply (fetch_time_data_times_out_on_unfinished_line [50; 32; 51] INPUT_TIMEOUT_MS).
  - repeat constructor; lia.
  - simpl; lia.
  - vm_compute; reflexivity.
Defined.

(** STRING_BUFFER_SIZE characters without a line end fill the buffer: the
    loop ends by its bound with the status of the last character, and no
    byte is left for a terminator. *)
Lemma fetch_time_data_rx_full line rest timeout_ms :
  Forall stored_char line ->
  length line = Z.to_nat STRING_BUFFER_SIZE ->
  UART_TIMEOUT_MS * STRING_BUFFER_SIZE < timeout_ms ->
  fetch_time_data_rx zero_buffer timeout_ms (line ++ rest)
  = Some (mkFetched CY_SCB_UART_SUCCESS line (spaces line) line rest).
Proof.
  intros Hall Hlen Hbudget. destruct line as [|c line]; [discriminate|].
  cbn [length] in Hlen.
  destruct (fetch_fuel_left (S (length line)) timeout_ms) as [fuel Hfuel].
  { rewrite Hlen. exact Hbudget. }
  rewrite (fetch_time_data_rx_typed c line timeout_ms rest (S (S fuel)));
    [| exact Hall | lia | rewrite Hlen; exact Hbudget | exact Hfuel].
  cbn [fetch_loop]. rewrite Hlen.
  change (Z.of_nat (Z.to_nat STRING_BUFFER_SIZE) <? STRING_BUFFER_SIZE) with false.
  cbv iota. rewrite buffer_holding_full by (cbn [length]; exact Hlen).
  reflexivity.
Qed.

(** ** get_week_of_month with any day-of-week routine *)

(** The result for a day up to 31, whatever weekday index the driver
    returns for the first of the month. *)
Lemma get_week_of_month_any_weekday (Cy_RTC_ConvertDayOfWeek : Z -> Z -> Z -> Z)
    day month year :
  0 <= day <= 31 ->
  let weekend_day := wrap32 (8 - Cy_RTC_ConvertDayOfWeek 1 month year) in
  get_week_of_month Cy_RTC_ConvertDayOfWeek (S (Z.to_nat day)) day month year
  = Some (if weekend_day <? day then 1 + (day - weekend_day + 6) / 7 else 1)
  /\ 1 <= (if weekend_day <? day then 1 + (day - weekend_day + 6) / 7 else 1) <= 6.
Proof.
  intros Hd w. unfold get_week_of_month. fold w.
  pose proof (wrap32_range (8 - Cy_RTC_ConvertDayOfWeek 1 month year)) as Hw.
  fold w in Hw.
  assert ((w <? day) = true -> 1 <= (day - w + 6) / 7 <= 5) as Hq.
  { intros L. apply Z.ltb_lt in L. split.
    - apply Z.div_le_lower_bound; lia.
    - apply Z.lt_succ_r, Z.div_lt_upper_bound; lia. }
  split.
  - apply week_loop_closed_form; try lia.
    destruct (w <? day) eqn:L.
    + specialize (Hq eq_refl). lia.
    + apply Z.ltb_ge in L.
      assert ((day - w + 6) / 7 <= 0) by (apply Z.lt_succ_r, Z.div_lt_upper_bound; lia).
      lia.
  - destruct (w <? day); [specialize (Hq eq_refl); lia | lia].
Qed.

(** X6. For a date that passed validate_date_time, the loop of
    get_week_of_month ends within mday + 1 passes and returns a week in 1..6
    whatever weekday index the driver's Cy_RTC_ConvertDayOfWeek returns, even
    one outside 1..7; week 1 is returned exactly when mday is at most 8 -
    weekday taken modulo 2^32. *)
Theorem get_week_of_month_in_1_to_6_for_any_driver
    (Cy_RTC_ConvertDayOfWeek : Z -> Z -> Z -> Z) hour mday month year :
  validate_date_time 0 0 hour mday month year = Some true ->
  exists week,
    get_week_of_month Cy_RTC_ConvertDayOfWeek (S (Z.to_nat mday)) mday month year
    = Some week
    /\ 1 <= week <= 6
    /\ (week = 1 <-> mday <= wrap32 (8 - Cy_RTC_ConvertDayOfWeek 1 month year)).
Proof.
  intros V. apply validate_date_time_spec in V.
  destruct V as (_ & _ & _ & Hm & _ & Hd).
  pose proof (month_length_range month year Hm) as Hl.
  destruct (get_week_of_month_any_weekday Cy_RTC_ConvertDayOfWeek mday month year)
    as [Hrun Hrange]; [lia|].
  eexists. split; [exact Hrun|]. split; [exact Hrange|].
  set (w := wrap32 (8 - Cy_RTC_ConvertDayOfWeek 1 month year)).
  destruct (w <? mday) eqn:L.
  - apply Z.ltb_lt in L.
    assert (1 <= (mday - w + 6) / 7) by (apply Z.div_le_lower_bound; lia).
    pose proof (wrap32_range (8 - Cy_RTC_ConvertDayOfWeek 1 month year)).
    fold w in L. lia.
  - apply Z.ltb_ge in L. fold w in L. tauto.
Qed.

Lemma get_week_of_month_in_1_to_6_for_any_driver_witness :
  exists week,
    get_week_of_month (fun _ _ _ => 12345) (S (Z.to_nat 31)) 31 12 2025 = Some week
    /\ 1 <= week <= 6
    /\ (week = 1 <-> 31 <= wrap32 (8 - 12345)).
Proof.
  apply (get_week_of_month_in_1_to_6_for_any_driver (fun _ _ _ => 12345) 23 31 12 2025).
  vm_compute; reflexivity.
Defined.

Lemma get_week_of_month_shape_witness :
  exists week,
    get_week_of_month gregorian_day_of_week 32 24 3 2025 = Some week
    /\ 1 <= week <= 6
    /\ get_week_of_month gregorian_day_of_week 32 (24 + 7) 3 2025 = Some (week + 1).
Proof.
  destruct (get_week_of_month_shape gregorian_day_of_week 32 24 3 2025)
    as (week & Hrun & Hrange & _ & _ & _ & Hnext).
  - vm_compute; split; discriminate.
  - lia.
  - lia.
  - exists week. split; [exact Hrun|]. split; [exact Hrange|].
    apply Hnext. lia.
Defined.

(** ** February in validate_date_time *)

Lemma IS_LEAP_YEAR_spec year :
  IS_LEAP_YEAR year = true
  <-> (year mod 4 = 0 /\ year mod 100 <> 0) \/ year mod 400 = 0.
Proof.
  unfold IS_LEAP_YEAR.
  rewrite orb_true_iff, andb_true_iff, negb_true_iff, !Z.eqb_eq, Z.eqb_neq.
  intuition congruence.
Qed.

(** X8. With sec, min and hour in range and year above zero,
    validate_date_time accepts 29 February exactly in the years divisible by 4
    and not by 100, or divisible by 400, and rejects it in all others; 28
    February is always accepted and 30 February never. *)
Theorem february_29_accepted_iff_leap_year sec min hour year :
  sec <= 60 -> min <= 60 -> hour <= 23 -> 0 < year ->
  (validate_date_time sec min hour 29 2 year = Some true
   <-> (year mod 4 = 0 /\ year mod 100 <> 0) \/ year mod 400 = 0)
  /\ (validate_date_time sec min hour 29 2 year = Some false
      <-> ~ ((year mod 4 = 0 /\ year mod 100 <> 0) \/ year mod 400 = 0))
  /\ validate_date_time sec min hour 28 2 year = Some true
  /\ validate_date_time sec min hour 30 2 year = Some false.
Proof.
  intros Hs Hm Hh Hy.
  assert (month_length 2 year = if IS_LEAP_YEAR year then 29 else 28) as Hlen.
  { unfold month_length. destruct (IS_LEAP_YEAR year); reflexivity. }
  pose proof (IS_LEAP_YEAR_spec year) as Hleap.
  destruct (validate_date_time_spec sec min hour 29 2 year) as [T29 F29].
  destruct (validate_date_time_spec sec min hour 28 2 year) as [T28 _].
  destruct (validate_date_time_spec sec min hour 30 2 year) as [_ F30].
  unfold date_time_in_range in *. rewrite Hlen in *.
  rewrite T29, F29. clear T29 F29.
  split; [|split; [|split]].
  - rewrite <- Hleap.
    destruct (IS_LEAP_YEAR year); intuition (try lia; try discriminate).
  - rewrite <- Hleap.
    destruct (IS_LEAP_YEAR year); intuition (try lia; try discriminate).
  - apply T28. destruct (IS_LEAP_YEAR year); lia.
  - apply F30. destruct (IS_LEAP_YEAR year); lia.
Qed.

Lemma february_29_accepted_iff_leap_year_witness :
  (validate_date_time 0 0 12 29 2 2100 = Some true
   <-> (2100 mod 4 = 0 /\ 2100 mod 100 <> 0) \/ 2100 mod 400 = 0)
  /\ (validate_date_time 0 0 12 29 2 2100 = Some false
      <-> ~ ((2100 mod 4 = 0 /\ 2100 mod 100 <> 0) \/ 2100 mod 400 = 0))
  /\ validate_date_time 0 0 12 28 2 2100 = Some true
  /\ validate_date_time 0 0 12 30 2 2100 = Some false.
Proof. apply (february_29_accepted_iff_leap_year 0 0 12 2100); lia. Defined.

(** ** construct_time_format *)

Lemma to_int_small x : 0 <= x < 2 ^ 31 -> to_int x = x.
Proof.
  intros H. unfold to_int.
  replace (x <? 2 ^ 31) with true by (symmetry; apply Z.ltb_lt; lia).
  reflexivity.
Qed.

Lemma month_cases month :
  1 <= month <= 12 ->
  month = 1 \/ month = 2 \/ month = 3 \/ month = 4 \/ month = 5 \/ month = 6
  \/ month = 7 \/ month = 8 \/ month = 9 \/ month = 10 \/ month = 11
  \/ month = 12.
Proof. lia. Qed.

(** The index used on CUMULATIVE_DAYS. *)
Lemma month_index month :
  uint32 month ->
  in_bounds CUMULATIVE_DAYS (to_int (wrap32 (month - 1))) = true
  <-> 1 <= month <= 12.
Proof.
  intros Hu. unfold uint32 in Hu. unfold in_bounds.
  rewrite andb_true_iff, Z.leb_le, Z.ltb_lt.
  change (Z.of_nat (length CUMULATIVE_DAYS)) with 12.
  destruct (Z.eq_dec month 0) as [->|N].
  - vm_compute. intuition discriminate.
  - rewrite wrap32_small by lia. unfold to_int.
    destruct (month - 1 <? 2 ^ 31) eqn:E.
    + lia.
    + apply Z.ltb_ge in E. lia.
Qed.

Lemma table_read_cumulative month :
  1 <= month <= 12 ->
  table_read CUMULATIVE_DAYS (month - 1)
  = Traced [month - 1] (Some (nth (Z.to_nat (month - 1)) CUMULATIVE_DAYS 0)).
Proof.
  intros H.
  destruct (month_cases month H) as [-> | [-> | [-> | [-> | [-> | [-> | [-> | [-> |
    [-> | [-> | [-> | ->]]]]]]]]]]]; reflexivity.
Qed.

(** CUMULATIVE_DAYS against the month lengths of [validate_date_time]: the
    entry of a month, with the leap day from March on, is the sum of the
    lengths of the months before it; with the month's own length added it
    stays within the year. *)
Lemma cumulative_days_spec month year :
  1 <= month <= 12 ->
  nth (Z.to_nat (month - 1)) CUMULATIVE_DAYS 0
  + (if (3 <=? month) && IS_LEAP_YEAR year then 1 else 0)
  = days_before month year
  /\ 0 <= nth (Z.to_nat (month - 1)) CUMULATIVE_DAYS 0 <= 334
  /\ days_before month year + month_length month year
     <= (if IS_LEAP_YEAR year then 366 else 365).
Proof.
  intros H. unfold days_before, month_length.
  generalize (IS_LEAP_YEAR year). intros b.
  destruct (month_cases month H) as [-> | [-> | [-> | [-> | [-> | [-> | [-> | [-> |
    [-> | [-> | [-> | ->]]]]]]]]]]]; destruct b; vm_compute;
    intuition discriminate.
Qed.

Section ConstructTimeFormatProofs.
Variable Cy_RTC_IsLeapYear : Z -> bool.

Lemma construct_time_format_run_result now century :
  result (construct_time_format_run Cy_RTC_IsLeapYear now century) <> None
  <-> in_bounds CUMULATIVE_DAYS (to_int (wrap32 (t_month now - 1))) = true.
Proof.
  unfold construct_time_format_run, tbind, table_read. cbn [result].
  destruct (in_bounds CUMULATIVE_DAYS (to_int (wrap32 (t_month now - 1)))) eqn:B.
  - unfold in_bounds in B. apply andb_true_iff in B. destruct B as [B1 B2].
    apply Z.leb_le in B1. apply Z.ltb_lt in B2.
    destruct (nth_error CUMULATIVE_DAYS (Z.to_nat (to_int (wrap32 (t_month now - 1)))))
      eqn:N.
    + cbn [result tret]. split; [reflexivity | discriminate].
    + apply nth_error_None in N. lia.
  - cbn [result]. split; [contradiction | discriminate].
Qed.

(** X9. construct_time_format reads CUMULATIVE_DAYS at tm_mon, that is month -
    1 computed unsigned and stored in an int; for a 32-bit month the read lies
    inside the table's 12 entries exactly when current_time.month is in 1..12,
    and for month 0 the index is -1. *)
Theorem construct_time_format_table_read_in_bounds_iff now century :
  uint32 (t_month now) ->
  (result (construct_time_format_run Cy_RTC_IsLeapYear now century) <> None
   <-> 1 <= t_month now <= 12)
  /\ (Forall (fun i => in_bounds CUMULATIVE_DAYS i = true)
        (reads (construct_time_format_run Cy_RTC_IsLeapYear now century))
      <-> 1 <= t_month now <= 12)
  /\ (t_month now = 0 ->
      reads (construct_time_format_run Cy_RTC_IsLeapYear now century) = [-1]).
Proof.
  intros Hu. split; [|split].
  - rewrite construct_time_format_run_result. apply month_index. exact Hu.
  - rewrite <- (month_index _ Hu).
    unfold construct_time_format_run, tbind, table_read. cbn [result].
    destruct (in_bounds CUMULATIVE_DAYS (to_int (wrap32 (t_month now - 1)))) eqn:B.
    + destruct (nth_error CUMULATIVE_DAYS
                  (Z.to_nat (to_int (wrap32 (t_month now - 1)))));
        cbn [reads tret app]; (split; [reflexivity|]); intros _;
        constructor; [exact B | constructor | exact B | constructor].
    + cbn [reads]. split; [|discriminate].
      intros F. inversion F as [|? ? F1 _]. rewrite B in F1. discriminate.
  - intros E. unfold construct_time_format_run. rewrite E. reflexivity.
Qed.


(** X10. For a clock reading that validate_date_time accepts (with year +
    century_data as the year, a 32-bit value) and a Cy_RTC_IsLeapYear that
    agrees with IS_LEAP_YEAR, construct_time_format sets tm_mday to the day,
    tm_mon to month - 1 and tm_yday to the sum of the lengths of the earlier
    months, as the validator counts them, plus day - 1; tm_yday is in 0..364,
    or 0..365 in a leap year. CUMULATIVE_DAYS agrees with the validator's
    table of month lengths. *)
Theorem construct_time_format_day_of_year now century :
  (forall year, Cy_RTC_IsLeapYear year = IS_LEAP_YEAR year) ->
  uint32 (t_year now + century) ->
  validate_date_time (t_sec now) (t_min now) (t_hour now) (t_date now)
    (t_month now) (t_year now + century) = Some true ->
  exists time,
    result (construct_time_format_run Cy_RTC_IsLeapYear now century) = Some time
    /\ tm_mday time = t_date now
    /\ tm_mon time = t_month now - 1
    /\ tm_yday time
       = days_before (t_month now) (t_year now + century) + t_date now - 1
    /\ 0 <= tm_yday time
       <= (if IS_LEAP_YEAR (t_year now + century) then 365 else 364).
Proof.
  intros Hleap Hy V. destruct now as [sec min hour date month year dow].
  cbn [t_sec t_min t_hour t_date t_month t_year] in *.
  apply validate_date_time_spec in V.
  destruct V as (_ & _ & _ & Hm & _ & Hd).
  pose proof (month_length_range month (year + century) Hm) as Hl.
  destruct (cumulative_days_spec month (year + century) Hm) as (Hsum & Hcum & Hend).
  unfold construct_time_format_run. cbn [t_sec t_min t_hour t_date t_month t_year].
  rewrite Hleap, (wrap32_small (year + century)) by exact Hy.
  rewrite (wrap32_small (month - 1)), (to_int_small (month - 1))
    by (change (2 ^ 32) with 4294967296; change (2 ^ 31) with 2147483648; lia).
  rewrite (table_read_cumulative month Hm).
  unfold tbind, tret. cbn [result reads].
  eexists. split; [reflexivity|]. cbn [tm_mday tm_mon tm_yday].
  set (days := nth (Z.to_nat (month - 1)) CUMULATIVE_DAYS 0) in *.
  set (leap_day := if (3 <=? month) && IS_LEAP_YEAR (year + century) then 1 else 0)
    in *.
  assert (0 <= leap_day <= 1) as Hld
    by (subst leap_day;
        destruct ((3 <=? month) && IS_LEAP_YEAR (year + century)); lia).
  rewrite (wrap32_small (date - 1)), (wrap32_small (days + (date - 1))),
    (wrap32_small (days + (date - 1) + leap_day)),
    (to_int_small (days + (date - 1) + leap_day)), (to_int_small date)
    by (change (2 ^ 32) with 4294967296; change (2 ^ 31) with 2147483648; lia).
  split; [reflexivity|]. split; [reflexivity|]. split; [lia|].
  destruct (IS_LEAP_YEAR (year + century)); lia.
Qed.

End ConstructTimeFormatProofs.

Lemma construct_time_format_table_read_in_bounds_iff_witness :
  (result (construct_time_format_run IS_LEAP_YEAR (mkRtcConfig 0 0 0 1 0 25 1) 2000)
     <> None
   <-> 1 <= 0 <= 12)
  /\ (Forall (fun i => in_bounds CUMULATIVE_DAYS i = true)
        (reads (construct_time_format_run IS_LEAP_YEAR (mkRtcConfig 0 0 0 1 0 25 1) 2000))
      <-> 1 <= 0 <= 12)
  /\ (0 = 0 ->
      reads (construct_time_format_run IS_LEAP_YEAR (mkRtcConfig 0 0 0 1 0 25 1) 2000)
      = [-1]).
Proof.
  apply (construct_time_format_table_read_in_bounds_iff IS_LEAP_YEAR
           (mkRtcConfig 0 0 0 1 0 25 1) 2000).
  unfold uint32; simpl; lia.
Defined.

Lemma construct_time_format_day_of_year_witness :
  exists time,
    result (construct_time_format_run IS_LEAP_YEAR (mkRtcConfig 30 15 9 1 3 24 7) 2000)
    = Some time
    /\ tm_mday time = 1
    /\ tm_mon time = 3 - 1
    /\ tm_yday time = days_before 3 (24 + 2000) + 1 - 1
    /\ 0 <= tm_yday time <= (if IS_LEAP_YEAR (24 + 2000) then 365 else 364).
Proof.
  apply (construct_time_format_day_of_year IS_LEAP_YEAR (mkRtcConfig 30 15 9 1 3 24 7) 2000).
  - reflexivity.
  - unfold uint32; simpl; lia.
  - vm_compute; reflexivity.
Defined.

(** ** The flows on every input *)

(** *** How a flow ends, step by step *)

Lemma sat_bind {A B} (m : M A) (k : A -> M B) s Q E :
  outcome_sat (m s) (fun a s' => outcome_sat (k a s') Q E) E ->
  outcome_sat (bind m k s) Q E.
Proof. unfold bind. destruct (m s); exact (fun H => H). Qed.

(** A step known by what it guarantees. *)
Lemma sat_bind_with {A B} (m : M A) (k : A -> M B) s Q1 E1 Q E :
  outcome_sat (m s) Q1 E1 ->
  (forall a s', Q1 a s' -> outcome_sat (k a s') Q E) ->
  (forall s', E1 s' -> E s') ->
  outcome_sat (bind m k s) Q E.
Proof. unfold bind. destruct (m s); cbn [outcome_sat]; auto. Qed.

Lemma sat_weaken {A} (o : outcome A) Q1 E1 (Q : A -> state -> Prop)
    (E : state -> Prop) :
  outcome_sat o Q1 E1 ->
  (forall a s', Q1 a s' -> Q a s') ->
  (forall s', E1 s' -> E s') ->
  outcome_sat o Q E.
Proof. destruct o; cbn [outcome_sat]; auto. Qed.

Lemma sat_ret {A} (a : A) s (Q : A -> state -> Prop) (E : state -> Prop) :
  Q a s -> outcome_sat (ret a s) Q E.
Proof. exact (fun H => H). Qed.

Lemma sat_modify f s (Q : unit -> state -> Prop) (E : state -> Prop) :
  Q tt (f s) -> outcome_sat (modify f s) Q E.
Proof. exact (fun H => H). Qed.

Lemma sat_printf m s (Q : unit -> state -> Prop) (E : state -> Prop) :
  Q tt (say [Print m] s) -> outcome_sat (printf m s) Q E.
Proof. exact (fun H => H). Qed.

Lemma sat_gets {A} (f : state -> A) s (Q : A -> state -> Prop)
    (E : state -> Prop) :
  Q (f s) s -> outcome_sat (gets f s) Q E.
Proof. exact (fun H => H). Qed.

Lemma sat_lift {A} fl (o : option A) s (Q : A -> state -> Prop)
    (E : state -> Prop) :
  (forall a, o = Some a -> Q a s) -> outcome_sat (lift fl o s) Q E.
Proof. destruct o; cbn; auto. Qed.

Lemma sat_handle_error {A} s (Q : A -> state -> Prop) (E : state -> Prop) :
  E (set_irq_enabled false s) -> outcome_sat (handle_error s) Q E.
Proof. exact (fun H => H). Qed.

Lemma sat_get_clock s (Q : unit -> state -> Prop) (E : state -> Prop) :
  Q tt (set_current_time (rtc_clock s) s) ->
  outcome_sat (Cy_RTC_GetDateAndTime s) Q E.
Proof. exact (fun H => H). Qed.

Lemma sat_construct_time_format leap s (Q : tm -> state -> Prop)
    (E : state -> Prop) :
  (forall time,
      result (construct_time_format_run leap (current_time s) (century_data s))
      = Some time ->
      Q time s) ->
  outcome_sat (construct_time_format leap s) Q E.
Proof. unfold construct_time_format. apply sat_lift. Qed.

Lemma sat_rtc_commit c s (Q : Z -> state -> Prop) (E : state -> Prop) :
  Q (next_rtc_reply s)
    (set_rtc_replies (tl (rtc_replies s)) (set_rtc_log (rtc_log s ++ [c]) s)) ->
  outcome_sat (rtc_commit c s) Q E.
Proof. exact (fun H => H). Qed.

Lemma sat_enable_dst s (Q : Z -> state -> Prop) (E : state -> Prop) :
  Q (next_rtc_reply s)
    (set_rtc_replies (tl (rtc_replies s))
       (set_rtc_log (rtc_log s ++ [EnableDstTime (dst_time s) (current_time s)]) s)) ->
  outcome_sat (Cy_RTC_EnableDstTime s) Q E.
Proof. exact (fun H => H). Qed.

Lemma sat_get_character timeout value s
    (Q : cy_en_scb_uart_status_t * Z -> state -> Prop) (E : state -> Prop) :
  (forall rslt value' rx',
      get_character_rx timeout value (uart_rx s) = Some (rslt, value', rx') ->
      Q (rslt, value') (set_uart_rx rx' s)) ->
  outcome_sat (get_character timeout value s) Q E.
Proof.
  intros H. unfold get_character.
  destruct (get_character_rx timeout value (uart_rx s)) as [[[r v] rx']|];
    cbn [outcome_sat]; auto.
Qed.

Lemma sat_fetch_time_data buffer timeout_ms s
    (Q : cy_en_scb_uart_status_t * list Z * Z -> state -> Prop)
    (E : state -> Prop) :
  (forall f,
      fetch_time_data_rx buffer timeout_ms (uart_rx s) = Some f ->
      Q (f_rslt f, f_buffer f, f_space_count f)
        (say (map Echo (f_echo f) ++ [Print MsgNewline]) (set_uart_rx (f_rx f) s))) ->
  outcome_sat (fetch_time_data buffer timeout_ms s) Q E.
Proof.
  intros H. unfold fetch_time_data.
  destruct (fetch_time_data_rx buffer timeout_ms (uart_rx s)) as [f|];
    cbn [outcome_sat]; auto.
Qed.

(** One step of a flow, whatever the step is. *)
Ltac flow_step :=
  lazymatch goal with
  | |- outcome_sat (bind _ _ _) _ _ => apply sat_bind
  | |- outcome_sat (printf _ _) _ _ => apply sat_printf
  | |- outcome_sat (Cy_RTC_GetDateAndTime _) _ _ => apply sat_get_clock
  | |- outcome_sat (construct_time_format _ _) _ _ =>
      let time := fresh "date_time" in let H := fresh "Htime" in
      apply sat_construct_time_format; intros time H
  | |- outcome_sat (Cy_RTC_EnableDstTime _) _ _ => apply sat_enable_dst
  | |- outcome_sat (Cy_RTC_SetDateAndTimeDirect _ _ _ _ _ _ _) _ _ =>
      apply sat_rtc_commit
  | |- outcome_sat (modify _ _) _ _ => apply sat_modify
  | |- outcome_sat (gets _ _) _ _ => apply sat_gets
  | |- outcome_sat (ret _ _) _ _ => apply sat_ret
  | |- outcome_sat (lift _ _ _) _ _ =>
      let a := fresh "a" in let Ha := fresh "Ha" in
      apply sat_lift; intros a Ha
  | |- outcome_sat (handle_error _) _ _ => apply sat_handle_error
  | |- outcome_sat (get_character _ _ _) _ _ =>
      let r := fresh "rslt" in let v := fresh "key" in
      let rx := fresh "rx" in let H := fresh "Hkey" in
      apply sat_get_character; intros r v rx H
  | |- outcome_sat (fetch_time_data _ _ _) _ _ =>
      let f := fresh "f" in let H := fresh "Hline" in
      apply sat_fetch_time_data; intros f H
  | |- outcome_sat ((if uart_ok ?r then _ else _) _) _ _ => destruct r; cbn [uart_ok]
  | |- outcome_sat ((if ?b then _ else _) _) _ _ =>
      let B := fresh "B" in destruct b eqn:B
  | |- outcome_sat ((match ?p with (_, _) => _ end) _) _ _ => destruct p
  end; cbv beta iota.

(** The fields of a state built by the steps of a flow. *)
Ltac frame :=
  fields; rewrite <- ?app_assoc;
  repeat match goal with
         | |- _ /\ _ => split
         | |- exists out, ?l ++ _ = ?l ++ out => eexists; reflexivity
         | |- exists out, ?l = ?l ++ out => exists []; symmetry; apply app_nil_r
         | |- _ = _ => reflexivity
         end.

(** *** The scanned variables stay unsigned 32-bit values *)

Lemma store4_uint32 new vars : uint32_vars4 vars -> uint32_vars4 (store4 new vars).
Proof.
  destruct vars as [[[hour mday] month] year]. intros (H1 & H2 & H3 & H4).
  pose proof wrap32_range as W. unfold uint32 in *.
  destruct new as [|a [|b [|c [|d rest]]]]; cbn [store4 uint32_vars4];
    repeat split; try apply W; tauto.
Qed.

Lemma store6_uint32 new vars : uint32_vars6 vars -> uint32_vars6 (store6 new vars).
Proof.
  destruct vars as [[[[[hour min] sec] mday] month] year].
  intros (H1 & H2 & H3 & H4 & H5 & H6).
  pose proof wrap32_range as W. unfold uint32 in *.
  destruct new as [|a [|b [|c [|d [|e [|g rest]]]]]]; cbn [store6 uint32_vars6];
    repeat split; try apply W; tauto.
Qed.

Section FlowsOnEveryInput.
Variable Cy_RTC_ConvertDayOfWeek : Z -> Z -> Z -> Z.
Variable sscanf : nat -> list Z -> list Z.

Lemma sscanf4_uint32 buffer vars vars' :
  sscanf4 sscanf buffer vars = Some vars' -> uint32_vars4 vars -> uint32_vars4 vars'.
Proof.
  unfold sscanf4. destruct (scan sscanf 4 buffer); [|discriminate].
  intros E H. injection E as <-. apply store4_uint32. exact H.
Qed.

Lemma sscanf6_uint32 buffer vars vars' :
  sscanf6 sscanf buffer vars = Some vars' -> uint32_vars6 vars -> uint32_vars6 vars'.
Proof.
  unfold sscanf6. destruct (scan sscanf 6 buffer); [|discriminate].
  intros E H. injection E as <-. apply store6_uint32. exact H.
Qed.

(** *** set_new_time *)

(** Every run of [set_new_time]: it returns, with the DST globals, the
    interrupt mask and [current_time] as they were, and either no commit and
    the old century, or one commit of a validated time. *)
Lemma set_new_time_outcomes timeout_ms uninit s :
  outcome_sat (set_new_time sscanf timeout_ms uninit s)
    (fun _ s' =>
       time_flow_frame s s'
       /\ ((driver_untouched s s' /\ century_data s' = century_data s)
           \/ time_committed uninit s s'))
    (fun _ => False).
Proof.
  unfold set_new_time. repeat flow_step.
  all: (split; [unfold time_flow_frame, hardware_kept; frame|]).
  all: try (left; unfold driver_untouched; frame; fail).
  all: right; unfold time_committed; do 6 eexists.
  all: (split; [eassumption|]).
  all: (split; [eapply sscanf6_uint32; eassumption|]).
  all: frame.
Qed.
End FlowsOnEveryInput.

(** *** set_dst_feature *)

Lemma hardware_kept_refl s : hardware_kept s s.
Proof.
  unfold hardware_kept. split; [reflexivity|]. split; [reflexivity|].
  exists []. symmetry. apply app_nil_r.
Qed.

Lemma hardware_kept_trans s1 s2 s3 :
  hardware_kept s1 s2 -> hardware_kept s2 s3 -> hardware_kept s1 s3.
Proof.
  intros (C1 & A1 & out1 & O1) (C2 & A2 & out2 & O2). unfold hardware_kept.
  split; [congruence|]. split; [congruence|].
  exists (out1 ++ out2). rewrite O2, O1, app_assoc. reflexivity.
Qed.

(** Equalities between fields, through conjunctions and disjunctions. *)
Ltac relate :=
  lazymatch goal with
  | |- _ /\ _ => split; relate
  | |- _ \/ _ => first [solve [left; relate] | solve [right; relate]]
  | |- _ => first [assumption | congruence]
  end.

(** Splits the conjunctions and disjunctions among the hypotheses. *)
Ltac cases :=
  repeat match goal with
         | H : _ /\ _ |- _ => destruct H
         | H : _ \/ _ |- _ => destruct H
         end.

Ltac unfold_relations :=
  unfold dst_flow_frame, dst_flow_returned, dst_flow_parked, schedule_committed,
    schedule_source, prompt_frame, commit_made, driver_untouched, dialogue_from,
    next_rtc_reply, DST_DISABLED_FLAG, DST_VALID_START_TIME_FLAG,
    DST_VALID_END_TIME_FLAG, DST_ENABLED_FLAG in *.

(** The readings of the hardware of two related states, as equalities. *)
Ltac hardware_facts :=
  repeat match goal with
         | H : hardware_kept ?a ?b |- _ =>
             lazymatch goal with
             | _ : rtc_clock b = rtc_clock a |- _ => fail
             | _ => let C := fresh "Hclock" in
                    pose proof (proj1 H) as C
             end
         end.

(** A state built by the steps of a dialogue is one further into it. *)
Ltac dialogue :=
  unfold dialogue_from, driver_untouched, hardware_kept; frame;
  try match goal with
      | |- context [if ?e then _ else _] => destruct e
      end;
  first [left; reflexivity | right; reflexivity].

(** The commit step: it does nothing unless the flag is at
    DST_VALID_END_TIME_FLAG; then it hands [dst_time] to the driver, and
    parks the program if the driver rejects it. *)
Lemma dst_commit_step_outcomes s :
  outcome_sat (dst_commit_step s)
    (fun _ s' =>
       century_data s' = century_data s /\ irq_enabled s' = irq_enabled s
       /\ hardware_kept s s' /\ dst_time s' = dst_time s
       /\ ((dst_data_flag s <> DST_VALID_END_TIME_FLAG
            /\ dst_data_flag s' = dst_data_flag s
            /\ current_time s' = current_time s /\ driver_untouched s s')
           \/ (commit_made s s' /\ dst_data_flag s' = DST_ENABLED_FLAG
               /\ next_rtc_reply s = CY_RSLT_SUCCESS)))
    (fun s' =>
       century_data s' = century_data s /\ irq_enabled s' = false
       /\ hardware_kept s s' /\ dst_time s' = dst_time s
       /\ commit_made s s' /\ next_rtc_reply s <> CY_RSLT_SUCCESS).
Proof.
  unfold dst_commit_step. repeat flow_step.
  - apply Z.eqb_eq in B, B0.
    split; [reflexivity|]. split; [reflexivity|].
    split; [unfold hardware_kept; frame|]. split; [reflexivity|].
    right. split; [|split; [reflexivity | symmetry; exact B0]].
    unfold commit_made. split; [symmetry; exact B|]. frame.
  - apply Z.eqb_eq in B. apply Z.eqb_neq in B0.
    split; [reflexivity|]. split; [reflexivity|].
    split; [unfold hardware_kept; frame|]. split; [reflexivity|].
    split; [|intros E; apply B0; symmetry; exact E].
    unfold commit_made. split; [symmetry; exact B|]. frame.
  - apply Z.eqb_neq in B.
    split; [reflexivity|]. split; [reflexivity|].
    split; [apply hardware_kept_refl|]. split; [reflexivity|].
    left. split; [intros E; apply B; symmetry; exact E|].
    unfold driver_untouched. frame.
Qed.

(** What a flow guarantees from a state further into the dialogue, it
    guarantees from the state the dialogue began in. *)
Lemma dst_flow_rebase s s0 s' :
  dialogue_from s s0 ->
  irq_enabled s' = irq_enabled s0 /\ dst_flow_frame s0 s' /\ dst_flow_returned s0 s' ->
  irq_enabled s' = irq_enabled s /\ dst_flow_frame s s' /\ dst_flow_returned s s'.
Proof.
  intros (? & ? & ? & ? & [? ?] & Hct & Hk0) (? & (? & Hct' & Hk) & Hr).
  pose proof (hardware_kept_trans _ _ _ Hk0 Hk). hardware_facts.
  unfold_relations.
  cases; relate.
Qed.

Lemma dst_flow_rebase_parked s s0 s' :
  dialogue_from s s0 ->
  dst_flow_frame s0 s' /\ dst_flow_parked s0 s' ->
  dst_flow_frame s s' /\ dst_flow_parked s s'.
Proof.
  intros (? & ? & ? & ? & [? ?] & Hct & Hk0) ((? & Hct' & Hk) & (? & ? & ?) & ? & ?).
  pose proof (hardware_kept_trans _ _ _ Hk0 Hk). hardware_facts.
  unfold_relations. cases; relate.
Qed.

Lemma dst_flow_nothing s :
  irq_enabled s = irq_enabled s /\ dst_flow_frame s s /\ dst_flow_returned s s.
Proof.
  split; [reflexivity|].
  unfold dst_flow_frame, dst_flow_returned, driver_untouched.
  split; [split; [reflexivity | split; [left; reflexivity | apply hardware_kept_refl]]|].
  left. repeat split; reflexivity.
Qed.

(** The disable branch. *)
Lemma dst_disable_outcomes s :
  outcome_sat (dst_disable s)
    (fun _ s' =>
       irq_enabled s' = irq_enabled s /\ dst_flow_frame s s'
       /\ dst_flow_returned s s')
    (fun s' => dst_flow_frame s s' /\ dst_flow_parked s s').
Proof.
  unfold dst_disable. repeat flow_step.
  - apply Z.eqb_eq in B.
    split; [reflexivity|].
    split; [unfold dst_flow_frame, hardware_kept; frame; right; reflexivity|].
    right; right. split; [|split; [symmetry; exact B | right; split; reflexivity]].
    unfold schedule_committed, schedule_source. frame. left. reflexivity.
  - apply Z.eqb_neq in B.
    split; [unfold dst_flow_frame, hardware_kept; frame; right; reflexivity|].
    split; [|split; [intros E; apply B; symmetry; exact E | reflexivity]].
    unfold schedule_committed, schedule_source. frame. left. reflexivity.
Qed.

Lemma sat_show_menu s (Q : unit -> state -> Prop) (E : state -> Prop) :
  Q tt (dst_menu_shown s) -> outcome_sat (dst_show_menu s) Q E.
Proof. rewrite dst_show_menu_run. exact (fun H => H). Qed.

Section DstFlowOnEveryInput.
Variable Cy_RTC_ConvertDayOfWeek : Z -> Z -> Z -> Z.
Variable sscanf : nat -> list Z -> list Z.

(** A rule point built from validated fields is in range, whatever the
    day-of-week routine returns. *)
Lemma dst_rule_point_in_range fmt hour mday month year point :
  validate_date_time 0 0 hour mday month year = Some true ->
  uint32 hour ->
  dst_rule_point Cy_RTC_ConvertDayOfWeek fmt hour mday month year = Some point ->
  rule_in_range point.
Proof.
  intros V Hu Hp. pose proof V as V'. apply validate_date_time_spec in V.
  destruct V as (_ & _ & Hh & Hm & _ & Hd).
  pose proof (month_length_range month year Hm) as Hl.
  unfold uint32 in Hu. unfold dst_rule_point in Hp.
  destruct (fmt =? FIXED_DST_FORMAT).
  - injection Hp as <-. unfold rule_in_range.
    cbv beta iota delta [dst_hour dst_dayOfMonth dst_weekOfMonth dst_month]. lia.
  - destruct (get_week_of_month_any_weekday Cy_RTC_ConvertDayOfWeek mday month year)
      as [Hrun Hrange]; [lia|].
    cbv zeta in Hrun, Hrange. rewrite Hrun in Hp. injection Hp as <-. unfold rule_in_range.
    cbv beta iota delta [dst_hour dst_dayOfMonth dst_weekOfMonth dst_month].
    split; [lia|]. split; [lia|]. split; [exact Hrange | lia].
Qed.

(** The start prompt: the variables stay 32-bit values, nothing but
    [dst_time] and the flag is written, and those only when a start rule in
    range is captured. *)
Lemma dst_start_step_outcomes timeout_ms fmt vars s :
  uint32_vars4 vars ->
  outcome_sat (dst_start_step Cy_RTC_ConvertDayOfWeek sscanf timeout_ms fmt vars s)
    (fun vars' s' =>
       uint32_vars4 vars' /\ prompt_frame s s'
       /\ ((dst_time s' = dst_time s /\ dst_data_flag s' = dst_data_flag s)
           \/ (dst_data_flag s' = DST_VALID_START_TIME_FLAG
               /\ rule_in_range (startDst (dst_time s'))
               /\ stopDst (dst_time s') = stopDst (dst_time s))))
    (fun _ => False).
Proof.
  intros Hu. unfold dst_start_step. repeat flow_step.
  all: try pose proof (sscanf4_uint32 _ _ _ _ Ha Hu) as Hu'.
  all: (split; [assumption|]).
  all: (split; [unfold prompt_frame, driver_untouched, hardware_kept; frame|]).
  all: try (left; frame; fail).
  right. apply andb_true_iff in B0. destruct B0 as [-> _].
  split; [reflexivity|]. split; [|reflexivity].
  eapply dst_rule_point_in_range; [exact Ha0 | apply Hu' | exact Ha1].
Qed.

(** The end prompt: it runs only with the flag at
    DST_VALID_START_TIME_FLAG, and writes only the end rule and the flag. *)
Lemma dst_end_step_outcomes timeout_ms fmt vars s :
  uint32_vars4 vars ->
  outcome_sat (dst_end_step Cy_RTC_ConvertDayOfWeek sscanf timeout_ms fmt vars s)
    (fun _ s' =>
       prompt_frame s s'
       /\ ((dst_time s' = dst_time s /\ dst_data_flag s' = dst_data_flag s)
           \/ (dst_data_flag s = DST_VALID_START_TIME_FLAG
               /\ dst_data_flag s' = DST_VALID_END_TIME_FLAG
               /\ rule_in_range (stopDst (dst_time s'))
               /\ startDst (dst_time s') = startDst (dst_time s))))
    (fun _ => False).
Proof.
  intros Hu. unfold dst_end_step. repeat flow_step.
  all: try pose proof (sscanf4_uint32 _ _ _ _ Ha Hu) as Hu'.
  all: (split; [unfold prompt_frame, driver_untouched, hardware_kept; frame|]).
  all: try (left; frame; fail).
  right. apply andb_true_iff in B1. destruct B1 as [-> _].
  apply Z.eqb_eq in B. split; [symmetry; exact B|].
  split; [reflexivity|]. split; [|reflexivity].
  eapply dst_rule_point_in_range; [exact Ha0 | apply Hu' | exact Ha1].
Qed.

(** The three steps of the enable branch, from the state [s] in which the
    start time is asked for. *)
Lemma dst_enable_steps_outcomes timeout_ms fmt s :
  outcome_sat
    (bind (dst_start_step Cy_RTC_ConvertDayOfWeek sscanf timeout_ms fmt (0, 0, 0, 0))
       (fun vars =>
          bind (dst_end_step Cy_RTC_ConvertDayOfWeek sscanf timeout_ms fmt vars)
            (fun _ => dst_commit_step)) s)
    (fun _ s' =>
       irq_enabled s' = irq_enabled s /\ dst_flow_frame s s'
       /\ dst_flow_returned s s')
    (fun s' => dst_flow_frame s s' /\ dst_flow_parked s s').
Proof.
  eapply sat_bind_with;
    [apply dst_start_step_outcomes; repeat split; discriminate
    | intros vars1 s1 (Hu1 & F1 & C1) | intros ? []].
  eapply sat_bind_with;
    [apply dst_end_step_outcomes; exact Hu1
    | intros [] s2 (F2 & C2) | intros ? []].
  eapply sat_weaken;
    [apply dst_commit_step_outcomes
    | intros [] s3 (Hc & Hi & Hh & Hd & C3)
    | intros s3 (Hc & Hi & Hh & Hd & Hm & Hr)].
  - assert (hardware_kept s s3) as Hk.
    { apply (hardware_kept_trans s s2); [|exact Hh].
      apply (hardware_kept_trans s s1); [apply F1 | apply F2]. }
    destruct F1 as (? & ? & ? & [? ?] & Hk1), F2 as (? & ? & ? & [? ?] & Hk2).
    hardware_facts. unfold_relations.
    destruct C1 as [[? ?] | (? & ? & ?)], C2 as [[? ?] | (? & ? & ? & ?)],
      C3 as [(? & ? & ? & ? & ?) | ((? & ? & ? & ?) & ? & ?)];
      relate.
  - assert (hardware_kept s s3) as Hk.
    { apply (hardware_kept_trans s s2); [|exact Hh].
      apply (hardware_kept_trans s s1); [apply F1 | apply F2]. }
    destruct F1 as (? & ? & ? & [? ?] & Hk1), F2 as (? & ? & ? & [? ?] & Hk2).
    hardware_facts. unfold_relations. destruct Hm as (? & ? & ? & ?).
    destruct C1 as [[? ?] | (? & ? & ?)], C2 as [[? ?] | (? & ? & ? & ?)];
      relate.
Qed.

(** The enable branch. *)
Lemma dst_enable_outcomes timeout_ms s :
  outcome_sat (dst_enable Cy_RTC_ConvertDayOfWeek sscanf timeout_ms s)
    (fun _ s' =>
       irq_enabled s' = irq_enabled s /\ dst_flow_frame s s'
       /\ dst_flow_returned s s')
    (fun s' => dst_flow_frame s s' /\ dst_flow_parked s s').
Proof.
  unfold dst_enable. do 9 flow_step.
  - eapply sat_weaken; [apply dst_enable_steps_outcomes | |].
    + intros [] s' H. eapply dst_flow_rebase; [|exact H]; dialogue.
    + intros s' H. eapply dst_flow_rebase_parked; [|exact H]; dialogue.
  - flow_step. eapply dst_flow_rebase; [|apply dst_flow_nothing]; dialogue.
Qed.

(** Every run of [set_dst_feature]. *)
Lemma set_dst_feature_outcomes timeout_ms s :
  outcome_sat (set_dst_feature Cy_RTC_ConvertDayOfWeek sscanf timeout_ms s)
    (fun _ s' =>
       irq_enabled s' = irq_enabled s /\ dst_flow_frame s s'
       /\ dst_flow_returned s s')
    (fun s' => dst_flow_frame s s' /\ dst_flow_parked s s').
Proof.
  unfold set_dst_feature. flow_step. apply sat_show_menu. repeat flow_step.
  - eapply sat_weaken; [apply dst_enable_outcomes | |].
    + intros [] s' H. eapply dst_flow_rebase; [|exact H]; dialogue.
    + intros s' H. eapply dst_flow_rebase_parked; [|exact H]; dialogue.
  - eapply sat_weaken; [apply dst_disable_outcomes | |].
    + intros [] s' H. eapply dst_flow_rebase; [|exact H]; dialogue.
    + intros s' H. eapply dst_flow_rebase_parked; [|exact H]; dialogue.
  - eapply dst_flow_rebase; [|apply dst_flow_nothing]; dialogue.
  - eapply dst_flow_rebase; [|apply dst_flow_nothing]; dialogue.
  - eapply dst_flow_rebase; [|apply dst_flow_nothing]; dialogue.
Qed.
End DstFlowOnEveryInput.

(** *** The main loop *)

Lemma rule_in_range_null : rule_in_range canonical_null_rule.
Proof. unfold rule_in_range. cbn. lia. Qed.

Lemma loop_invariant_dialogue s s0 :
  loop_invariant s -> dialogue_from s s0 -> loop_invariant s0.
Proof.
  intros (Hflag & Hirq & Hcent & Hstart & Hlog)
    (Ec & Ed & Ef & Ei & [El Er] & _ & _).
  unfold loop_invariant. rewrite Ec, Ed, Ef, Ei, El. tauto.
Qed.

(** A validated time with its year cut to two digits is a commit in
    range. *)
Lemma time_commit_in_range hour min sec mday month year :
  validate_date_time sec min hour mday month year = Some true ->
  uint32_vars6 (hour, min, sec, mday, month, year) ->
  commit_in_range (SetDateAndTimeDirect sec min hour mday month (year mod 100)).
Proof.
  intros V (Hh & Hmi & Hs & _). apply validate_date_time_spec in V.
  destruct V as (? & ? & ? & Hm & ? & ?).
  pose proof (month_length_range month year Hm).
  pose proof (Z.mod_pos_bound year 100 eq_refl).
  unfold uint32 in *. cbn [commit_in_range]. lia.
Qed.

Lemma loop_invariant_set_new_time uninit s s' :
  uint32_vars6 uninit ->
  loop_invariant s ->
  time_flow_frame s s'
  /\ ((driver_untouched s s' /\ century_data s' = century_data s)
      \/ time_committed uninit s s') ->
  loop_invariant s'.
Proof.
  intros Hu (Hflag & Hirq & Hcent & Hstart & Hlog) ((Ed & Ef & _ & Ei & _) & Hc).
  unfold loop_invariant. rewrite Ed, Ef, Ei.
  split; [exact Hflag|]. split; [exact Hirq|].
  destruct Hc as [[[El _] Ec] | (hour & min & sec & mday & month & year
                                 & V & U & El & _ & Ec)].
  - rewrite Ec, El. tauto.
  - rewrite Ec, El. split; [apply Z_mod_mult|]. split; [exact Hstart|].
    apply Forall_app. split; [exact Hlog|]. constructor; [|constructor].
    apply time_commit_in_range; [exact V | exact (U Hu)].
Qed.

(** A schedule committed from a state of the loop has both rules in
    range. *)
Lemma schedule_committed_in_range s s' :
  loop_invariant s ->
  schedule_committed s s' ->
  Forall commit_in_range (rtc_log s').
Proof.
  intros (Hflag & _ & _ & Hstart & Hlog) (El & _ & Hsrc). rewrite El.
  apply Forall_app. split; [exact Hlog|]. constructor; [|constructor].
  cbn [commit_in_range].
  destruct Hsrc as [-> | [(Hstop & Hs) | (Hf & _)]].
  - split; apply rule_in_range_null.
  - split; [|exact Hstop].
    destruct Hs as [Hs | (Hf & ->)]; [exact Hs | exact (Hstart Hf)].
  - exfalso. revert Hflag. rewrite Hf. unfold flag_at_rest.
    intros [H | [H | H]]; discriminate H.
Qed.

Lemma loop_invariant_set_dst_feature s s' :
  loop_invariant s ->
  irq_enabled s' = irq_enabled s /\ dst_flow_frame s s' /\ dst_flow_returned s s' ->
  loop_invariant s'.
Proof.
  intros Hinv (Ei & (Ec & _ & _) & Hr).
  pose proof Hinv as (Hflag & Hirq & Hcent & Hstart & Hlog).
  unfold loop_invariant. rewrite Ei, Ec.
  destruct Hr as [(Ed & Ef & El & _) | [(Ef & Hs & _ & El & _) | (Hcom & _ & Hf)]].
  - rewrite Ed, Ef, El. tauto.
  - rewrite Ef, El. unfold flag_at_rest. tauto.
  - pose proof (schedule_committed_in_range s s' Hinv Hcom) as Hlog'.
    unfold flag_at_rest.
    destruct Hf as [Ef | [Ef _]]; rewrite Ef;
      (split; [tauto|]); (split; [exact Hirq|]); (split; [exact Hcent|]);
      (split; [intros H; discriminate H | exact Hlog']).
Qed.

Section MainLoopOnEveryInput.
Variable Cy_RTC_ConvertDayOfWeek : Z -> Z -> Z -> Z.
Variable sscanf : nat -> list Z -> list Z.
Variable Cy_RTC_IsLeapYear : Z -> bool.

(** One pass of the loop that returns keeps the invariant; if it parks the
    program, interrupts are off and the commits made so far were all in
    range. *)
Lemma main_loop_body_keeps_invariant uninit cmd s :
  uint32_vars6 uninit ->
  loop_invariant s ->
  outcome_sat
    (main_loop_body Cy_RTC_ConvertDayOfWeek sscanf Cy_RTC_IsLeapYear uninit cmd s)
    (fun _ s' => loop_invariant s')
    (fun s' =>
       irq_enabled s' = false /\ century_data s' mod 100 = 0
       /\ Forall commit_in_range (rtc_log s')).
Proof.
  intros Hu Hinv. unfold main_loop_body. repeat flow_step.
  - eapply sat_weaken; [apply set_new_time_outcomes | | intros ? []].
    intros [] s' H. cbv beta. apply sat_ret.
    eapply loop_invariant_set_new_time; [exact Hu | | exact H].
    eapply loop_invariant_dialogue; [exact Hinv | dialogue].
  - assert (loop_invariant
              (say [Print MsgCmdConfigDst]
                 (set_uart_rx rx
                    (say [ShowClock
                            (current_time
                               (set_irq_enabled (irq_enabled s)
                                  (set_current_time (rtc_clock (set_irq_enabled false s))
                                     (set_irq_enabled false s))))
                            (century_data
                               (set_irq_enabled (irq_enabled s)
                                  (set_current_time (rtc_clock (set_irq_enabled false s))
                                     (set_irq_enabled false s))))]
                       (set_irq_enabled (irq_enabled s)
                          (set_current_time (rtc_clock (set_irq_enabled false s))
                             (set_irq_enabled false s))))))) as Hinv0.
    { eapply loop_invariant_dialogue; [exact Hinv | dialogue]. }
    eapply sat_weaken; [apply set_dst_feature_outcomes | |].
    + intros [] s' H. cbv beta. apply sat_ret.
      eapply loop_invariant_set_dst_feature; [exact Hinv0 | exact H].
    + intros s' ((Ec & _) & Hcom & _ & Ei).
      split; [exact Ei|]. split.
      * rewrite Ec. apply Hinv0.
      * eapply schedule_committed_in_range; [exact Hinv0 | exact Hcom].
  - eapply loop_invariant_dialogue; [exact Hinv | dialogue].
  - eapply loop_invariant_dialogue; [exact Hinv | dialogue].
Qed.

Lemma main_loop_keeps_invariant passes uninit : forall cmd s,
  uint32_vars6 uninit ->
  loop_invariant s ->
  outcome_sat
    (main_loop Cy_RTC_ConvertDayOfWeek sscanf Cy_RTC_IsLeapYear passes uninit cmd s)
    (fun _ s' => loop_invariant s')
    (fun s' =>
       irq_enabled s' = false /\ century_data s' mod 100 = 0
       /\ Forall commit_in_range (rtc_log s')).
Proof.
  induction passes as [|passes IH]; intros cmd s Hu Hinv.
  - exact Hinv.
  - cbn [main_loop]. eapply sat_bind_with.
    + apply main_loop_body_keeps_invariant; [exact Hu | exact Hinv].
    + intros cmd' s' Hinv'. apply IH; [exact Hu | exact Hinv'].
    + intros s' H. exact H.
Qed.
End MainLoopOnEveryInput.

(** ** Further properties of the flows *)

Lemma get_character_loop_keeps_value fuel : forall timeout ticks rv value rx value' rx',
  get_character_loop fuel timeout ticks rv value rx
  = Some (CY_SCB_UART_BAD_PARAM, value', rx') ->
  value' = value.
Proof.
  induction fuel as [|fuel IH]; intros timeout ticks rv value rx value' rx' H;
    [discriminate|].
  cbn [get_character_loop] in H.
  destruct (rv =? CY_SCB_UART_RX_NO_DATA); [|discriminate].
  destruct (negb (timeout =? 0)).
  - destruct (0 <? ticks).
    + destruct (Cy_SCB_UART_Get rx) as [rv1 rx1]. eapply IH; exact H.
    + injection H as <- _. reflexivity.
  - destruct (Cy_SCB_UART_Get rx) as [rv1 rx1]. eapply IH; exact H.
Qed.

Lemma get_character_rx_keeps_value timeout value rx value' rx' :
  get_character_rx timeout value rx = Some (CY_SCB_UART_BAD_PARAM, value', rx') ->
  value' = value.
Proof.
  unfold get_character_rx. destruct (Cy_SCB_UART_Get rx) as [rv rx1].
  apply get_character_loop_keeps_value.
Qed.

Lemma to_int_wrap32 x : - 2 ^ 31 <= x < 2 ^ 31 -> to_int (wrap32 x) = x.
Proof.
  intros H. change (2 ^ 31) with 2147483648 in H. unfold to_int, wrap32.
  change (2 ^ 32) with 4294967296. change (2 ^ 31) with 2147483648.
  destruct (Z_lt_le_dec x 0) as [N|P].
  - replace (x mod 4294967296) with (x + 4294967296)
      by (apply Z.mod_unique with (q := -1); lia).
    replace (x + 4294967296 <? 2147483648) with false
      by (symmetry; apply Z.ltb_ge; lia).
    lia.
  - rewrite Z.mod_small by lia.
    replace (x <? 2147483648) with true by (symmetry; apply Z.ltb_lt; lia).
    reflexivity.
Qed.

Section SetNewTimeProperties.
Variable sscanf : nat -> list Z -> list Z.
Variable Cy_RTC_IsLeapYear : Z -> bool.

(** X11. set_new_time never ends in handle_error, whatever is typed and
    whatever the driver answers; when it returns, dst_time, dst_data_flag,
    current_time and the interrupt mask are as they were, the console has only
    grown, and at most one call was made to the driver. *)
Theorem set_new_time_never_parks_and_keeps_dst_state timeout_ms uninit s :
  outcome_sat (set_new_time sscanf timeout_ms uninit s)
    (fun _ s' =>
       dst_time s' = dst_time s /\ dst_data_flag s' = dst_data_flag s
       /\ current_time s' = current_time s /\ irq_enabled s' = irq_enabled s
       /\ (exists out, console s' = console s ++ out)
       /\ (rtc_log s' = rtc_log s \/ exists c, rtc_log s' = rtc_log s ++ [c]))
    (fun _ => False).
Proof.
  eapply sat_weaken; [apply set_new_time_outcomes | | intros s' H; exact H].
  intros [] s' ((Ed & Ef & Et & Ei & _ & _ & Hc) & Hr).
  split; [exact Ed|]. split; [exact Ef|]. split; [exact Et|].
  split; [exact Ei|]. split; [exact Hc|].
  destruct Hr as [[[El _] _] | (hour & min & sec & mday & month & year
                                & _ & _ & El & _)].
  - left. exact El.
  - right. eexists. exact El.
Qed.

(** X12. When the six locals of set_new_time hold 32-bit values, a run that
    returns either made no driver call and left century_data alone, or made
    exactly one Cy_RTC_SetDateAndTimeDirect call whose fields are in range
    (sec and min 0..60, hour 0..23, month 1..12, day within that month of the
    typed year), with the year passed as year mod 100, in 0..99, and
    century_data set to year - year mod 100. *)
Theorem set_new_time_commits_only_validated_times timeout_ms uninit s :
  uint32_vars6 uninit ->
  outcome_sat (set_new_time sscanf timeout_ms uninit s)
    (fun _ s' =>
       (rtc_log s' = rtc_log s /\ rtc_replies s' = rtc_replies s
        /\ century_data s' = century_data s)
       \/ exists hour min sec mday month year,
            rtc_log s'
            = rtc_log s ++ [SetDateAndTimeDirect sec min hour mday month (year mod 100)]
            /\ rtc_replies s' = tl (rtc_replies s)
            /\ 0 <= sec <= 60 /\ 0 <= min <= 60 /\ 0 <= hour <= 23
            /\ 1 <= month <= 12 /\ 1 <= mday <= month_length month year
            /\ 0 < year < 2 ^ 32 /\ 0 <= year mod 100 <= 99
            /\ century_data s' = year - year mod 100)
    (fun _ => False).
Proof.
  intros Hu.
  eapply sat_weaken; [apply set_new_time_outcomes | | intros s' H; exact H].
  intros [] s' (_ & Hr).
  destruct Hr as [[[El Er] Ec] | (hour & min & sec & mday & month & year
                                  & V & U & El & Er & Ec)].
  - left. split; [exact El|]. split; [exact Er | exact Ec].
  - right. exists hour, min, sec, mday, month, year.
    destruct (U Hu) as (Hh & Hmi & Hs & _ & _ & Hy).
    apply validate_date_time_spec in V.
    destruct V as (? & ? & ? & ? & ? & ?).
    pose proof (Z.mod_pos_bound year 100 eq_refl).
    pose proof (Z.div_mod year 100).
    unfold uint32 in Hh, Hmi, Hs, Hy.
    split; [exact El|]. split; [exact Er|]. rewrite Ec. lia.
Qed.

(** X13. A line of 80 characters (no NUL, no line end) with five spaces among
    them fills the buffer of set_new_time completely: fetch_time_data reports
    success with the space count at five, the buffer holds no terminator, and
    set_new_time hands sscanf an unterminated string, a read past the end of
    the buffer. *)
Theorem full_buffer_line_is_scanned_past_its_end timeout_ms uninit s line rest :
  uart_rx s = line ++ rest ->
  Forall (fun c => 0 < c < 256 /\ c <> 10 /\ c <> 13) line ->
  length line = 80%nat ->
  Z.of_nat (count_occ Z.eq_dec line 32) = MIN_SPACE_KEY_COUNT_NEW_TIME ->
  800 < timeout_ms ->
  fetch_time_data_rx zero_buffer timeout_ms (uart_rx s)
  = Some (mkFetched CY_SCB_UART_SUCCESS line MIN_SPACE_KEY_COUNT_NEW_TIME line rest)
  /\ c_string line = None
  /\ set_new_time sscanf timeout_ms uninit s = Stuck OutOfBounds.
Proof.
  intros Hrx Hall Hlen Hsp Hbudget.
  assert (Forall stored_char line) as Hstored.
  { eapply Forall_impl; [|exact Hall]. unfold stored_char. intros c. cbv beta. lia. }
  assert (Forall (fun c => c <> 0) line) as Hnul.
  { eapply Forall_impl; [|exact Hall]. intros c. cbv beta. lia. }
  assert (fetch_time_data_rx zero_buffer timeout_ms (uart_rx s)
          = Some (mkFetched CY_SCB_UART_SUCCESS line MIN_SPACE_KEY_COUNT_NEW_TIME
                    line rest)) as Hf.
  { rewrite Hrx, <- Hsp. apply fetch_time_data_rx_full; [exact Hstored | exact Hlen|].
    exact Hbudget. }
  pose proof (c_string_unterminated line Hnul) as Hc.
  split; [exact Hf|]. split; [exact Hc|].
  unfold set_new_time. rewrite (prompt_and_fetch_run _ _ _ _ _ Hf).
  cbn [f_rslt f_buffer f_space_count uart_ok].
  change (negb (MIN_SPACE_KEY_COUNT_NEW_TIME =? MIN_SPACE_KEY_COUNT_NEW_TIME))
    with false. cbv iota.
  unfold sscanf6, scan. rewrite Hc. reflexivity.
Qed.

(** X14. set_new_time goes wrong in no other way: a run that neither returns
    nor parks is the read of sscanf past the buffer, after a line that came in
    with success, five spaces and exactly 80 characters, which leave the
    buffer without a terminator. The flow never waits forever and the
    validator never reads outside its table. *)
Theorem set_new_time_goes_wrong_only_on_full_buffer timeout_ms uninit s fl :
  set_new_time sscanf timeout_ms uninit s = Stuck fl ->
  fl = OutOfBounds
  /\ exists f,
       fetch_time_data_rx zero_buffer timeout_ms (uart_rx s) = Some f
       /\ f_rslt f = CY_SCB_UART_SUCCESS
       /\ f_space_count f = MIN_SPACE_KEY_COUNT_NEW_TIME
       /\ length (f_echo f) = 80%nat
       /\ f_buffer f = f_echo f
       /\ c_string (f_buffer f) = None.
Proof.
  destruct (fetch_time_data_rx_terminates zero_buffer timeout_ms (uart_rx s))
    as [f Hf].
  destruct (fetch_loop_invariant _ _ _ _ _ _ _ _ _ _ fetch_invariant_start Hf)
    as (_ & Hlen & Hbuf & _ & _).
  unfold set_new_time. rewrite (prompt_and_fetch_run _ _ _ _ _ Hf).
  destruct (f_rslt f) eqn:Hr; cbn [uart_ok]; [|discriminate].
  destruct (f_space_count f =? MIN_SPACE_KEY_COUNT_NEW_TIME) eqn:Hsp;
    cbn [negb]; [|discriminate].
  apply Z.eqb_eq in Hsp.
  unfold sscanf6, scan.
  destruct (c_string (f_buffer f)) as [str|] eqn:Hc.
  - cbn [lift]. step.
    match goal with
    | |- context [store6 ?new uninit] =>
        destruct (store6 new uninit) as [[[[[hour min] sec] mday] month] year]
    end.
    pose proof (validate_date_time_run_eq sec min hour mday month year) as Hv.
    unfold validate_date_time. rewrite Hv.
    destruct (IS_SEC_VALID sec && IS_MIN_VALID min && IS_HOUR_VALID hour
              && IS_MONTH_VALID month && IS_YEAR_VALID year);
      cbn [result lift].
    + step. destruct ((0 <? mday) && (mday <=? month_length month year)).
      * do 2 step. match goal with
                   | |- context [if ?c then _ else _] => destruct c; discriminate
                   end.
      * discriminate.
    + step. discriminate.
  - cbn [lift]. intros E. injection E as <-. split; [reflexivity|].
    exists f. split; [exact Hf|]. split; [exact Hr|]. split; [exact Hsp|].
    change (Z.to_nat STRING_BUFFER_SIZE) with 80%nat in Hlen.
    assert (length (f_echo f) = 80%nat) as Hfull.
    { destruct (Nat.eq_dec (length (f_echo f)) 80) as [E|N]; [exact E|].
      exfalso. destruct (buffer_holding_terminated (f_echo f)) as [tail Ht].
      - change (Z.to_nat STRING_BUFFER_SIZE) with 80%nat. lia.
      - rewrite Hbuf, Ht in Hc. exact (c_string_some_terminator _ _ Hc). }
    split; [exact Hfull|]. split; [|exact Hc].
    rewrite Hbuf. apply buffer_holding_full. exact Hfull.
Qed.

(** X15. The year survives the split into century and two digits: after
    set_new_time accepted a line with a year below 2^31, century_data plus the
    two-digit year it handed to the driver is the year typed, so that for a
    clock reading with that two-digit year (and a month in 1..12)
    construct_time_format gives tm_year + 1900 equal to the year typed. *)
Theorem displayed_year_is_the_year_typed timeout_ms uninit s f
    hour min sec mday month year now :
  fetch_time_data_rx zero_buffer timeout_ms (uart_rx s) = Some f ->
  f_rslt f = CY_SCB_UART_SUCCESS ->
  f_space_count f = MIN_SPACE_KEY_COUNT_NEW_TIME ->
  sscanf6 sscanf (f_buffer f) uninit = Some (hour, min, sec, mday, month, year) ->
  validate_date_time sec min hour mday month year = Some true ->
  year < 2 ^ 31 ->
  t_year now = year mod 100 ->
  1 <= t_month now <= 12 ->
  exists s' time,
    set_new_time sscanf timeout_ms uninit s = Ret tt s'
    /\ century_data s' + t_year now = year
    /\ result (construct_time_format_run Cy_RTC_IsLeapYear now (century_data s'))
       = Some time
    /\ tm_year time + TM_YEAR_BASE = year.
Proof.
  intros Hf Hr Hsp Hscan Hval Hy Hnow Hmonth.
  pose proof (set_new_time_accepted sscanf timeout_ms uninit s f hour min sec mday
                month year Hf Hr Hsp Hscan Hval) as Hrun.
  apply validate_date_time_spec in Hval.
  destruct Hval as (_ & _ & _ & _ & Hpos & _).
  eexists.
  assert (year / 100 * 100 + t_year now = year) as Hsum
    by (rewrite Hnow; pose proof (Z.div_mod year 100); lia).
  assert (forall s0,
            century_data
              ((if CY_RTC_SUCCESS =? next_rtc_reply s
                then say [Print MsgRtcTimeUpdated] else fun s1 => s1)
                 (set_century_data (year / 100 * 100) s0))
            = year / 100 * 100) as Hcent
    by (intros s0; destruct (CY_RTC_SUCCESS =? next_rtc_reply s); reflexivity).
  destruct now as [nsec nmin nhour ndate nmonth nyear ndow].
  cbn [t_year t_month] in *.
  eexists. split; [exact Hrun|]. rewrite Hcent.
  split; [exact Hsum|].
  unfold construct_time_format_run. cbn [t_sec t_min t_hour t_date t_month t_year t_dayOfWeek].
  change (2 ^ 31) with 2147483648 in Hy.
  rewrite (wrap32_small (nmonth - 1)), (to_int_small (nmonth - 1))
    by (change (2 ^ 32) with 4294967296; change (2 ^ 31) with 2147483648; lia).
  rewrite (table_read_cumulative nmonth Hmonth).
  unfold tbind, tret. cbn [result reads].
  split; [reflexivity|]. cbn [tm_year].
  replace (nyear + year / 100 * 100) with year by lia.
  rewrite (wrap32_small year) by (change (2 ^ 32) with 4294967296; lia).
  rewrite to_int_wrap32
    by (unfold TM_YEAR_BASE; change (2 ^ 31) with 2147483648; lia).
  lia.
Qed.

End SetNewTimeProperties.

Section DstAndLoopProperties.
Variable Cy_RTC_ConvertDayOfWeek : Z -> Z -> Z -> Z.
Variable sscanf : nat -> list Z -> list Z.

(** X16. set_dst_feature ends in handle_error only when the driver rejected
    the Cy_RTC_EnableDstTime call the run had just made, and then with
    interrupts off; when it returns, the interrupt mask is as before and
    either no call was made or the driver accepted the call. *)
Theorem set_dst_feature_parks_only_on_rejected_commit timeout_ms s :
  outcome_sat (set_dst_feature Cy_RTC_ConvertDayOfWeek sscanf timeout_ms s)
    (fun _ s' =>
       irq_enabled s' = irq_enabled s
       /\ (rtc_log s' = rtc_log s \/ next_rtc_reply s = CY_RSLT_SUCCESS))
    (fun s' =>
       irq_enabled s' = false
       /\ next_rtc_reply s <> CY_RSLT_SUCCESS
       /\ rtc_log s' = rtc_log s ++ [EnableDstTime (dst_time s') (rtc_clock s)]
       /\ rtc_replies s' = tl (rtc_replies s)).
Proof.
  eapply sat_weaken; [apply set_dst_feature_outcomes | |].
  - intros [] s' (Ei & _ & Hr). split; [exact Ei|].
    destruct Hr as [(_ & _ & El & _) | [(_ & _ & _ & El & _) | (_ & Hok & _)]];
      [left; exact El | left; exact El | right; exact Hok].
  - intros s' (_ & (El & Er & _) & Hrej & Ei). tauto.
Qed.

(** X17. set_dst_feature never writes century_data and calls the driver at
    most once, always with the schedule it leaves in dst_time and a fresh
    reading of the clock. Without a call, either flag and schedule are
    unchanged or the flag is DST_VALID_START_TIME_FLAG with the end rule
    unchanged; after an accepted call the flag is DST_ENABLED_FLAG, or
    DST_DISABLED_FLAG with the null schedule. *)
Theorem set_dst_feature_commits_the_schedule_it_leaves timeout_ms s :
  outcome_sat (set_dst_feature Cy_RTC_ConvertDayOfWeek sscanf timeout_ms s)
    (fun _ s' =>
       century_data s' = century_data s
       /\ ((rtc_log s' = rtc_log s /\ rtc_replies s' = rtc_replies s
            /\ ((dst_data_flag s' = dst_data_flag s /\ dst_time s' = dst_time s)
                \/ (dst_data_flag s' = DST_VALID_START_TIME_FLAG
                    /\ stopDst (dst_time s') = stopDst (dst_time s))))
           \/ (rtc_log s' = rtc_log s ++ [EnableDstTime (dst_time s') (rtc_clock s)]
               /\ rtc_replies s' = tl (rtc_replies s)
               /\ (dst_data_flag s' = DST_ENABLED_FLAG
                   \/ (dst_data_flag s' = DST_DISABLED_FLAG
                       /\ dst_time s' = null_schedule)))))
    (fun s' =>
       century_data s' = century_data s
       /\ rtc_log s' = rtc_log s ++ [EnableDstTime (dst_time s') (rtc_clock s)]
       /\ rtc_replies s' = tl (rtc_replies s)).
Proof.
  eapply sat_weaken; [apply set_dst_feature_outcomes | |].
  - intros [] s' (_ & (Ec & _) & Hr). split; [exact Ec|].
    destruct Hr as [(Ed & Ef & El & Er) | [(Ef & _ & Es & El & Er)
                                           | ((El & Er & _) & _ & Hf)]].
    + left. tauto.
    + left. tauto.
    + right. tauto.
  - intros s' ((Ec & _) & (El & Er & _) & _). tauto.
Qed.

(** X19. The end prompt reuses the start line's values for the fields sscanf
    does not convert: when, from an end line with three spaces, sscanf
    converts nothing or only an hour of at most 23, the end rule is built from
    that hour (or the start hour) and the start line's day, month and year; it
    equals the start rule when nothing was converted; and this schedule is
    committed and DST enabled when the driver accepts it. *)
Theorem end_line_partial_scan_keeps_start_fields timeout_ms s fmt rx1 rx2 f1 f2
    h1 d1 m1 y1 new :
  get_character_rx timeout_ms 0 (uart_rx s)
  = Some (CY_SCB_UART_SUCCESS, RTC_CMD_ENABLE_DST, rx1) ->
  get_character_rx timeout_ms 0 rx1 = Some (CY_SCB_UART_SUCCESS, fmt, rx2) ->
  fmt = FIXED_DST_FORMAT \/ fmt = RELATIVE_DST_FORMAT ->
  fetch_time_data_rx zero_buffer timeout_ms rx2 = Some f1 ->
  dst_input_accepted sscanf f1 (0, 0, 0, 0) h1 d1 m1 y1 ->
  fetch_time_data_rx zero_buffer timeout_ms (f_rx f1) = Some f2 ->
  f_rslt f2 = CY_SCB_UART_SUCCESS ->
  f_space_count f2 = MIN_SPACE_KEY_COUNT_DST_TIME ->
  scan sscanf 4 (f_buffer f2) = Some new ->
  (length new <= 1)%nat ->
  hd h1 (map wrap32 new) <= 23 ->
  exists start stop,
    dst_rule_point Cy_RTC_ConvertDayOfWeek fmt h1 d1 m1 y1 = Some start
    /\ dst_rule_point Cy_RTC_ConvertDayOfWeek fmt (hd h1 (map wrap32 new)) d1 m1 y1
       = Some stop
    /\ (new = [] -> stop = start)
    /\ (next_rtc_reply s = CY_RSLT_SUCCESS ->
        exists s',
          set_dst_feature Cy_RTC_ConvertDayOfWeek sscanf timeout_ms s = Ret tt s'
          /\ dst_time s' = mkDst start stop
          /\ dst_data_flag s' = DST_ENABLED_FLAG
          /\ rtc_log s' = rtc_log s ++ [EnableDstTime (mkDst start stop) (rtc_clock s)]).
Proof.
  intros H1 H2 Hfmt Hf1 A1 Hf2 Hr2 Hsp2 Hscan Hlen Hhour.
  set (h2 := hd h1 (map wrap32 new)) in *.
  assert (sscanf4 sscanf (f_buffer f2) (h1, d1, m1, y1) = Some (h2, d1, m1, y1))
    as Hscan4.
  { unfold sscanf4. rewrite Hscan. subst h2.
    destruct new as [|a [|b new]]; [reflexivity | reflexivity|].
    cbn [length] in Hlen. lia. }
  assert (validate_date_time 0 0 h2 d1 m1 y1 = Some true) as V2.
  { destruct A1 as (_ & _ & _ & V1). apply validate_date_time_spec in V1.
    apply validate_date_time_spec. unfold date_time_in_range in *. tauto. }
  assert (dst_input_accepted sscanf f2 (h1, d1, m1, y1) h2 d1 m1 y1) as A2
    by (unfold dst_input_accepted; tauto).
  pose proof (is_dst_format_true fmt Hfmt) as Hfmt'.
  destruct (dst_rule_point_total Cy_RTC_ConvertDayOfWeek fmt h1 d1 m1 y1)
    as [start Hstart]; [apply A1|].
  destruct (dst_rule_point_total Cy_RTC_ConvertDayOfWeek fmt h2 d1 m1 y1)
    as [stop Hstop]; [exact V2|].
  exists start, stop. split; [exact Hstart|]. split; [exact Hstop|].
  split.
  - intros ->. subst h2. cbn [map hd] in Hstop. congruence.
  - intros Hok.
    rewrite (enable_flow_accepted Cy_RTC_ConvertDayOfWeek sscanf timeout_ms s fmt
               rx1 rx2 f1 f2 h1 d1 m1 y1 h2 d1 m1 y1 start stop
               H1 H2 Hfmt' Hf1 A1 Hf2 A2 Hstart Hstop).
    unfold dst_commit_outcome.
    match goal with
    | |- context [CY_RSLT_SUCCESS =? next_rtc_reply ?s0] =>
        replace (next_rtc_reply s0) with (next_rtc_reply s) by reflexivity
    end.
    rewrite Hok. change (CY_RSLT_SUCCESS =? CY_RSLT_SUCCESS) with true. cbv iota.
    eexists. split; [reflexivity|].
    split; [reflexivity|]. split; reflexivity.
Qed.

(** X20. At the DST menu a timeout, or any key other than '1' and '2', changes
    no global: schedule, flag, century_data, interrupt mask and driver log are
    as before. After the menu the console gets the timeout message, the exit
    message for '3', and nothing at all for any other key. *)
Theorem dst_menu_other_key_or_timeout_changes_nothing timeout_ms s rslt key rx :
  get_character_rx timeout_ms 0 (uart_rx s) = Some (rslt, key, rx) ->
  rslt = CY_SCB_UART_BAD_PARAM
  \/ (key <> RTC_CMD_ENABLE_DST /\ key <> RTC_CMD_DISABLE_DST) ->
  exists s',
    set_dst_feature Cy_RTC_ConvertDayOfWeek sscanf timeout_ms s = Ret tt s'
    /\ dst_time s' = dst_time s /\ dst_data_flag s' = dst_data_flag s
    /\ century_data s' = century_data s /\ irq_enabled s' = irq_enabled s
    /\ rtc_log s' = rtc_log s /\ rtc_replies s' = rtc_replies s
    /\ uart_rx s' = rx
    /\ console s'
       = console (dst_menu_shown s)
         ++ (if uart_ok rslt
             then if RTC_CMD_QUIT_CONFIG_DST =? key
                  then [Print MsgExitDstConfig] else []
             else [Print MsgTimeout]).
Proof.
  intros Hkey Hother.
  exists ((if uart_ok rslt
           then if RTC_CMD_QUIT_CONFIG_DST =? key
                then say [Print MsgExitDstConfig] else fun s0 => s0
           else say [Print MsgTimeout])
            (set_uart_rx rx (dst_menu_shown s))).
  split.
  - unfold set_dst_feature.
    rewrite (bind_run _ _ _ _ _ (dst_show_menu_run s)).
    rewrite (bind_run _ _ _ _ _
               (get_character_run _ _ (dst_menu_shown s) _ _ _ Hkey)).
    destruct rslt; cbn [uart_ok]; [|reflexivity].
    destruct Hother as [E | [N1 N2]]; [discriminate E|].
    replace (RTC_CMD_ENABLE_DST =? key) with false
      by (symmetry; apply Z.eqb_neq; congruence).
    replace (RTC_CMD_DISABLE_DST =? key) with false
      by (symmetry; apply Z.eqb_neq; congruence).
    destruct (RTC_CMD_QUIT_CONFIG_DST =? key); reflexivity.
  - destruct rslt; cbn [uart_ok]; [destruct (RTC_CMD_QUIT_CONFIG_DST =? key)|];
      repeat split; try reflexivity.
    fields. symmetry. apply app_nil_r.
Qed.

(** X18. In the enable flow a format selector other than '1' and '2' makes
    both prompts refuse their lines: from any state whose flag is not
    DST_VALID_END_TIME_FLAG the run captures and commits nothing; schedule,
    flag, driver log, century_data and interrupt mask are unchanged and the
    run does not park. *)
Theorem enable_with_unknown_format_captures_nothing timeout_ms s fmt rx1 rx2 :
  get_character_rx timeout_ms 0 (uart_rx s)
  = Some (CY_SCB_UART_SUCCESS, RTC_CMD_ENABLE_DST, rx1) ->
  get_character_rx timeout_ms 0 rx1 = Some (CY_SCB_UART_SUCCESS, fmt, rx2) ->
  fmt <> FIXED_DST_FORMAT -> fmt <> RELATIVE_DST_FORMAT ->
  dst_data_flag s <> DST_VALID_END_TIME_FLAG ->
  outcome_sat (set_dst_feature Cy_RTC_ConvertDayOfWeek sscanf timeout_ms s)
    (fun _ s' =>
       dst_time s' = dst_time s /\ dst_data_flag s' = dst_data_flag s
       /\ rtc_log s' = rtc_log s /\ rtc_replies s' = rtc_replies s
       /\ century_data s' = century_data s /\ irq_enabled s' = irq_enabled s)
    (fun _ => False).
Proof.
  intros H1 H2 Hfixed Hrelative Hflag.
  assert (is_dst_format fmt = false) as Hfmt.
  { unfold is_dst_format. apply Z.eqb_neq in Hfixed, Hrelative.
    rewrite Hfixed, Hrelative. reflexivity. }
  rewrite (set_dst_feature_enable Cy_RTC_ConvertDayOfWeek sscanf timeout_ms s fmt
             rx1 rx2 H1 H2).
  unfold dst_start_step, dst_end_step, dst_commit_step.
  repeat flow_step.
  all: try match goal with
           | B : _ && is_dst_format _ = true |- _ =>
               rewrite Hfmt, andb_false_r in B; discriminate B
           end.
  all: try match goal with
           | B : (DST_VALID_END_TIME_FLAG =? _) = true |- _ =>
               exfalso; apply Z.eqb_eq in B; apply Hflag; symmetry; exact B
           end.
  all: repeat split; reflexivity.
Qed.
End DstAndLoopProperties.

(** ** Further properties of the main loop *)

Lemma outcome_sat_cases {A} (o : outcome A) (Q : A -> state -> Prop)
    (E : state -> Prop) :
  outcome_sat o Q E ->
  (forall a s', o = Ret a s' -> Q a s') /\ (forall s', o = Parked s' -> E s').
Proof.
  intros H. split.
  - intros a s' Eo. rewrite Eo in H. exact H.
  - intros s' Eo. rewrite Eo in H. exact H.
Qed.

Lemma bind_stuck {A B} (m : M A) (k : A -> M B) s f :
  m s = Stuck f -> bind m k s = Stuck f.
Proof. intros H. unfold bind. rewrite H. reflexivity. Qed.

(** [construct_time_format] returns, leaving the globals alone, when the
    month in [current_time] is one of 1..12. *)
Lemma construct_time_format_returns leap s :
  uint32 (t_month (current_time s)) ->
  1 <= t_month (current_time s) <= 12 ->
  exists time, construct_time_format leap s = Ret time s.
Proof.
  intros Hu Hm. unfold construct_time_format.
  destruct (result (construct_time_format_run leap (current_time s) (century_data s)))
    as [time|] eqn:E.
  - exists time. reflexivity.
  - exfalso. revert E. apply construct_time_format_run_result.
    apply month_index; [exact Hu | exact Hm].
Qed.

(** With any other month it reads CUMULATIVE_DAYS outside the table. *)
Lemma construct_time_format_goes_wrong leap s :
  uint32 (t_month (current_time s)) ->
  ~ 1 <= t_month (current_time s) <= 12 ->
  construct_time_format leap s = Stuck OutOfBounds.
Proof.
  intros Hu Hm. unfold construct_time_format.
  destruct (result (construct_time_format_run leap (current_time s) (century_data s)))
    as [time|] eqn:E.
  - exfalso. apply Hm. apply (month_index _ Hu).
    apply (construct_time_format_run_result leap (current_time s) (century_data s)).
    rewrite E. discriminate.
  - reflexivity.
Qed.

Section MainLoopProperties.
Variable Cy_RTC_ConvertDayOfWeek : Z -> Z -> Z -> Z.
Variable sscanf : nat -> list Z -> list Z.
Variable Cy_RTC_IsLeapYear : Z -> bool.

(** X22. The main loop keeps its invariant over any number of passes, on the
    runs that do not go wrong.  From a state where the invariant holds, and
    whatever is typed and whatever the driver answers: if the passes run to
    their end, then dst_data_flag is DST_DISABLED_FLAG,
    DST_VALID_START_TIME_FLAG or DST_ENABLED_FLAG (never
    DST_VALID_END_TIME_FLAG), interrupts are on, century_data is a multiple
    of 100, a captured start rule is in range, and every call made to the
    driver had its fields in range; if the loop is parked in handle_error,
    then interrupts are off, century_data is a multiple of 100 and the calls
    made were all in range.  Nothing is stated of a run that goes wrong, as a
    pass does in construct_time_format when the month read from the clock is
    not one of 1..12, or in sscanf on a buffer filled to its last byte. *)
Theorem main_loop_keeps_loop_invariant passes uninit cmd s :
  uint32_vars6 uninit ->
  loop_invariant s ->
  (forall s',
      main_loop Cy_RTC_ConvertDayOfWeek sscanf Cy_RTC_IsLeapYear passes uninit cmd s
      = Ret tt s' ->
      (dst_data_flag s' = DST_DISABLED_FLAG
       \/ dst_data_flag s' = DST_VALID_START_TIME_FLAG
       \/ dst_data_flag s' = DST_ENABLED_FLAG)
      /\ irq_enabled s' = true
      /\ century_data s' mod 100 = 0
      /\ Forall commit_in_range (rtc_log s')
      /\ loop_invariant s')
  /\ (forall s',
         main_loop Cy_RTC_ConvertDayOfWeek sscanf Cy_RTC_IsLeapYear passes uninit cmd s
         = Parked s' ->
         irq_enabled s' = false
         /\ century_data s' mod 100 = 0
         /\ Forall commit_in_range (rtc_log s')).
Proof.
  intros Hu Hinv.
  destruct (outcome_sat_cases _ _ _
              (main_loop_keeps_invariant Cy_RTC_ConvertDayOfWeek sscanf
                 Cy_RTC_IsLeapYear passes uninit cmd s Hu Hinv)) as [Hret Hparked].
  split.
  - intros s' Hrun. pose proof (Hret tt s' Hrun) as H.
    pose proof H as (Hf & Hi & Hc & _ & Hl).
    split; [exact Hf|]. split; [exact Hi|]. split; [exact Hc|].
    split; [exact Hl | exact H].
  - intros s' Hrun. exact (Hparked s' Hrun).
Qed.

(** X21. A pass of the main loop without a command (no key within
    UART_TIMEOUT_MS, or a key other than '1' and '2').  When the month read
    from the clock is one of 1..12, the pass only reads the clock into
    current_time and shows it: the interrupt mask is restored, cmd keeps its
    old value on a timeout, and century_data, schedule, flag and driver state
    are untouched.  When the month read from the clock is any other unsigned
    32-bit value, the pass goes wrong before anything is shown:
    construct_time_format reads CUMULATIVE_DAYS outside the table. *)
Theorem main_loop_pass_without_command uninit cmd s rslt cmd' rx :
  uint32 (t_month (rtc_clock s)) ->
  get_character_rx UART_TIMEOUT_MS cmd (uart_rx s) = Some (rslt, cmd', rx) ->
  rslt = CY_SCB_UART_BAD_PARAM
  \/ (cmd' <> RTC_CMD_SET_DATE_TIME /\ cmd' <> RTC_CMD_CONFIG_DST) ->
  (1 <= t_month (rtc_clock s) <= 12 ->
   exists s',
     main_loop_body Cy_RTC_ConvertDayOfWeek sscanf Cy_RTC_IsLeapYear uninit cmd s
     = Ret cmd' s'
     /\ (rslt = CY_SCB_UART_BAD_PARAM -> cmd' = cmd)
     /\ current_time s' = rtc_clock s
     /\ console s' = console s ++ [ShowClock (rtc_clock s) (century_data s)]
     /\ uart_rx s' = rx
     /\ irq_enabled s' = irq_enabled s
     /\ century_data s' = century_data s
     /\ dst_time s' = dst_time s /\ dst_data_flag s' = dst_data_flag s
     /\ rtc_log s' = rtc_log s /\ rtc_replies s' = rtc_replies s)
  /\ (~ 1 <= t_month (rtc_clock s) <= 12 ->
      main_loop_body Cy_RTC_ConvertDayOfWeek sscanf Cy_RTC_IsLeapYear uninit cmd s
      = Stuck OutOfBounds).
Proof.
  intros Hu Hkey Hother. split.
  - intros Hm.
    exists (set_uart_rx rx
              (say [ShowClock (rtc_clock s) (century_data s)]
                 (set_irq_enabled (irq_enabled s)
                    (set_current_time (rtc_clock s) (set_irq_enabled false s))))).
    split.
    + destruct (construct_time_format_returns Cy_RTC_IsLeapYear
                  (set_irq_enabled (irq_enabled s)
                     (set_current_time (rtc_clock s) (set_irq_enabled false s)))
                  Hu Hm) as [date_time Htime].
      unfold main_loop_body. do 4 step.
      erewrite bind_run by (exact Htime).
      step.
      erewrite bind_run by (apply get_character_run; exact Hkey).
      cbv beta iota.
      destruct rslt; cbn [uart_ok].
      * destruct Hother as [E | [N1 N2]]; [discriminate E|].
        replace (RTC_CMD_SET_DATE_TIME =? cmd') with false
          by (symmetry; apply Z.eqb_neq; congruence).
        replace (RTC_CMD_CONFIG_DST =? cmd') with false
          by (symmetry; apply Z.eqb_neq; congruence).
        reflexivity.
      * reflexivity.
    + split.
      * intros ->. eapply get_character_rx_keeps_value. exact Hkey.
      * repeat split; reflexivity.
  - intros Hm.
    pose proof (construct_time_format_goes_wrong Cy_RTC_IsLeapYear
                  (set_irq_enabled (irq_enabled s)
                     (set_current_time (rtc_clock s) (set_irq_enabled false s)))
                  Hu Hm) as Hwrong.
    unfold main_loop_body. do 4 step.
    apply bind_stuck. exact Hwrong.
Qed.
End MainLoopProperties.

(** ** The further properties on typed sessions *)

Lemma loop_invariant_boot rx replies : loop_invariant (boot_state rx replies).
Proof.
  unfold loop_invariant. split; [left; reflexivity|].
  split; [reflexivity|]. split; [reflexivity|].
  split; [intros H; discriminate H | apply Forall_nil].
Qed.

Lemma set_new_time_commits_only_validated_times_witness :
  outcome_sat
    (set_new_time decimal_sscanf INPUT_TIMEOUT_MS (0, 0, 0, 0, 0, 0)
       (boot_state typed_second_60 []))
    (fun _ s' =>
       (rtc_log s' = rtc_log (boot_state typed_second_60 [])
        /\ rtc_replies s' = rtc_replies (boot_state typed_second_60 [])
        /\ century_data s' = century_data (boot_state typed_second_60 []))
       \/ exists hour min sec mday month year,
            rtc_log s'
            = rtc_log (boot_state typed_second_60 [])
              ++ [SetDateAndTimeDirect sec min hour mday month (year mod 100)]
            /\ rtc_replies s' = tl (rtc_replies (boot_state typed_second_60 []))
            /\ 0 <= sec <= 60 /\ 0 <= min <= 60 /\ 0 <= hour <= 23
            /\ 1 <= month <= 12 /\ 1 <= mday <= month_length month year
            /\ 0 < year < 2 ^ 32 /\ 0 <= year mod 100 <= 99
            /\ century_data s' = year - year mod 100)
    (fun _ => False).
Proof.
  apply (set_new_time_commits_only_validated_times decimal_sscanf INPUT_TIMEOUT_MS
           (0, 0, 0, 0, 0, 0) (boot_state typed_second_60 [])).
  unfold uint32_vars6, uint32. simpl. lia.
Defined.

Lemma main_loop_keeps_loop_invariant_witness :
  (exists s',
      main_loop gregorian_day_of_week decimal_sscanf IS_LEAP_YEAR 2
        (0, 0, 0, 0, 0, 0) 0
        (boot_state (RTC_CMD_SET_DATE_TIME :: typed_second_60) [rtc_rejection])
      = Ret tt s'
      /\ (dst_data_flag s' = DST_DISABLED_FLAG
          \/ dst_data_flag s' = DST_VALID_START_TIME_FLAG
          \/ dst_data_flag s' = DST_ENABLED_FLAG)
      /\ irq_enabled s' = true
      /\ century_data s' mod 100 = 0
      /\ Forall commit_in_range (rtc_log s')
      /\ loop_invariant s')
  /\ (exists s',
         main_loop gregorian_day_of_week decimal_sscanf IS_LEAP_YEAR 2
           (0, 0, 0, 0, 0, 0) 0
           (boot_state (RTC_CMD_CONFIG_DST :: typed_enable_session) [rtc_rejection])
         = Parked s'
         /\ irq_enabled s' = false
         /\ century_data s' mod 100 = 0
         /\ Forall commit_in_range (rtc_log s')).
Proof.
  split.
  - destruct (main_loop_keeps_loop_invariant gregorian_day_of_week decimal_sscanf
                IS_LEAP_YEAR 2 (0, 0, 0, 0, 0, 0) 0
                (boot_state (RTC_CMD_SET_DATE_TIME :: typed_second_60) [rtc_rejection]))
      as [Hret _].
    + unfold uint32_vars6, uint32. simpl. lia.
    + apply loop_invariant_boot.
    + destruct (main_loop gregorian_day_of_week decimal_sscanf IS_LEAP_YEAR 2
                  (0, 0, 0, 0, 0, 0) 0
                  (boot_state (RTC_CMD_SET_DATE_TIME :: typed_second_60)
                     [rtc_rejection])) as [[] s'|s'|f] eqn:Hrun.
      * exists s'. split; [reflexivity|]. apply Hret. reflexivity.
      * exfalso. vm_compute in Hrun. discriminate Hrun.
      * exfalso. vm_compute in Hrun. discriminate Hrun.
  - destruct (main_loop_keeps_loop_invariant gregorian_day_of_week decimal_sscanf
                IS_LEAP_YEAR 2 (0, 0, 0, 0, 0, 0) 0
                (boot_state (RTC_CMD_CONFIG_DST :: typed_enable_session)
                   [rtc_rejection]))
      as [_ Hparked].
    + unfold uint32_vars6, uint32. simpl. lia.
    + apply loop_invariant_boot.
    + destruct (main_loop gregorian_day_of_week decimal_sscanf IS_LEAP_YEAR 2
                  (0, 0, 0, 0, 0, 0) 0
                  (boot_state (RTC_CMD_CONFIG_DST :: typed_enable_session)
                     [rtc_rejection])) as [[] s'|s'|f] eqn:Hrun.
      * exfalso. vm_compute in Hrun. discriminate Hrun.
      * exists s'. split; [reflexivity|]. apply Hparked. reflexivity.
      * exfalso. vm_compute in Hrun. discriminate Hrun.
Defined.

Lemma typed_full_line_chars :
  Forall (fun c => 0 < c < 256 /\ c <> 10 /\ c <> 13) typed_full_line.
Proof.
  unfold typed_full_line. apply Forall_app. split.
  - repeat constructor; lia.
  - apply Forall_forall. intros c Hc. apply repeat_spec in Hc. subst c. lia.
Qed.

Lemma full_buffer_line_is_scanned_past_its_end_witness :
  fetch_time_data_rx zero_buffer INPUT_TIMEOUT_MS
    (uart_rx (boot_state (typed_full_line ++ [13]) []))
  = Some (mkFetched CY_SCB_UART_SUCCESS typed_full_line MIN_SPACE_KEY_COUNT_NEW_TIME
            typed_full_line [13])
  /\ c_string typed_full_line = None
  /\ set_new_time decimal_sscanf INPUT_TIMEOUT_MS (0, 0, 0, 0, 0, 0)
       (boot_state (typed_full_line ++ [13]) [])
     = Stuck OutOfBounds.
Proof.
  apply (full_buffer_line_is_scanned_past_its_end decimal_sscanf INPUT_TIMEOUT_MS
           (0, 0, 0, 0, 0, 0) (boot_state (typed_full_line ++ [13]) [])
           typed_full_line [13]).
  - reflexivity.
  - exact typed_full_line_chars.
  - reflexivity.
  - reflexivity.
  - vm_compute; reflexivity.
Defined.

Lemma set_new_time_goes_wrong_only_on_full_buffer_witness :
  OutOfBounds = OutOfBounds
  /\ exists f,
       fetch_time_data_rx zero_buffer INPUT_TIMEOUT_MS
         (uart_rx (boot_state (typed_full_line ++ [13]) [])) = Some f
       /\ f_rslt f = CY_SCB_UART_SUCCESS
       /\ f_space_count f = MIN_SPACE_KEY_COUNT_NEW_TIME
       /\ length (f_echo f) = 80%nat
       /\ f_buffer f = f_echo f
       /\ c_string (f_buffer f) = None.
Proof.
  apply (set_new_time_goes_wrong_only_on_full_buffer decimal_sscanf INPUT_TIMEOUT_MS
           (0, 0, 0, 0, 0, 0) (boot_state (typed_full_line ++ [13]) []) OutOfBounds).
  vm_compute; reflexivity.
Defined.

Lemma displayed_year_is_the_year_typed_witness :
  exists s' time,
    set_new_time decimal_sscanf INPUT_TIMEOUT_MS (0, 0, 0, 0, 0, 0)
      (boot_state typed_second_60 []) = Ret tt s'
    /\ century_data s' + t_year (mkRtcConfig 0 31 12 15 6 25 2) = 2125
    /\ result (construct_time_format_run IS_LEAP_YEAR (mkRtcConfig 0 31 12 15 6 25 2)
                 (century_data s'))
       = Some time
    /\ tm_year time + TM_YEAR_BASE = 2125.
Proof.
  apply (displayed_year_is_the_year_typed decimal_sscanf IS_LEAP_YEAR INPUT_TIMEOUT_MS
           (0, 0, 0, 0, 0, 0) (boot_state typed_second_60 [])
           (fetched_line typed_second_60) 12 30 60 15 6 2125
           (mkRtcConfig 0 31 12 15 6 25 2)).
  - vm_compute; reflexivity.
  - vm_compute; reflexivity.
  - vm_compute; reflexivity.
  - vm_compute; reflexivity.
  - vm_compute; reflexivity.
  - vm_compute; reflexivity.
  - reflexivity.
  - simpl; lia.
Defined.

Lemma end_line_partial_scan_keeps_start_fields_witness :
  exists start stop,
    dst_rule_point gregorian_day_of_week FIXED_DST_FORMAT 2 30 3 2025 = Some start
    /\ dst_rule_point gregorian_day_of_week FIXED_DST_FORMAT
         (hd 2 (map wrap32 [3])) 30 3 2025
       = Some stop
    /\ ([3] = [] -> stop = start)
    /\ (next_rtc_reply (boot_state typed_partial_session []) = CY_RSLT_SUCCESS ->
        exists s',
          set_dst_feature gregorian_day_of_week decimal_sscanf INPUT_TIMEOUT_MS
            (boot_state typed_partial_session []) = Ret tt s'
          /\ dst_time s' = mkDst start stop
          /\ dst_data_flag s' = DST_ENABLED_FLAG
          /\ rtc_log s'
             = rtc_log (boot_state typed_partial_session [])
               ++ [EnableDstTime (mkDst start stop)
                     (rtc_clock (boot_state typed_partial_session []))]).
Proof.
  apply (end_line_partial_scan_keeps_start_fields gregorian_day_of_week
           decimal_sscanf INPUT_TIMEOUT_MS (boot_state typed_partial_session [])
           FIXED_DST_FORMAT
           (FIXED_DST_FORMAT :: typed_start_line ++ typed_partial_end_line)
           (typed_start_line ++ typed_partial_end_line)
           (fetched_line (typed_start_line ++ typed_partial_end_line))
           (fetched_line typed_partial_end_line) 2 30 3 2025 [3]).
  - vm_compute; reflexivity.
  - vm_compute; reflexivity.
  - left; reflexivity.
  - vm_compute; reflexivity.
  - unfold dst_input_accepted; evaluate.
  - vm_compute; reflexivity.
  - vm_compute; reflexivity.
  - vm_compute; reflexivity.
  - vm_compute; reflexivity.
  - simpl; lia.
  - vm_compute; discriminate.
Defined.

Lemma dst_menu_other_key_or_timeout_changes_nothing_witness :
  exists s',
    set_dst_feature gregorian_day_of_week decimal_sscanf INPUT_TIMEOUT_MS
      (start_captured_state [RTC_CMD_QUIT_CONFIG_DST] []) = Ret tt s'
    /\ dst_time s' = dst_time (start_captured_state [RTC_CMD_QUIT_CONFIG_DST] [])
    /\ dst_data_flag s' = DST_VALID_START_TIME_FLAG
    /\ rtc_log s' = []
    /\ last (console s') (Print MsgTimeout) = Print MsgExitDstConfig.
Proof.
  destruct (dst_menu_other_key_or_timeout_changes_nothing gregorian_day_of_week
              decimal_sscanf INPUT_TIMEOUT_MS
              (start_captured_state [RTC_CMD_QUIT_CONFIG_DST] [])
              CY_SCB_UART_SUCCESS RTC_CMD_QUIT_CONFIG_DST [])
    as (s' & Hrun & Hdst & Hflag & _ & _ & Hlog & _ & _ & Hcon).
  - vm_compute; reflexivity.
  - right. split; discriminate.
  - exists s'. split; [exact Hrun|]. split; [exact Hdst|].
    split; [exact Hflag|]. split; [exact Hlog|].
    rewrite Hcon. vm_compute. reflexivity.
Defined.

Lemma main_loop_pass_without_command_witness :
  (exists s',
      main_loop_body gregorian_day_of_week decimal_sscanf IS_LEAP_YEAR
        (0, 0, 0, 0, 0, 0) 65 (boot_state [] []) = Ret 65 s'
      /\ current_time s' = mkRtcConfig 30 15 9 14 6 25 7
      /\ console s' = [ShowClock (mkRtcConfig 30 15 9 14 6 25 7) 2000]
      /\ irq_enabled s' = true
      /\ rtc_log s' = [])
  /\ main_loop_body gregorian_day_of_week decimal_sscanf IS_LEAP_YEAR
       (0, 0, 0, 0, 0, 0) 65 (boot_state_clock_at_zero [] [])
     = Stuck OutOfBounds.
Proof.
  split.
  - destruct (main_loop_pass_without_command gregorian_day_of_week decimal_sscanf
                IS_LEAP_YEAR (0, 0, 0, 0, 0, 0) 65 (boot_state [] [])
                CY_SCB_UART_BAD_PARAM 65 [])
      as [Hret _].
    + unfold uint32. simpl. lia.
    + vm_compute; reflexivity.
    + left; reflexivity.
    + destruct Hret
        as (s' & Hrun & _ & Hnow & Hcon & _ & Hirq & _ & _ & _ & Hlog & _).
      { simpl. lia. }
      exists s'. split; [exact Hrun|]. split; [exact Hnow|].
      split; [exact Hcon|]. split; [exact Hirq | exact Hlog].
  - destruct (main_loop_pass_without_command gregorian_day_of_week decimal_sscanf
                IS_LEAP_YEAR (0, 0, 0, 0, 0, 0) 65 (boot_state_clock_at_zero [] [])
                CY_SCB_UART_BAD_PARAM 65 [])
      as [_ Hwrong].
    + unfold uint32. simpl. lia.
    + vm_compute; reflexivity.
    + left; reflexivity.
    + apply Hwrong. simpl. lia.
Defined.

Lemma enable_with_unknown_format_captures_nothing_witness :
  outcome_sat
    (set_dst_feature gregorian_day_of_week decimal_sscanf INPUT_TIMEOUT_MS
       (start_captured_state (RTC_CMD_ENABLE_DST :: 57 :: typed_times) []))
    (fun _ s' =>
       dst_time s'
       = dst_time (start_captured_state (RTC_CMD_ENABLE_DST :: 57 :: typed_times) [])
       /\ dst_data_flag s'
          = dst_data_flag
              (start_captured_state (RTC_CMD_ENABLE_DST :: 57 :: typed_times) [])
       /\ rtc_log s'
          = rtc_log (start_captured_state (RTC_CMD_ENABLE_DST :: 57 :: typed_times) [])
       /\ rtc_replies s'
          = rtc_replies
              (start_captured_state (RTC_CMD_ENABLE_DST :: 57 :: typed_times) [])
       /\ century_data s'
          = century_data
              (start_captured_state (RTC_CMD_ENABLE_DST :: 57 :: typed_times) [])
       /\ irq_enabled s'
          = irq_enabled
              (start_captured_state (RTC_CMD_ENABLE_DST :: 57 :: typed_times) []))
    (fun _ => False).
Proof.
  apply (enable_with_unknown_format_captures_nothing gregorian_day_of_week
           decimal_sscanf INPUT_TIMEOUT_MS
           (start_captured_state (RTC_CMD_ENABLE_DST :: 57 :: typed_times) [])
           57 (57 :: typed_times) typed_times).
  - vm_compute; reflexivity.
  - vm_compute; reflexivity.
  - discriminate.
  - discriminate.
  - discriminate.
Defined.
